(** * USB Cellular Airbridge: the modem transaction engine, the resumable
      FTP transfer, the harvest orchestrator and the outbox uploader,
      embedded from [modem_handler.py], [main.py] and [ftp_uploader.py].

    Conventions of the embedding.
    - Python [str] and [bytes] values are [string]s (one [ascii] per byte).
    - Python integers are [Z]; list positions are [nat].
    - [time.time()] is the field [now] of the world, in milliseconds; the
      clock advances by [time.sleep] only (an idealised clock: every other
      statement takes no time).
    - The serial port is a script [rx]: one entry per poll of
      [ser.in_waiting], [None] when nothing is waiting and [Some s] when the
      waiting bytes decode to [s].  Every real run of the modem corresponds
      to one script, so a statement proved for all scripts holds for all
      modems.
    - A [path] is the list of components below the mount point; the volume
      holds regular files only.
    - [print] and [log] output is not part of the model. *)

From Stdlib Require Import ZArith List String Ascii Bool Lia Arith.
From Stdlib Require Import DecimalString.
From Equations Require Import Equations.
Import ListNotations.

Local Open Scope string_scope.
Local Open Scope Z_scope.

(** ** Strings *)

(** Python's [needle in hay]. *)
Fixpoint contains (needle hay : string) : bool :=
  if String.prefix needle hay then true
  else match hay with
       | EmptyString => false
       | String _ rest => contains needle rest
       end.

(** [needle] occurs in [hay]: the mathematical reading of [in]. *)
Definition Occurs (needle hay : string) : Prop :=
  exists pre post, hay = pre ++ needle ++ post.

(** Python's [s.startswith(p)] and [s.endswith(p)]. *)
Definition startswith (s p : string) : bool := String.prefix p s.

Definition endswith (s p : string) : bool :=
  let n := String.length s in
  let m := String.length p in
  if (m <=? n)%nat then String.eqb (String.substring (n - m) m s) p else false.

(** ** The world *)

Definition path := list string.

(** The JSON object of [save_progress]. *)
Record Progress := mkProgress {
  pr_filepath : path;
  pr_bytes_sent : Z;
  pr_timestamp : Z
}.

Inductive Event :=
| EvReset                 (* ser.reset_input_buffer() *)
| EvCmd (line : string)   (* ser.write of an encoded command line *)
| EvData (chunk : string) (* ser.write(chunk), raw file bytes *)
| EvPoll (ms : Z)         (* time.sleep between two polls of a transaction *)
| EvSleep (ms : Z)        (* every other time.sleep *)
| EvSaveProgress (p : Progress) (* json.dump to PROGRESS_FILE *)
| EvClearProgress.        (* os.remove(PROGRESS_FILE) *)

Record World := mkWorld {
  now : Z;
  rx : list (option string);
  trace : list Event;
  progress_file : option Progress;
  volume : list (path * string);
  mounted : bool;
  gadget_loaded : bool;
  mountable : bool;
  loadable : bool
}.

Definition set_now (t : Z) (w : World) : World :=
  mkWorld t (rx w) (trace w) (progress_file w) (volume w)
          (mounted w) (gadget_loaded w) (mountable w) (loadable w).

Definition set_rx (r : list (option string)) (w : World) : World :=
  mkWorld (now w) r (trace w) (progress_file w) (volume w)
          (mounted w) (gadget_loaded w) (mountable w) (loadable w).

Definition set_trace (t : list Event) (w : World) : World :=
  mkWorld (now w) (rx w) t (progress_file w) (volume w)
          (mounted w) (gadget_loaded w) (mountable w) (loadable w).

Definition set_progress (p : option Progress) (w : World) : World :=
  mkWorld (now w) (rx w) (trace w) p (volume w)
          (mounted w) (gadget_loaded w) (mountable w) (loadable w).

Definition set_volume (v : list (path * string)) (w : World) : World :=
  mkWorld (now w) (rx w) (trace w) (progress_file w) v
          (mounted w) (gadget_loaded w) (mountable w) (loadable w).

Definition set_mounted (b : bool) (w : World) : World :=
  mkWorld (now w) (rx w) (trace w) (progress_file w) (volume w)
          b (gadget_loaded w) (mountable w) (loadable w).

Definition set_gadget (b : bool) (w : World) : World :=
  mkWorld (now w) (rx w) (trace w) (progress_file w) (volume w)
          (mounted w) b (mountable w) (loadable w).

Definition emit (e : Event) (w : World) : World :=
  set_trace (trace w ++ [e]) w.

(** [time.sleep(ms)] *)
Definition sleep (ms : Z) (w : World) : World :=
  emit (EvSleep ms) (set_now (now w + ms) w).

(** [time.sleep(ms)] between two polls of [send_at] or [wait_for_response] *)
Definition poll_sleep (ms : Z) (w : World) : World :=
  emit (EvPoll ms) (set_now (now w + ms) w).

(** [ser.reset_input_buffer()] *)
Definition reset_input_buffer (w : World) : World := emit EvReset w.

(** [ser.write((line).encode())] *)
Definition ser_write (line : string) (w : World) : World := emit (EvCmd line) w.

(** [ser.write(chunk)] *)
Definition ser_write_data (chunk : string) (w : World) : World :=
  emit (EvData chunk) w.

(** [ser.in_waiting] at this poll, already decoded. *)
Definition in_waiting (w : World) : option string :=
  match rx w with
  | [] => None
  | x :: _ => x
  end.

(** The script moves on to the next poll. *)
Definition next_poll (w : World) : World := set_rx (tl (rx w)) w.

(** ** Command transaction engine *)

Definition crlf : string := String (ascii_of_nat 13) (String (ascii_of_nat 10) "").

(** The polling loop of [send_at]: 50 ms between polls. *)
Equations? send_at_loop (expected : string) (start timeout : Z)
  (response : string) (w : World) : (bool * string) * World
  by wf (Z.to_nat (timeout - (now w - start))) lt :=
send_at_loop expected start timeout response w
  with Z_lt_dec (now w - start) timeout => {
  | right _ := ((false, response), w);
  | left _ with in_waiting w => {
    | Some s :=
        if contains expected (response ++ s) || contains "ERROR" (response ++ s)
        then ((contains expected (response ++ s), response ++ s), next_poll w)
        else send_at_loop expected start timeout (response ++ s)
                          (poll_sleep 50 (next_poll w));
    | None := send_at_loop expected start timeout response
                           (poll_sleep 50 (next_poll w)) } }.
Proof. all: simpl; lia. Qed.

Definition send_at (command expected : string) (timeout : Z) (w : World)
  : (bool * string) * World :=
  let w1 := reset_input_buffer w in
  let w2 := ser_write (command ++ crlf) w1 in
  send_at_loop expected (now w2) timeout "" w2.

(** The polling loop of [wait_for_response]: 100 ms between polls. *)
Equations? wait_loop (expected : string) (start timeout : Z)
  (response : string) (w : World) : (bool * string) * World
  by wf (Z.to_nat (timeout - (now w - start))) lt :=
wait_loop expected start timeout response w
  with Z_lt_dec (now w - start) timeout => {
  | right _ := ((false, response), w);
  | left _ with in_waiting w => {
    | Some s :=
        if contains expected (response ++ s)
        then ((true, response ++ s), next_poll w)
        else if contains "ERROR" (response ++ s)
        then ((false, response ++ s), next_poll w)
        else wait_loop expected start timeout (response ++ s)
                       (poll_sleep 100 (next_poll w));
    | None := wait_loop expected start timeout response
                        (poll_sleep 100 (next_poll w)) } }.
Proof. all: simpl; lia. Qed.

Definition wait_for_response (expected : string) (timeout : Z) (w : World)
  : (bool * string) * World :=
  wait_loop expected (now w) timeout "" w.


(** ** More of Python's string functions *)

Definition dq : string := String (ascii_of_nat 34) "".

Definition quoted (s : string) : string := dq ++ s ++ dq.

(** [str(n)] and [f"{n}"] for an integer. *)
Definition string_of_Z (n : Z) : string := NilZero.string_of_int (Z.to_int n).

Definition len (s : string) : Z := Z.of_nat (String.length s).

Fixpoint str_take (n : nat) (s : string) : string :=
  match n, s with
  | S n', String c r => String c (str_take n' r)
  | _, _ => ""
  end.

Fixpoint str_drop (n : nat) (s : string) : string :=
  match n, s with
  | S n', String _ r => str_drop n' r
  | _, _ => s
  end.

(** [s.split(",")[-1]]: what follows the last comma. *)
Fixpoint last_field_from (field s : string) : string :=
  match s with
  | "" => field
  | String c r =>
      if Ascii.eqb c "," then last_field_from "" r
      else last_field_from (field ++ String c "") r
  end.

Definition last_field (s : string) : string := last_field_from "" s.

(** [c.isspace()] on ASCII. *)
Definition is_space (c : ascii) : bool :=
  let n := nat_of_ascii c in
  ((9 <=? n) && (n <=? 13) || (28 <=? n) && (n <=? 32))%nat.

Fixpoint lstrip (s : string) : string :=
  match s with
  | String c r => if is_space c then lstrip r else s
  | "" => ""
  end.

Fixpoint rstrip (s : string) : string :=
  match s with
  | "" => ""
  | String c r =>
      match rstrip r with
      | "" => if is_space c then "" else String c ""
      | r' => String c r'
      end
  end.

(** [s.strip()] *)
Definition strip (s : string) : string := rstrip (lstrip s).

Definition is_digit (c : ascii) : bool :=
  let n := nat_of_ascii c in ((48 <=? n) && (n <=? 57))%nat.

(** The digits of a decimal literal, single underscores allowed between
    digits. *)
Fixpoint digits_value (acc : Z) (after_digit : bool) (s : string) : option Z :=
  match s with
  | "" => if after_digit then Some acc else None
  | String c r =>
      if is_digit c
      then digits_value (10 * acc + (Z.of_nat (nat_of_ascii c) - 48)) true r
      else if Ascii.eqb c "_"
      then (if after_digit then digits_value acc false r else None)
      else None
  end.

(** [int(s)] on ASCII text; [None] stands for [ValueError].  The digits
    are the ASCII ones, and no limit is put on their number (CPython 3.11
    and later refuse more than 4300). *)
Definition py_int (s : string) : option Z :=
  match strip s with
  | String "+" r => digits_value 0 false r
  | String "-" r => option_map Z.opp (digits_value 0 false r)
  | t => digits_value 0 false t
  end.

(** ** Paths and the file system *)

Definition path_eqb (p q : path) : bool :=
  if list_eq_dec string_dec p q then true else false.

(** [os.path.basename] *)
Definition basename (p : path) : string := last p "".

(** The text of a path, as it appears in messages. *)
Definition path_string (p : path) : string := String.concat "/" p.

Fixpoint lookup_file (p : path) (v : list (path * string)) : option string :=
  match v with
  | [] => None
  | (q, c) :: v' => if path_eqb q p then Some c else lookup_file p v'
  end.

(** What [open(filepath, "rb").read()] would give, [None] when
    [os.path.exists(filepath)] is false.  The volume is visible only while
    it is mounted. *)
Definition read_file (p : path) (w : World) : option string :=
  if mounted w then lookup_file p (volume w) else None.

(** [os.remove(filepath)] *)
Definition os_remove (p : path) (w : World) : World :=
  if mounted w
  then set_volume (filter (fun e => negb (path_eqb (fst e) p)) (volume w)) w
  else w.

(** ** Progress record *)

(** [save_progress] *)
Definition save_progress (filepath : path) (bytes_sent : Z) (w : World) : World :=
  let progress := mkProgress filepath bytes_sent (now w) in
  emit (EvSaveProgress progress) (set_progress (Some progress) w).

(** [load_progress] *)
Definition load_progress (filepath : path) (w : World) : Z :=
  match progress_file w with
  | None => 0
  | Some progress =>
      if path_eqb (pr_filepath progress) filepath
         && (now w - pr_timestamp progress <? 3600000)
      then pr_bytes_sent progress
      else 0
  end.

(** [clear_progress] *)
Definition clear_progress (w : World) : World :=
  match progress_file w with
  | Some _ => emit EvClearProgress (set_progress None w)
  | None => w
  end.

(** ** Bearer and registration *)

(** A command whose result is not looked at: [self.send_at(cmd)] with the
    default [expected="OK"]. *)
Definition at_do (command : string) (timeout : Z) (w : World) : World :=
  snd (send_at command "OK" timeout w).

(** The registration loop of [setup_network]: [n] polls are left.  The
    boolean tells whether the loop was left by [break]. *)
Fixpoint wait_registration (n : nat) (w : World) : bool * World :=
  match n with
  | O => (false, w)
  | S n' =>
      let r := send_at "AT+CREG?" "OK" 2000 w in
      let resp := snd (fst r) in
      if contains ",1" resp || contains ",5" resp
      then (true, snd r)
      else wait_registration n' (sleep 2000 (snd r))
  end.

(** The world in which [setup_network] queries the bearer, given the world
    after the liveness probe. *)
Definition bring_up_bearer (apn : string) (w1 : World) : World :=
  let w2 := at_do "AT+CSQ" 5000 w1 in
  let w3 := at_do "AT+CFUN=1" 5000 w2 in
  let w4 := snd (wait_registration 10 w3) in
  let w5 := at_do ("AT+SAPBR=3,1," ++ quoted "Contype" ++ "," ++ quoted "GPRS")
                  5000 w4 in
  let w6 := at_do ("AT+SAPBR=3,1," ++ quoted "APN" ++ "," ++ quoted apn)
                  5000 w5 in
  at_do "AT+SAPBR=1,1" 10000 w6.

(** [setup_network] *)
Definition setup_network (apn : string) (w : World) : (bool * string) * World :=
  let probe := send_at "AT" "OK" 2000 w in
  if negb (fst (fst probe)) then ((false, "Modem not responding"), snd probe)
  else
    let query := send_at "AT+SAPBR=2,1" "OK" 5000
                         (bring_up_bearer apn (snd probe)) in
    let resp := snd (fst query) in
    if contains "0.0.0.0" resp
    then ((false, "Failed to get IP address"), snd query)
    else ((true, resp), snd query).

(** [close_bearer] *)
Definition close_bearer (w : World) : World := at_do "AT+SAPBR=0,1" 5000 w.

(** ** Resumable FTP transfer *)

(** [f.read(n)] on a file whose unread part is [rest]: the chunk read, and
    what is left unread.  [n = -1] reads everything; below -1 [read] raises
    [ValueError], a case the statements leave out by asking for
    [-1 <= n]. *)
Definition file_read_chunk (n : Z) (rest : string) : string :=
  if n <? 0 then rest else str_take (Z.to_nat n) rest.

Definition file_read_rest (n : Z) (rest : string) : string :=
  if n <? 0 then "" else str_drop (Z.to_nat n) rest.

(** The retry loop for one chunk: [n] iterations of
    [for attempt in range(max_retries)] are left.  Returns [chunk_sent]. *)
Fixpoint chunk_attempts (n : nat) (attempt max_retries retry_delay : Z)
  (chunk : string) (w : World) : bool * World :=
  match n with
  | O => (false, w)
  | S n' =>
      let w1 := ser_write ("AT+FTPPUT=2," ++ string_of_Z (len chunk) ++ crlf)
                          (reset_input_buffer w) in
      let prompt := wait_for_response "+FTPPUT: 2," 15000 w1 in
      if negb (fst (fst prompt))
      then
        chunk_attempts n' (attempt + 1) max_retries retry_delay chunk
          (if attempt <? max_retries - 1
           then sleep retry_delay (snd prompt) else snd prompt)
      else
        let ack := wait_for_response "OK" 15000
                     (ser_write_data chunk (snd prompt)) in
        if fst (fst ack) then (true, snd ack)
        else
          chunk_attempts n' (attempt + 1) max_retries retry_delay chunk
            (if attempt <? max_retries - 1
             then sleep retry_delay (snd ack) else snd ack)
  end.

Definition send_chunk (max_retries retry_delay : Z) (chunk : string) (w : World)
  : bool * World :=
  chunk_attempts (Z.to_nat max_retries) 0 max_retries retry_delay chunk w.

(** The signal check at the head of the stream loop: the new value of
    [last_signal_check] and the world.  [check_signal] sends [AT+CSQ] with a
    2 second timeout; its reading is only printed. *)
Definition periodic_signal_check (last_signal_check : Z) (w : World) : Z * World :=
  if 30000 <? now w - last_signal_check
  then let w' := at_do "AT+CSQ" 2000 w in (now w', w')
  else (last_signal_check, w).

(** How the stream loop is left.  [acked] is a ghost variable: the bytes of
    the chunks acknowledged so far, in order. *)
Inductive StreamExit :=
| ChunkFailed (bytes_sent : Z) (acked : string)
    (* return False, "Failed at byte {bytes_sent} after ... retries" *)
| StreamDone (bytes_sent : Z) (acked : string).
    (* the loop ended *)

Definition inspect {A : Type} (a : A) : {b : A | a = b} := exist _ a eq_refl.

(** The [while bytes_sent < filesize] loop of [upload_ftp]. *)
Equations? stream_loop (filepath : path)
  (filesize max_chunk max_retries retry_delay : Z)
  (rest : string) (bytes_sent : Z) (acked : string) (last_signal_check : Z)
  (w : World) : StreamExit * World
  by wf (String.length rest) lt :=
stream_loop filepath filesize max_chunk max_retries retry_delay
            rest bytes_sent acked last_signal_check w
  with Z_lt_dec bytes_sent filesize => {
  | right _ := (StreamDone bytes_sent acked, w);
  | left _ with inspect (file_read_chunk max_chunk rest) => {
    | exist _ EmptyString _ :=
        (StreamDone bytes_sent acked,
         snd (periodic_signal_check last_signal_check w));
    | exist _ (String c s) Hread :=
        let chunk := String c s in
        let check := periodic_signal_check last_signal_check w in
        let sent := send_chunk max_retries retry_delay chunk (snd check) in
        if negb (fst sent)
        then (ChunkFailed bytes_sent acked,
              save_progress filepath bytes_sent (snd sent))
        else
          stream_loop filepath filesize max_chunk max_retries retry_delay
            (file_read_rest max_chunk rest)
            (bytes_sent + len chunk) (acked ++ chunk) (fst check)
            (if (bytes_sent + len chunk) mod (500 * 1024) <? max_chunk
             then save_progress filepath (bytes_sent + len chunk) (snd sent)
             else snd sent) } }.
Proof.
  assert (Hdrop : forall n t, (String.length (str_drop n t) <= String.length t)%nat).
  { induction n as [|n IH]; intros [|a t]; simpl; try lia.
    specialize (IH t). lia. }
  unfold file_read_chunk, file_read_rest in *.
  destruct (max_chunk <? 0).
  - subst rest. simpl. lia.
  - destruct (Z.to_nat max_chunk) as [|n]; destruct rest as [|a t];
      simpl in *; try discriminate.
    specialize (Hdrop n t). lia.
Qed.

(** The working chunk size, from the response that opened the session. *)
Definition parse_max_chunk (resp : string) (chunk_size : Z) : Z :=
  match py_int (strip (last_field resp)) with
  | Some max_chunk => Z.min max_chunk chunk_size
  | None => 1000
  end.

(** The session configuration commands of [upload_ftp]. *)
Definition configure_ftp (server : string) (port : Z)
  (username password filename remote_path : string) (use_append : bool)
  (w : World) : World :=
  let w := at_do "AT+FTPCID=1" 5000 w in
  let w := at_do ("AT+FTPSERV=" ++ quoted server) 5000 w in
  let w := at_do ("AT+FTPPORT=" ++ string_of_Z port) 5000 w in
  let w := at_do "AT+FTPMODE=1" 5000 w in
  let w := at_do ("AT+FTPUN=" ++ quoted username) 5000 w in
  let w := at_do ("AT+FTPPW=" ++ quoted password) 5000 w in
  let w := at_do ("AT+FTPPUTNAME=" ++ quoted filename) 5000 w in
  let w := at_do ("AT+FTPPUTPATH=" ++ quoted remote_path) 5000 w in
  let w := at_do ("AT+FTPTYPE=" ++ quoted "I") 5000 w in
  if use_append
  then at_do ("AT+FTPPUTOPT=" ++ quoted "APPE") 5000 w
  else at_do ("AT+FTPPUTOPT=" ++ quoted "STOR") 5000 w.

(** The resume decision of [upload_ftp]: [(resume_from, use_append)]. *)
Definition resume_point (filepath : path) (filesize : Z) (w : World) : Z * bool :=
  let resume_from := load_progress filepath w in
  if (0 <? resume_from) && (resume_from <? filesize)
  then (resume_from, true)
  else (0, false).

(** [f.seek(resume_from)] when [resume_from > 0]. *)
Definition seek_to (resume_from : Z) (content : string) : string :=
  if 0 <? resume_from then str_drop (Z.to_nat resume_from) content else content.

(** The end of [upload_ftp], after the stream loop ended with [bytes_sent]. *)
Definition close_session (filepath : path) (bytes_sent : Z) (w : World)
  : (bool * string) * World :=
  let w1 := sleep 500 w in
  let w2 := at_do "AT+FTPPUT=2,0" 5000 w1 in
  let final := wait_for_response "+FTPPUT: 1,0" 30000 w2 in
  if fst (fst final)
  then ((true, "Upload successful"), clear_progress (snd final))
  else ((false, "Upload may have failed: " ++ snd (fst final)),
        save_progress filepath bytes_sent (snd final)).

(** How the first half of [upload_ftp] ends: with a failure message, or
    with the session open, the file read, the resume offset and the working
    chunk size. *)
Inductive Session :=
| SessionFailed (msg : string)
| SessionReady (content : string) (resume_from max_chunk : Z).

(** [upload_ftp] up to the stream loop; [chunk_size] is [self.chunk_size]. *)
Definition open_session (chunk_size : Z) (server : string) (port : Z)
  (username password : string) (filepath : path) (remote_path : string)
  (w : World) : Session * World :=
  match read_file filepath w with
  | None => (SessionFailed ("File not found: " ++ path_string filepath), w)
  | Some content =>
      let filename := basename filepath in
      let filesize := len content in
      let resume := resume_point filepath filesize w in
      let w1 := configure_ftp server port username password filename
                              remote_path (snd resume) w in
      let w2 := ser_write ("AT+FTPPUT=1" ++ crlf) (reset_input_buffer w1) in
      let opened := wait_for_response "+FTPPUT: 1,1" 60000 w2 in
      if negb (fst (fst opened))
      then (SessionFailed ("Failed to open FTP session: " ++ snd (fst opened)),
            snd opened)
      else (SessionReady content (fst resume)
                         (parse_max_chunk (snd (fst opened)) chunk_size),
            snd opened)
  end.

(** [upload_ftp] *)
Definition upload_ftp (chunk_size : Z) (server : string) (port : Z)
  (username password : string) (filepath : path) (remote_path : string)
  (max_retries retry_delay : Z) (w : World) : (bool * string) * World :=
  match open_session chunk_size server port username password filepath
                     remote_path w with
  | (SessionFailed msg, w') => ((false, msg), w')
  | (SessionReady content resume_from max_chunk, w3) =>
      match stream_loop filepath (len content) max_chunk max_retries
              retry_delay (seek_to resume_from content) resume_from ""
              (now w3) w3 with
      | (ChunkFailed bytes_sent _, w4) =>
          ((false, "Failed at byte " ++ string_of_Z bytes_sent ++ " after "
                   ++ string_of_Z max_retries ++ " retries"), w4)
      | (StreamDone bytes_sent _, w4) => close_session filepath bytes_sent w4
      end
  end.

(** ** The orchestrator of [main.py] *)

(** The keys of [config.yaml] that the orchestrator reads; times are in
    milliseconds. *)
Record Config := mkConfig {
  apn : string;
  ftp_server : string;
  ftp_port : Z;
  ftp_username : string;
  ftp_password : string;
  ftp_remote_path : string;
  chunk_size : Z;
  outbox_dir : path;
  quiet_window_seconds : Z;
  poll_interval : Z;
  boot_upload_timeout : Z
}.

(** [mount_usb_disk]: a stale mount is released first; [mountable] tells
    whether the mount command succeeds. *)
Definition mount_usb_disk (w : World) : bool * World :=
  let w1 := set_mounted false w in
  if mountable w1 then (true, set_mounted true w1) else (false, w1).

(** [unmount_usb_disk] *)
Definition unmount_usb_disk (w : World) : World :=
  set_mounted false (sleep 500 w).

(** [load_usb_gadget]; [loadable] tells whether [modprobe] succeeds. *)
Definition load_usb_gadget (w : World) : bool * World :=
  if loadable w then (true, set_gadget true w) else (false, w).

(** [unload_usb_gadget], and the [modprobe -r] of [harvest_and_upload]. *)
Definition unload_usb_gadget (w : World) : World := set_gadget false w.

(** The entry of the directory [d] on the way to the file [p]: [p] itself
    when it lies in [d], the sub-directory of [d] that holds it when it
    lies deeper, nothing when it is not below [d]. *)
Definition entry_under (d p : path) : list path :=
  if path_eqb (firstn (List.length d) p) d
     && Nat.ltb (List.length d) (List.length p)
  then [firstn (S (List.length d)) p] else [].

(** What [os.listdir(d)] names, joined to [d]: the files of [d] and its
    sub-directories, each once.  The volume records files only, so a
    directory is there as long as a file lies below it. *)
Definition listdir (d : path) (w : World) : list path :=
  if mounted w
  then nodup (list_eq_dec string_dec)
             (flat_map (entry_under d) (map fst (volume w)))
  else [].

Definition pending_name (f : string) : bool :=
  endswith f ".zip" || endswith f ".gz".

(** [get_pending_uploads], and the same list comprehension in
    [startup_upload_phase]. *)
Definition get_pending_uploads (cfg : Config) (w : World) : list path :=
  filter (fun p => pending_name (basename p)) (listdir (outbox_dir cfg) w).

(** The file names [harvest_and_upload] skips. *)
Definition skipped_name (file : string) : bool :=
  startswith file "." || String.eqb file "desktop.ini"
  || String.eqb file "Thumbs.db".

(** The walk of [harvest_and_upload]: directories whose name starts with a
    dot are not entered. *)
Definition harvest_candidate (p : path) : bool :=
  forallb (fun d => negb (startswith d ".")) (removelast p)
  && negb (skipped_name (basename p)).

Definition files_to_upload (w : World) : list path :=
  if mounted w then filter harvest_candidate (map fst (volume w)) else [].

Section Orchestrator.

Variable cfg : Config.

(** [m.upload_ftp(...)] as [main.py] calls it: [max_retries] and
    [retry_delay] keep their defaults, 3 and 5 seconds. *)
Definition modem_upload (filepath : path) (w : World) : (bool * string) * World :=
  upload_ftp (chunk_size cfg) (ftp_server cfg) (ftp_port cfg)
             (ftp_username cfg) (ftp_password cfg) filepath
             (ftp_remote_path cfg) 3 5000 w.

(** Step 5 of [harvest_and_upload]: upload each file, delete only on
    success.  Returns [(uploaded_count, failed_count)]. *)
Fixpoint upload_each (files : list path) (uploaded_count failed_count : Z)
  (w : World) : (Z * Z) * World :=
  match files with
  | [] => ((uploaded_count, failed_count), w)
  | filepath :: files' =>
      let r := modem_upload filepath w in
      if fst (fst r)
      then upload_each files' (uploaded_count + 1) failed_count
                       (os_remove filepath (snd r))
      else upload_each files' uploaded_count (failed_count + 1) (snd r)
  end.

(** [harvest_and_upload] *)
Definition harvest_and_upload (w : World) : bool * World :=
  let w1 := sleep 1000 (unload_usb_gadget w) in
  let m := mount_usb_disk w1 in
  if negb (fst m) then (false, snd (load_usb_gadget (snd m)))
  else
    let files := files_to_upload (snd m) in
    match files with
    | [] => (true, snd (load_usb_gadget (unmount_usb_disk (snd m))))
    | _ =>
        let net := setup_network (apn cfg) (snd m) in
        if negb (fst (fst net))
        then (false, snd (load_usb_gadget (unmount_usb_disk (snd net))))
        else
          let done := upload_each files 0 0 (snd net) in
          let w2 := close_bearer (snd done) in
          (snd (fst done) =? 0,
           snd (load_usb_gadget (unmount_usb_disk w2)))
    end.

(** The upload loop of [startup_upload_phase].  [os.path.exists] is read off
    the files of the volume: the entries collected are taken to be files (a
    directory among them would make [open] raise). *)
Fixpoint upload_pending (pending : list path) (start_time : Z) (w : World)
  : World :=
  match pending with
  | [] => w
  | filepath :: pending' =>
      if boot_upload_timeout cfg <? now w - start_time then w
      else
        match read_file filepath w with
        | None => upload_pending pending' start_time w
        | Some _ =>
            let r := modem_upload filepath w in
            if fst (fst r)
            then upload_pending pending' start_time (os_remove filepath (snd r))
            else upload_pending pending' start_time (snd r)
        end
  end.

(** [startup_upload_phase] *)
Definition startup_upload_phase (w : World) : bool * World :=
  let m := mount_usb_disk w in
  if negb (fst m) then (true, snd m)
  else
    let pending := get_pending_uploads cfg (snd m) in
    match pending with
    | [] => (true, unmount_usb_disk (snd m))
    | _ =>
        let start_time := now (snd m) in
        let net := setup_network (apn cfg) (snd m) in
        if negb (fst (fst net))
        then
          if now (snd net) - start_time <? boot_upload_timeout cfg
          then (false, snd net)
          else (true, unmount_usb_disk (snd net))
        else
          let w1 := upload_pending pending start_time (snd net) in
          (true, unmount_usb_disk (close_bearer w1))
    end.

(** The boot loop of [main]: [None] only when [fuel] iterations were not
    enough to reach the deadline. *)
Fixpoint boot_loop (fuel : nat) (boot_start : Z) (w : World) : option World :=
  if now w - boot_start <? boot_upload_timeout cfg
  then
    match fuel with
    | O => None
    | S fuel' =>
        let r := startup_upload_phase w in
        if fst r then Some (snd r)
        else boot_loop fuel' boot_start (sleep 10000 (snd r))
    end
  else Some w.

(** [main] up to the start of the monitor loop: whether the gadget was
    loaded, and the world the monitor loop starts in. *)
Definition main_boot (fuel : nat) (w : World) : option (bool * World) :=
  let w1 := unload_usb_gadget w in
  match boot_loop fuel (now w1) w1 with
  | None => None
  | Some w2 => Some (load_usb_gadget w2)
  end.

End Orchestrator.

(** ** The uploader of [ftp_uploader.py] *)

(** [upload_ftp] raises [ValueError] at its first [read] when the session
    is open with a chunk size below -1 and bytes are left to send. *)
Definition read_raises (s : Session) : bool :=
  match s with
  | SessionFailed _ => false
  | SessionReady content resume_from max_chunk =>
      (resume_from <? len content) && (max_chunk <? -1)
  end.

(** [FTPUploader.upload_file]; [modem_ready] is [self.modem] being set, and
    [(max_retries, retry_delay)] come from the uploader's own configuration.
    An exception of [upload_ftp] is caught and makes the result [False];
    [removable] tells whether [os.remove] succeeds, the result being [True]
    either way. *)
Definition uploader_upload_file (cfg : Config) (modem_ready : bool)
  (max_retries retry_delay : Z) (removable : bool) (file_path : path)
  (w : World) : bool * World :=
  if negb modem_ready then (false, w)
  else
    let opened := open_session 512000 (ftp_server cfg) (ftp_port cfg)
                               (ftp_username cfg) (ftp_password cfg)
                               file_path (ftp_remote_path cfg) w in
    if read_raises (fst opened) then (false, snd opened)
    else
      let r := upload_ftp 512000 (ftp_server cfg) (ftp_port cfg)
                          (ftp_username cfg) (ftp_password cfg) file_path
                          (ftp_remote_path cfg) max_retries retry_delay w in
      if fst (fst r)
      then (true, if removable then os_remove file_path (snd r) else snd r)
      else (false, snd r).

(** ** The monitor loop of [main] *)

(** The loop's variables. *)
Record Monitor := mkMonitor {
  baseline_sectors : Z;
  last_seen_sectors : Z;
  last_write_time : option Z;
  host_was_connected : bool
}.

(** What one iteration reads from its environment: the controller state,
    the write counter, the clock, and the write counter read again after a
    harvest. *)
Record Poll := mkPoll {
  udc_state : string;
  current_sectors : Z;
  poll_time : Z;
  sectors_after_harvest : Z
}.

(** The state the monitor loop starts in. *)
Definition monitor_start (sectors : Z) : Monitor :=
  mkMonitor sectors sectors None false.

(** One iteration of [while True]; the boolean tells whether
    [harvest_and_upload] was called. *)
Definition monitor_step (quiet_window : Z) (m : Monitor) (p : Poll)
  : Monitor * bool :=
  if String.eqb (udc_state p) "configured" then
    let m1 :=
      if negb (host_was_connected m)
      then mkMonitor (current_sectors p) (current_sectors p)
                     (last_write_time m) true
      else m in
    let m2 :=
      if last_seen_sectors m1 <? current_sectors p
      then mkMonitor (baseline_sectors m1) (current_sectors p)
                     (Some (poll_time p)) (host_was_connected m1)
      else m1 in
    match last_write_time m2 with
    | Some t =>
        if quiet_window <=? poll_time p - t
        then (mkMonitor (sectors_after_harvest p) (sectors_after_harvest p)
                        None false, true)
        else (m2, false)
    | None => (m2, false)
    end
  else if host_was_connected m then
    match last_write_time m with
    | Some _ =>
        (mkMonitor (baseline_sectors m) (last_seen_sectors m) None false, true)
    | None =>
        (mkMonitor (baseline_sectors m) (last_seen_sectors m) None false, false)
    end
  else
    (mkMonitor (baseline_sectors m) (last_seen_sectors m)
               (last_write_time m) false, false).

(** The loop over a finite run of polls: the final variables and, poll by
    poll, whether a harvest was started. *)
Fixpoint monitor_run (quiet_window : Z) (m : Monitor) (polls : list Poll)
  : Monitor * list bool :=
  match polls with
  | [] => (m, [])
  | p :: polls' =>
      let r := monitor_step quiet_window m p in
      let rest := monitor_run quiet_window (fst r) polls' in
      (fst rest, snd r :: snd rest)
  end.

(** ** Reading the transaction engine *)


(** ** Reading traces *)

(** What was appended to the trace between [w] and a later world [w']. *)
Definition trace_delta (w w' : World) : list Event :=
  skipn (List.length (trace w)) (trace w').

(** The engine's own events: buffer resets and the sleeps between polls. *)
Definition engine_event (e : Event) : bool :=
  match e with
  | EvReset | EvPoll _ => true
  | _ => false
  end.

(** A trace without the engine's own events: the commands and data written,
    the other sleeps, and the writes of the progress record. *)
Definition outline (t : list Event) : list Event :=
  filter (fun e => negb (engine_event e)) t.

(** The event of writing the command [command]. *)
Definition cmd (command : string) : Event := EvCmd (command ++ crlf).

(** [w'] is a later world than [w]: the disk and the gadget are as they
    were, the clock has not gone back, and the trace has only grown. *)
Definition later (w w' : World) : Prop :=
  volume w' = volume w /\ mounted w' = mounted w /\
  gadget_loaded w' = gadget_loaded w /\
  mountable w' = mountable w /\ loadable w' = loadable w /\
  now w <= now w' /\
  trace w' = (trace w ++ trace_delta w w')%list.

(** A step of the program from [w] to [w']: [w'] is later, the events [d]
    were appended, and the progress record was not touched. *)
Definition serial (w : World) (d : list Event) (w' : World) : Prop :=
  later w w' /\ trace_delta w w' = d /\ progress_file w' = progress_file w.

(** From [w0] the program has reached [w], and the outline of what it
    appended to the trace on the way is [o]. *)
Definition outlined (w0 : World) (o : list Event) (w : World) : Prop :=
  later w0 w /\ outline (trace_delta w0 w) = o.

(** Between [w] and the later world [w'] the progress record was not
    deleted: no deletion is in the trace, and a record present in [w] is
    still present (possibly rewritten) in [w']. *)
Definition keeps_record (w w' : World) : Prop :=
  later w w' /\
  ~ In EvClearProgress (trace_delta w w') /\
  (progress_file w <> None -> progress_file w' <> None).

(** The offset and the acknowledged bytes the stream loop ended with. *)
Definition exit_offset (e : StreamExit) : Z :=
  match e with ChunkFailed o _ | StreamDone o _ => o end.

Definition exit_acked (e : StreamExit) : string :=
  match e with ChunkFailed _ a | StreamDone _ a => a end.

(** ** Statements about the transfer *)

(** The commands that configure and open a PUT session, in order. *)
Definition session_outline (server : string) (port : Z)
  (username password filename remote_path : string) (use_append : bool)
  : list Event :=
  [cmd "AT+FTPCID=1";
   cmd ("AT+FTPSERV=" ++ quoted server);
   cmd ("AT+FTPPORT=" ++ string_of_Z port);
   cmd "AT+FTPMODE=1";
   cmd ("AT+FTPUN=" ++ quoted username);
   cmd ("AT+FTPPW=" ++ quoted password);
   cmd ("AT+FTPPUTNAME=" ++ quoted filename);
   cmd ("AT+FTPPUTPATH=" ++ quoted remote_path);
   cmd ("AT+FTPTYPE=" ++ quoted "I");
   cmd ("AT+FTPPUTOPT=" ++ quoted (if use_append then "APPE" else "STOR"));
   cmd "AT+FTPPUT=1"].


(** A command, as opposed to data, sleeps and writes of the progress
    record. *)
Definition is_cmd (e : Event) : Prop :=
  match e with EvCmd _ => True | _ => False end.

(** ** Statements about the bearer controller *)

(** The outline of the registration loop after [polls] polls: a 2 second
    sleep follows every poll that did not confirm registration. *)
Definition registration_outline (polls : nat) (registered : bool) : list Event :=
  if registered
  then (List.concat (repeat [cmd "AT+CREG?"; EvSleep 2000] (polls - 1)%nat)
        ++ [cmd "AT+CREG?"])%list
  else List.concat (repeat [cmd "AT+CREG?"; EvSleep 2000] polls).

(** The bearer commands of [setup_network], in order. *)
Definition bearer_outline (apn : string) : list Event :=
  [cmd ("AT+SAPBR=3,1," ++ quoted "Contype" ++ "," ++ quoted "GPRS");
   cmd ("AT+SAPBR=3,1," ++ quoted "APN" ++ "," ++ quoted apn);
   cmd "AT+SAPBR=1,1";
   cmd "AT+SAPBR=2,1"].

(** ** Statements about the monitor loop *)



(** ** Statements about the delivery of one chunk *)

(** How one attempt to deliver a chunk ended. *)
Inductive Attempt :=
| PromptFailed   (* no data-ready prompt *)
| AckFailed      (* prompt received, bytes written, no acknowledgement *)
| Acked.         (* prompt received, bytes written, acknowledged *)

Definition failed (a : Attempt) : Prop := a <> Acked.

(** The announcement of a chunk: [AT+FTPPUT=2,<len>]. *)
Definition announce (chunk : string) : Event :=
  cmd ("AT+FTPPUT=2," ++ string_of_Z (len chunk)).

(** The outline of a series of attempts for one chunk, the first of them
    numbered [attempt]: every attempt announces the same length; the bytes
    are written when the prompt came; a failed attempt that is not the last
    one allowed is followed by a sleep of [retry_delay]. *)
Fixpoint retry_outline (chunk : string) (max_retries retry_delay attempt : Z)
  (outcomes : list Attempt) : list Event :=
  match outcomes with
  | [] => []
  | a :: outcomes' =>
      (announce chunk
       :: match a with PromptFailed => [] | _ => [EvData chunk] end
       ++ match a with
          | Acked => []
          | _ => if attempt <? max_retries - 1 then [EvSleep retry_delay] else []
          end
       ++ retry_outline chunk max_retries retry_delay (attempt + 1) outcomes')%list
  end.

(** ** Statements about the transaction engine *)



(** ** Worlds for the examples *)

(** A silent modem, nothing mounted, no file. *)
Definition world0 : World :=
  mkWorld 0 [] [] None [] false false true true.

(** The modem answers the first poll with [s]. *)
Definition world_answering (s : string) : World :=
  set_rx [Some s] world0.

(** ** Statements about retries and the progress record *)




(** ** Statements about resuming and about empty files *)


(** C9 as worded: the upload of an empty file succeeds and never opens a
    PUT session. *)
Definition zero_byte_as_worded (w : World) (r : (bool * string) * World)
  : Prop :=
  fst (fst r) = true /\ ~ In (cmd "AT+FTPPUT=1") (trace_delta w (snd r)).


(** A record for [a.txt] at offset 2, one second old; the modem accepts
    everything. *)
Definition world_resuming : World :=
  mkWorld 1000
          (repeat (Some "OK") 10
           ++ [Some "+FTPPUT: 1,1,1360"; Some "+FTPPUT: 2,3"; Some "OK";
               Some "OK"; Some "+FTPPUT: 1,0"])%list
          [] (Some (mkProgress ["a.txt"] 2 0))
          [(["a.txt"], "hello")] true false true true.

(** An empty file on the mounted disk, and a silent modem. *)
Definition world_empty_file : World :=
  mkWorld 0 [] [] None [(["empty.log"], "")] true false true true.

(** The event of a write or a deletion of the progress record. *)
Definition record_event (e : Event) : Prop :=
  e = EvClearProgress \/ exists p, e = EvSaveProgress p.

(** C9 as the code has it, for the upload of an empty file: the session is
    configured and opened as for any file; when it opens, the end of data
    is signalled at once, no chunk being announced or written; the upload
    succeeds exactly when the session opened and its close was confirmed. *)
Definition zero_byte_spec (chunk_size : Z) (server : string) (port : Z)
  (username password : string) (filepath : path) (remote_path : string)
  (max_retries retry_delay : Z) (w : World) : Prop :=
  let r := upload_ftp chunk_size server port username password filepath
                      remote_path max_retries retry_delay w in
  let opened :=
    wait_for_response "+FTPPUT: 1,1" 60000
      (ser_write ("AT+FTPPUT=1" ++ crlf)
         (reset_input_buffer
            (configure_ftp server port username password (basename filepath)
                           remote_path false w))) in
  let final :=
    wait_for_response "+FTPPUT: 1,0" 30000
      (at_do "AT+FTPPUT=2,0" 5000 (sleep 500 (snd opened))) in
  fst (fst r) = fst (fst opened) && fst (fst final) /\
  exists record_events,
    Forall record_event record_events /\
    outline (trace_delta w (snd r))
    = (session_outline server port username password (basename filepath)
                       remote_path false
       ++ (if fst (fst opened)
           then [EvSleep 500; cmd "AT+FTPPUT=2,0"] ++ record_events
           else []))%list.

(** ** Statements about the orchestrator *)

(** The world of a harvest cycle once the disk is mounted, and once the
    network is set up. *)
Definition harvest_mounted (w : World) : World :=
  snd (mount_usb_disk (sleep 1000 (unload_usb_gadget w))).

Definition harvest_network (cfg : Config) (w : World) : World :=
  snd (setup_network (apn cfg) (harvest_mounted w)).

(** The world in which the file that follows [pre] in the list is uploaded,
    when the loop over the files starts in [w]. *)
Definition world_before (cfg : Config) (pre : list path) (w : World) : World :=
  snd (upload_each cfg pre 0 0 w).

(** C1 for a harvest cycle started in [w]: files are only ever deleted,
    never changed; a file that is gone after the cycle was in the list of
    the cycle and its own upload returned success; a file all of whose
    uploads failed is still there; and a cycle whose network setup fails
    deletes nothing. *)
Definition harvest_deletion_spec (cfg : Config) (w : World) : Prop :=
  let r := harvest_and_upload cfg w in
  (forall p c, In (p, c) (volume (snd r)) -> In (p, c) (volume w)) /\
  (forall p c, In (p, c) (volume w) -> ~ In (p, c) (volume (snd r)) ->
     fst (fst (setup_network (apn cfg) (harvest_mounted w))) = true /\
     exists pre post,
       files_to_upload (harvest_mounted w) = (pre ++ p :: post)%list /\
       fst (fst (modem_upload cfg p
                   (world_before cfg pre (harvest_network cfg w)))) = true) /\
  (forall p c, In (p, c) (volume w) ->
     (forall pre post,
        files_to_upload (harvest_mounted w) = (pre ++ p :: post)%list ->
        fst (fst (modem_upload cfg p
                    (world_before cfg pre (harvest_network cfg w)))) = false) ->
     In (p, c) (volume (snd r))) /\
  (fst (fst (setup_network (apn cfg) (harvest_mounted w))) = false ->
   volume (snd r) = volume w).

(** The deletion rule of the uploader of [ftp_uploader.py]: without a modem
    nothing happens; an upload that raises, its session open with bytes to
    send and a chunk size below -1, returns [False] in the world in which
    the session was opened; otherwise the result is that of the upload; a [False] leaves every file where it was, and so does a [True]
    whose removal fails; a [True] whose removal succeeds removes that file
    and no other. *)
Definition uploader_deletion_spec (cfg : Config) (modem_ready : bool)
  (max_retries retry_delay : Z) (removable : bool) (file_path : path)
  (w : World) : Prop :=
  let r := uploader_upload_file cfg modem_ready max_retries retry_delay
                                removable file_path w in
  let opened := open_session 512000 (ftp_server cfg) (ftp_port cfg)
                             (ftp_username cfg) (ftp_password cfg)
                             file_path (ftp_remote_path cfg) w in
  let u := upload_ftp 512000 (ftp_server cfg) (ftp_port cfg)
                      (ftp_username cfg) (ftp_password cfg) file_path
                      (ftp_remote_path cfg) max_retries retry_delay w in
  (modem_ready = false -> r = (false, w)) /\
  (modem_ready = true ->
   forall content resume_from max_chunk,
     fst opened = SessionReady content resume_from max_chunk ->
     resume_from < len content -> max_chunk < -1 ->
     r = (false, snd opened)) /\
  (modem_ready = true ->
   (forall content resume_from max_chunk,
      fst opened = SessionReady content resume_from max_chunk ->
      resume_from < len content -> -1 <= max_chunk) ->
   fst r = fst (fst u)) /\
  (fst r = false -> volume (snd r) = volume w) /\
  (fst r = true -> removable = false -> volume (snd r) = volume w) /\
  (fst r = true -> removable = true ->
     forall p c, In (p, c) (volume (snd r)) <->
                 In (p, c) (volume w) /\ p <> file_path).

(** ** Exclusivity of the mount and the gadget *)

(** The disk is not both mounted locally and exposed to the host. *)
Definition exclusive (w : World) : Prop :=
  ~ (mounted w = true /\ gadget_loaded w = true).

(** A configuration with the defaults of [config.yaml]: the boot phase may
    take 180 seconds. *)
Definition cfg_default : Config :=
  mkConfig "hologram" "ftp.example.com" 21 "user" "pass" "/uploads" 512000
           ["outbox"] 30000 2000 180000.

(** Power-on with one archive left in the outbox and a modem that never
    answers. *)
Definition world_boot_silent : World :=
  mkWorld 0 [] [] None [(["outbox"; "log.zip"], "data")]
          false false true true.

(** ** Statements about the boot-time drain *)

(** The command that names the remote file of an upload: the mark, in the
    trace, of an upload attempted for [p]. *)
Definition upload_attempt (p : path) : Event :=
  cmd ("AT+FTPPUTNAME=" ++ quoted (basename p)).

(** From [w] to [w'] the mount is as it was, the clock has not gone back
    and the trace has only grown; files may have been deleted. *)
Definition grows (w w' : World) : Prop :=
  mounted w' = mounted w /\ now w <= now w' /\
  trace w' = (trace w ++ trace_delta w w')%list.

(** The upload of [p] started in [w] reads the file with a size that
    [read] accepts: once the session is open the chunk size is -1 or
    more. *)
Definition reads_accepted (cfg : Config) (p : path) (w : World) : Prop :=
  forall content resume_from max_chunk,
    fst (open_session (chunk_size cfg) (ftp_server cfg) (ftp_port cfg)
                      (ftp_username cfg) (ftp_password cfg) p
                      (ftp_remote_path cfg) w)
    = SessionReady content resume_from max_chunk ->
    -1 <= max_chunk.

(** The boot phase started in [w] raises nothing: the outbox is not a
    file, the entries collected are files, and every upload reads with a
    size that [read] accepts. *)
Definition boot_drain_runs (cfg : Config) (w : World) : Prop :=
  let m := mount_usb_disk w in
  let pending := get_pending_uploads cfg (snd m) in
  let net := setup_network (apn cfg) (snd m) in
  read_file (outbox_dir cfg) (snd m) = None /\
  (forall p, In p pending -> read_file p (snd m) <> None) /\
  (forall pre p post, pending = (pre ++ p :: post)%list ->
     reads_accepted cfg p (upload_pending cfg pre (now (snd m)) (snd net))).

(** C10 as the code has it: the entries collected at boot are those of the
    outbox whose name [f] ends in [.zip] or [.gz], each once, an entry
    being there when a file of the volume is it or lies below it; with none
    of them
    the phase unmounts and lets the boot proceed; and when the disk mounts
    and the network comes up the entries are taken in the order collected:
    when the turn of [p] comes, after what was done for the entries before
    it, the time elapsed since the start is compared with the timeout;
    beyond it the loop is left and nothing more is done; otherwise an
    upload is attempted for [p], and the loop goes on with the entries
    after it.  The phase then closes the bearer, unmounts the disk and
    lets the boot proceed. *)
Definition boot_drain_spec (cfg : Config) (w : World) : Prop :=
  let m := mount_usb_disk w in
  let r := startup_upload_phase cfg w in
  let pending := get_pending_uploads cfg (snd m) in
  let start_time := now (snd m) in
  let net := setup_network (apn cfg) (snd m) in
  let w_end := upload_pending cfg pending start_time (snd net) in
  (forall p, In p pending <->
     mounted (snd m) = true /\
     exists f below,
       p = (outbox_dir cfg ++ [f])%list /\
       (endswith f ".zip" = true \/ endswith f ".gz" = true) /\
       In (outbox_dir cfg ++ f :: below)%list (map fst (volume (snd m)))) /\
  NoDup pending /\
  (fst m = true -> pending = [] -> r = (true, unmount_usb_disk (snd m))) /\
  (fst m = true -> fst (fst net) = true ->
   forall pre p post, pending = (pre ++ p :: post)%list ->
     let wi := upload_pending cfg pre start_time (snd net) in
     r = (true, unmount_usb_disk (close_bearer w_end)) /\
     grows (snd net) wi /\ grows wi w_end /\
     (boot_upload_timeout cfg < now wi - start_time -> w_end = wi) /\
     (now wi - start_time <= boot_upload_timeout cfg ->
        let u := modem_upload cfg p wi in
        In (upload_attempt p) (trace_delta wi (snd u)) /\
        w_end = upload_pending cfg post start_time
                  (if fst (fst u) then os_remove p (snd u) else snd u) /\
        trace_delta (snd net) w_end
        = (trace_delta (snd net) wi ++ trace_delta wi (snd u)
           ++ trace_delta (snd u) w_end)%list)).

(** C10 as worded: every file of the outbox, whatever its name. *)
Definition boot_drain_as_worded (cfg : Config) (w : World) : Prop :=
  let m := mount_usb_disk w in
  let r := startup_upload_phase cfg w in
  fst m = true -> fst (fst (setup_network (apn cfg) (snd m))) = true ->
  forall p, In p (listdir (outbox_dir cfg) (snd m)) ->
    In p (get_pending_uploads cfg (snd m)) /\
    (In (upload_attempt p) (trace_delta w (snd r)) \/
     boot_upload_timeout cfg < now (snd r) - now (snd m)).

(** Power-on with an archive and a text file left in the outbox, and a
    modem that registers, gets an address and accepts the upload. *)
Definition world_boot_answering : World :=
  mkWorld 0
          ([Some "OK"; Some "+CSQ: 20,0 OK"; Some "OK"; Some "+CREG: 0,1 OK";
            Some "OK"; Some "OK"; Some "OK"; Some "+SAPBR: 1,1,10.0.0.2 OK"]
           ++ repeat (Some "OK") 10
           ++ [Some "+FTPPUT: 1,1,1360"; Some "+FTPPUT: 2,4"; Some "OK";
               Some "OK"; Some "+FTPPUT: 1,0"; Some "OK"])%list
          [] None
          [(["outbox"; "log.zip"], "data"); (["outbox"; "notes.txt"], "memo")]
          false false true true.

(** ** Durations and the state of the device *)

(** [w'] is reached from [w] in at most [ms] milliseconds. *)
Definition within (ms : Z) (w w' : World) : Prop :=
  now w <= now w' <= now w + ms.

(** From [w] to [w'] the mount, the gadget and what the two commands would
    answer are as they were, and the clock has not gone back; files may
    have been deleted. *)
Definition device_kept (w w' : World) : Prop :=
  mounted w' = mounted w /\ gadget_loaded w' = gadget_loaded w /\
  mountable w' = mountable w /\ loadable w' = loadable w /\
  now w <= now w'.

(** ** Worlds for more examples *)

(** The modem answers the probe and then stays silent. *)
Definition world_probe_only : World := world_answering "OK".

(** [a.txt] on the mounted disk; the modem accepts the session but
    announces a maximum length of 0 bytes, and confirms the close. *)
Definition world_zero_window : World :=
  mkWorld 0
          (repeat (Some "OK") 10
           ++ [Some "+FTPPUT: 1,1,0"; Some "OK"; Some "+FTPPUT: 1,0"])%list
          [] None [(["a.txt"], "hello")] true false true true.

(** The host has written [data.csv]; the disk also holds a hidden
    directory and a [desktop.ini].  The modem registers, gets an address and
    accepts the upload. *)
Definition world_harvest_ok : World :=
  mkWorld 0
          ([Some "OK"; Some "+CSQ: 20,0 OK"; Some "OK"; Some "+CREG: 0,1 OK";
            Some "OK"; Some "OK"; Some "OK"; Some "+SAPBR: 1,1,10.0.0.2 OK"]
           ++ repeat (Some "OK") 10
           ++ [Some "+FTPPUT: 1,1,1360"; Some "+FTPPUT: 2,4"; Some "OK";
               Some "OK"; Some "+FTPPUT: 1,0"; Some "OK"])%list
          [] None
          [(["data.csv"], "data"); ([".Trash"; "old.csv"], "junk");
           (["desktop.ini"], "x")]
          false true true true.

(** ** Signal strength *)

(** [s.split(sep)] for a separator of one character. *)
Fixpoint split_from (sep : ascii) (field s : string) : list string :=
  match s with
  | "" => [field]
  | String c r =>
      if Ascii.eqb c sep then field :: split_from sep "" r
      else split_from sep (field ++ String c "") r
  end.

Definition split_on (sep : ascii) (s : string) : list string :=
  split_from sep "" s.

(** The text [check_signal] converts: [resp.split(":")[1].split(",")[0]].
    An index out of range gives the empty text, which is no integer
    either. *)
Definition csq_field (resp : string) : string :=
  nth 0 (split_on "," (nth 1 (split_on ":" resp) "")) "".

(** [check_signal] of [modem_handler.py]: [(ok, rssi)]. *)
Definition check_signal (w : World) : (bool * Z) * World :=
  let r := send_at "AT+CSQ" "OK" 2000 w in
  let resp := snd (fst r) in
  if fst (fst r) && contains "+CSQ:" resp
  then
    match py_int (strip (csq_field resp)) with
    | Some rssi => ((true, rssi), snd r)
    | None => ((false, 99), snd r)
    end
  else ((false, 99), snd r).

(** [FTPUploader.check_signal_quality]; [modem_ready] is [self.modem] being
    set. *)
Definition check_signal_quality (modem_ready : bool) (w : World)
  : (bool * Z) * World :=
  if negb modem_ready then ((false, 0), w)
  else
    let r := check_signal w in
    let rssi := snd (fst r) in
    if fst (fst r)
    then
      if rssi =? 99 then ((false, rssi), snd r)
      else if rssi <? 5 then ((false, rssi), snd r)
      else if rssi <? 10 then ((true, rssi), snd r)
      else ((true, rssi), snd r)
    else ((false, 0), snd r).

(** ** The outbox of [ftp_uploader.py] *)

(** [FTPUploader.initialize_modem], the serial port opening without
    error. *)
Definition initialize_modem (cfg : Config) (w : World) : bool * World :=
  let r := setup_network (apn cfg) w in
  (fst (fst r), snd r).

(** The loop of [process_outbox] over the pending files:
    [(successful_uploads, failed_uploads)].  [None] stands for the
    exception of [os.path.getsize] on a file that is gone; [removable]
    tells of which files [os.remove] succeeds. *)
Fixpoint upload_until_failure (cfg : Config) (max_retries retry_delay : Z)
  (removable : path -> bool)
  (pending_files : list path) (successful_uploads : Z) (w : World)
  : option ((Z * Z) * World) :=
  match pending_files with
  | [] => Some ((successful_uploads, 0), w)
  | file_path :: rest =>
      match read_file file_path w with
      | None => None
      | Some _ =>
          let r := uploader_upload_file cfg true max_retries retry_delay
                                        (removable file_path) file_path w in
          if fst r
          then upload_until_failure cfg max_retries retry_delay removable
                                    rest (successful_uploads + 1) (snd r)
          else Some ((successful_uploads, 1), snd r)
      end
  end.

(** [FTPUploader.process_outbox]; [pending_files] is what
    [get_pending_files()] returns, the files of the outbox, oldest first. *)
Definition process_outbox (cfg : Config) (modem_ready : bool)
  (max_retries retry_delay : Z) (removable : path -> bool)
  (pending_files : list path) (w : World)
  : option (bool * World) :=
  let init := if negb modem_ready then initialize_modem cfg w else (true, w) in
  if negb (fst init) then Some (false, snd init)
  else
    let signal := check_signal_quality true (snd init) in
    if negb (fst (fst signal)) then Some (false, snd signal)
    else
      match pending_files with
      | [] => Some (true, snd signal)
      | _ =>
          match upload_until_failure cfg max_retries retry_delay removable
                                     pending_files 0 (snd signal) with
          | None => None
          | Some done => Some (snd (fst done) =? 0, snd done)
          end
      end.

(** ** The single-file upload of [main.py] *)

(** [upload_file] of [main.py]. *)
Definition main_upload_file (cfg : Config) (zip_path : path) (w : World)
  : bool * World :=
  let net := setup_network (apn cfg) w in
  if negb (fst (fst net)) then (false, snd net)
  else
    let r := modem_upload cfg zip_path (snd net) in
    (fst (fst r), close_bearer (snd r)).

(** ** The HTTP upload of [modem_handler.py] *)

(** One pass of the [while True] loop of [SIM7000GHandler.upload_file]: an
    HTTP session that posts [chunk].  Returns the result of the POST and the
    world after the session was ended. *)
Definition http_post_chunk (url chunk : string) (w : World)
  : (bool * string) * World :=
  let w1 := at_do "AT+HTTPINIT" 5000 w in
  let w2 := at_do ("AT+HTTPPARA=" ++ quoted "URL" ++ "," ++ quoted url)
                  5000 w1 in
  let w3 := at_do ("AT+HTTPPARA=" ++ quoted "CONTENT" ++ ","
                   ++ quoted "application/octet-stream") 5000 w2 in
  let w4 := ser_write ("AT+HTTPDATA=" ++ string_of_Z (len chunk)
                       ++ ",10000" ++ crlf) w3 in
  let w5 := ser_write_data chunk (sleep 500 w4) in
  let post := send_at "AT+HTTPACTION=1" "+HTTPACTION: 1,200" 30000 w5 in
  (fst post, at_do "AT+HTTPTERM" 5000 (snd post)).

Definition http_failed_message (chunk_index : Z) (resp : string) : string :=
  "Failed at chunk " ++ string_of_Z chunk_index ++ ": " ++ resp.

Section HttpLoop.

(** The body of one pass, [http_post_chunk url] in [upload_file]. *)
Variable post_chunk : string -> World -> (bool * string) * World.

(** The [while True] loop itself: [rest] is the unread part of the file and
    [size] is [self.chunk_size]. *)
Equations? http_chunks (size : Z) (rest : string) (chunk_index : Z)
  (w : World) : (bool * string) * World
  by wf (String.length rest) lt :=
http_chunks size rest chunk_index w
  with string_dec (file_read_chunk size rest) "" => {
  | left _ := ((true, "Upload Complete"), w);
  | right Hne :=
      let posted := post_chunk (file_read_chunk size rest) w in
      if negb (fst (fst posted))
      then ((false, http_failed_message chunk_index (snd (fst posted))),
            snd posted)
      else http_chunks size (file_read_rest size rest)
                       (chunk_index + 1) (snd posted) }.
Proof.
  assert (Hdrop : forall n t, (String.length (str_drop n t) <= String.length t)%nat).
  { induction n as [|n IH]; intros [|a t]; simpl; try lia.
    specialize (IH t). lia. }
  unfold file_read_chunk, file_read_rest in *.
  destruct (size <? 0).
  - destruct rest; [congruence | simpl; lia].
  - destruct (Z.to_nat size) as [|n]; destruct rest as [|a t];
      simpl in *; try congruence.
    specialize (Hdrop n t). lia.
Qed.

(** A run of the loop from the unread part [rest] and the chunk number
    [chunk_index]: the chunks posted, in order, the result returned and the
    world left.  The loop ends at the end of the file, or with the first
    chunk whose post fails; a chunk is posted only after the post of the
    chunk before it succeeded. *)
Inductive http_run (size : Z)
  : string -> Z -> World -> list string -> bool * string -> World -> Prop :=
| http_end rest chunk_index w :
    file_read_chunk size rest = "" ->
    http_run size rest chunk_index w [] (true, "Upload Complete") w
| http_failed rest chunk_index w :
    file_read_chunk size rest <> "" ->
    fst (fst (post_chunk (file_read_chunk size rest) w)) = false ->
    http_run size rest chunk_index w [file_read_chunk size rest]
             (false,
              http_failed_message chunk_index
                (snd (fst (post_chunk (file_read_chunk size rest) w))))
             (snd (post_chunk (file_read_chunk size rest) w))
| http_posted rest chunk_index w chunks result w' :
    file_read_chunk size rest <> "" ->
    fst (fst (post_chunk (file_read_chunk size rest) w)) = true ->
    http_run size (file_read_rest size rest) (chunk_index + 1)
             (snd (post_chunk (file_read_chunk size rest) w))
             chunks result w' ->
    http_run size rest chunk_index w (file_read_chunk size rest :: chunks)
             result w'.

End HttpLoop.

(** [SIM7000GHandler.upload_file]; [chunk_size] is [self.chunk_size]. *)
Definition handler_upload_file (url : string) (chunk_size : Z)
  (filepath : path) (w : World) : (bool * string) * World :=
  match read_file filepath w with
  | None => ((false, "File not found"), w)
  | Some content => http_chunks (http_post_chunk url) chunk_size content 0 w
  end.

(** What one chunk of the HTTP upload leaves in the trace, the engine's own
    events apart. *)
Definition http_chunk_outline (url chunk : string) : list Event :=
  [cmd "AT+HTTPINIT";
   cmd ("AT+HTTPPARA=" ++ quoted "URL" ++ "," ++ quoted url);
   cmd ("AT+HTTPPARA=" ++ quoted "CONTENT" ++ ","
        ++ quoted "application/octet-stream");
   EvCmd ("AT+HTTPDATA=" ++ string_of_Z (len chunk) ++ ",10000" ++ crlf);
   EvSleep 500;
   EvData chunk;
   cmd "AT+HTTPACTION=1";
   cmd "AT+HTTPTERM"].

(** ** The write counter of the disk *)

(** [s.replace(old, new)] for a non-empty [old]; [skip] characters of a
    match are still to be passed over. *)
Fixpoint replace_from (skip : nat) (old new s : string) : string :=
  match s with
  | "" => ""
  | String c r =>
      match skip with
      | S k => replace_from k old new r
      | O =>
          if String.prefix old s
          then new ++ replace_from (String.length old - 1) old new r
          else String c (replace_from O old new r)
      end
  end.

Definition str_replace (old new s : string) : string :=
  replace_from O old new s.

(** [s.rstrip(chars)] *)
Fixpoint rstrip_chars (chars s : string) : string :=
  match s with
  | "" => ""
  | String c r =>
      match rstrip_chars chars r with
      | "" => if contains (String c "") chars then "" else String c ""
      | r' => String c r'
      end
  end.

(** [s.split()]: the runs of characters that are not white space. *)
Fixpoint split_ws_from (field s : string) : list string :=
  match s with
  | "" => match field with "" => [] | _ => [field] end
  | String c r =>
      if is_space c
      then match field with
           | "" => split_ws_from "" r
           | _ => field :: split_ws_from "" r
           end
      else split_ws_from (field ++ String c "") r
  end.

Definition split_ws (s : string) : list string := split_ws_from "" s.

(** The partition and the disk that [get_disk_write_sectors] reads the
    counter of. *)
Definition part_name (disk_path : string) : string :=
  str_replace "/dev/" "" disk_path.

Definition disk_name (disk_path : string) : string :=
  if contains "mmcblk" (part_name disk_path)
  then rstrip_chars "p" (rstrip_chars "0123456789" (part_name disk_path))
  else rstrip_chars "0123456789" (part_name disk_path).

Definition stat_path (disk_path : string) : string :=
  "/sys/block/" ++ disk_name disk_path ++ "/" ++ part_name disk_path ++ "/stat".

(** [get_disk_write_sectors]; [sysfs] gives the content of a file, [None]
    when it cannot be opened. *)
Definition get_disk_write_sectors (disk_path : string)
  (sysfs : string -> option string) : Z :=
  if negb (startswith disk_path "/dev/") then -1
  else
    match sysfs (stat_path disk_path) with
    | None => -1
    | Some content =>
        match nth_error (split_ws content) 6 with
        | Some field =>
            match py_int field with
            | Some sectors => sectors
            | None => -1
            end
        | None => -1
        end
    end.

(** ** More worlds *)

(** The modem reports a signal quality of 20. *)
Definition world_signal_good : World := world_answering "+CSQ: 20,0 OK".

(** The modem reports a signal quality of 3, too weak to upload. *)
Definition world_signal_weak : World :=
  mkWorld 0 [Some "+CSQ: 3,0 OK"] [] None [(["a.txt"], "hello")]
          true false true true.

(** Two files in the outbox; the signal is good; the modem accepts the
    first upload and does not open a session for the second. *)
Definition world_outbox : World :=
  mkWorld 0
          ([Some "+CSQ: 20,0 OK"]
           ++ repeat (Some "OK") 10
           ++ [Some "+FTPPUT: 1,1,1360"; Some "+FTPPUT: 2,5"; Some "OK";
               Some "OK"; Some "+FTPPUT: 1,0"]
           ++ repeat (Some "OK") 10 ++ [Some "ERROR"])%list
          [] None
          [(["a.txt"], "hello"); (["b.txt"], "world"); (["c.txt"], "again")]
          true false true true.

(** The same outbox after the signal check, and after the upload of
    [a.txt] succeeded and that of [b.txt] failed. *)
Definition world_outbox_checked : World := snd (check_signal world_outbox).

Definition world_outbox_failed : World :=
  snd (uploader_upload_file cfg_default true 3 5000 true ["b.txt"]
         (snd (uploader_upload_file cfg_default true 3 5000 true ["a.txt"]
                 world_outbox_checked))).

(** [hello] on the mounted disk; the modem opens the session announcing a
    chunk size of -5. *)
Definition world_negative_size : World :=
  mkWorld 1000 (repeat (Some "OK") 10 ++ [Some "+FTPPUT: 1,1,-5"])%list
          [] None [(["a.txt"], "hello")] true false true true.

(** The bytes written to the modem as file data, in order. *)
Fixpoint data_written (t : list Event) : string :=
  match t with
  | [] => ""
  | EvData chunk :: t' => chunk ++ data_written t'
  | _ :: t' => data_written t'
  end.

(** [hello] on the mounted disk; the modem accepts three HTTP posts. *)
Definition world_http : World :=
  mkWorld 0
          (List.concat
             (repeat [Some "OK"; Some "OK"; Some "OK";
                      Some "+HTTPACTION: 1,200,0"; Some "OK"] 3))
          [] None [(["a.txt"], "hello")] true false true true.

(** A [sysfs] with the counters of [mmcblk0p3]: 4242 sectors written. *)
Definition sysfs_mmc (p : string) : option string :=
  if String.eqb p "/sys/block/mmcblk0/mmcblk0p3/stat"
  then Some "     120       3     9876      45      17       2     4242      80        0      100      125"
  else None.

(** Five polls, two seconds apart, of a connected host, the write counter
    reading [sectors] every time. *)
Definition polls_steady (sectors : Z) : list Poll :=
  map (fun k => mkPoll "configured" sectors (2000 * k) sectors)
      [0; 1; 2; 3; 4].

(** ** Runs that raise nothing *)

(** The harvest cycle started in [w] raises nothing: every upload of the
    cycle reads with a size that [read] accepts. *)
Definition harvest_runs (cfg : Config) (w : World) : Prop :=
  let m := mount_usb_disk (sleep 1000 (unload_usb_gadget w)) in
  let net := setup_network (apn cfg) (snd m) in
  forall pre p post,
    files_to_upload (snd m) = (pre ++ p :: post)%list ->
    reads_accepted cfg p (snd (upload_each cfg pre 0 0 (snd net))).

(** The worlds in which the boot loop that started in [w] at [boot_start]
    calls [startup_upload_phase]: [w] itself, and the world 10 seconds
    after a pass that asked for another one. *)
Inductive boot_pass (cfg : Config) (boot_start : Z) (w : World)
  : World -> Prop :=
| boot_pass_first : boot_pass cfg boot_start w w
| boot_pass_next w' :
    boot_pass cfg boot_start w w' ->
    now w' - boot_start < boot_upload_timeout cfg ->
    fst (startup_upload_phase cfg w') = false ->
    boot_pass cfg boot_start w
              (sleep 10000 (snd (startup_upload_phase cfg w'))).

(** The boot of [main] started in [w] raises nothing: none of the passes
    of its loop does. *)
Definition main_boot_runs (cfg : Config) (w : World) : Prop :=
  forall w',
    boot_pass cfg (now (unload_usb_gadget w)) (unload_usb_gadget w) w' ->
    boot_drain_runs cfg w'.

(** ** Statements about the HTTP upload *)

(** What [SIM7000GHandler.upload_file] does with the file [filepath], posted
    to [url] in chunks of [size] bytes. *)
Definition http_upload_spec (url : string) (size : Z) (filepath : path)
  (w : World) : Prop :=
  let r := handler_upload_file url size filepath w in
  (read_file filepath w = None -> r = ((false, "File not found"), w)) /\
  (forall content, read_file filepath w = Some content ->
   exists chunks tail,
     http_run (http_post_chunk url) size content 0 w chunks (fst r) (snd r) /\
     content = String.concat "" chunks ++ tail /\
     Forall (fun chunk => chunk <> "") chunks /\
     later w (snd r) /\
     outline (trace_delta w (snd r))
     = flat_map (http_chunk_outline url) chunks /\
     data_written (trace_delta w (snd r)) = String.concat "" chunks /\
     (fst (fst r) = true ->
      fst r = (true, "Upload Complete") /\
      (size <> 0 -> String.concat "" chunks = content)) /\
     (fst (fst r) = false ->
      exists done last wl,
        chunks = (done ++ [last])%list /\
        fst (fst (http_post_chunk url last wl)) = false /\
        fst r = (false,
                 http_failed_message (Z.of_nat (List.length done))
                   (snd (fst (http_post_chunk url last wl)))) /\
        snd r = snd (http_post_chunk url last wl)) /\
     (size = 0 -> r = ((true, "Upload Complete"), w))).

(** ** The delivery of a chunk, attempt by attempt *)








(** ** The stream of chunks *)




(** The chunks written to the modem as file data, in order. *)
Fixpoint writes_of (t : list Event) : list string :=
  match t with
  | [] => []
  | EvData chunk :: t' => chunk :: writes_of t'
  | _ :: t' => writes_of t'
  end.





(** ** Statements about the delivery of chunks *)



(** ** Statements about the opening of the session *)


(** ** Statements about the close of the session *)


(** ** Statements about resuming *)

(** ** Facts about strings *)

Lemma prefix_app (p s : string) :
  String.prefix p s = true <-> exists post, s = p ++ post.
Proof.
  revert s; induction p as [|c p IH]; intros s; simpl.
  - split; [intros _; exists s; reflexivity | intros _; destruct s; reflexivity].
  - destruct s as [|d s]; simpl.
    + split; [discriminate | intros [post H]; discriminate].
    + destruct (Ascii.ascii_dec c d) as [->|Hne].
      * rewrite IH. split; intros [post H]; exists post; congruence.
      * split; [discriminate | intros [post H]; congruence].
Qed.

Lemma contains_unfold (needle hay : string) :
  contains needle hay =
  String.prefix needle hay
  || match hay with
     | EmptyString => false
     | String _ rest => contains needle rest
     end.
Proof.
  destruct hay as [|c hay]; simpl.
  - destruct (String.prefix needle ""); reflexivity.
  - destruct (String.prefix needle (String c hay)); reflexivity.
Qed.

Lemma contains_Occurs (needle hay : string) :
  contains needle hay = true <-> Occurs needle hay.
Proof.
  induction hay as [|c hay IH]; rewrite contains_unfold, orb_true_iff.
  - split.
    + intros [E|E]; [|discriminate].
      apply prefix_app in E as [post E]. exists "", post. exact E.
    + intros [pre [post H]]. left. apply prefix_app.
      destruct pre; [exists post; exact H | discriminate].
  - rewrite IH. split.
    + intros [E|[pre [post H]]].
      * apply prefix_app in E as [post E]. exists "", post. exact E.
      * exists (String c pre), post. simpl. now rewrite H.
    + intros [pre [post H]]. destruct pre as [|d pre]; simpl in H.
      * left. apply prefix_app. exists post. exact H.
      * right. exists pre, post. congruence.
Qed.

Lemma contains_false_Occurs (needle hay : string) :
  contains needle hay = false <-> ~ Occurs needle hay.
Proof.
  rewrite <- contains_Occurs. destruct (contains needle hay); split;
    congruence.
Qed.


(** ** Facts about the transaction engine *)



(** When the poll interval divides the timeout, a loop entered on a poll
    boundary leaves exactly at the deadline, never after it. *)
Lemma send_at_loop_deadline expected start timeout response w :
  (now w - start) mod 50 = 0 -> timeout mod 50 = 0 ->
  now w - start <= timeout ->
  now (snd (send_at_loop expected start timeout response w)) - start
  <= timeout.
Proof.
  funelim (send_at_loop expected start timeout response w);
    intros Hm Ht Hle.
  - simpl. lia.
  - destruct (contains expected (response ++ s)
              || contains "ERROR" (response ++ s)).
    + simpl. lia.
    + apply H; simpl; [| assumption |].
      * replace (now w + 50 - start) with (now w - start + 1 * 50) by lia.
        rewrite Z.mod_add by lia. assumption.
      * apply Z.mod_divide in Hm, Ht; try lia.
        destruct Hm as [a Ha], Ht as [b Hb]. lia.
  - apply H; simpl; [| assumption |].
    + replace (now w + 50 - start) with (now w - start + 1 * 50) by lia.
      rewrite Z.mod_add by lia. assumption.
    + apply Z.mod_divide in Hm, Ht; try lia.
      destruct Hm as [a Ha], Ht as [b Hb]. lia.
Qed.


(** ** Worlds, traces and their growth *)

Lemma trace_delta_app (w w' : World) (d : list Event) :
  trace w' = (trace w ++ d)%list -> trace_delta w w' = d.
Proof.
  intros H. unfold trace_delta. rewrite H.
  rewrite skipn_app, skipn_all, Nat.sub_diag. reflexivity.
Qed.

Lemma later_intro (w w' : World) (d : list Event) :
  volume w' = volume w -> mounted w' = mounted w ->
  gadget_loaded w' = gadget_loaded w ->
  mountable w' = mountable w -> loadable w' = loadable w ->
  now w <= now w' -> trace w' = (trace w ++ d)%list ->
  later w w'.
Proof.
  intros. unfold later. rewrite (trace_delta_app w w' d) by assumption.
  repeat split; assumption.
Qed.

Lemma later_refl (w : World) : later w w.
Proof.
  apply later_intro with (d := []); try reflexivity; try lia.
  now rewrite app_nil_r.
Qed.

Lemma delta_refl (w : World) : trace_delta w w = [].
Proof. apply trace_delta_app. now rewrite app_nil_r. Qed.

Lemma later_trans (w1 w2 w3 : World) :
  later w1 w2 -> later w2 w3 -> later w1 w3.
Proof.
  intros (A1 & A2 & A3 & A4 & A5 & A6 & A7) (B1 & B2 & B3 & B4 & B5 & B6 & B7).
  apply later_intro with (d := (trace_delta w1 w2 ++ trace_delta w2 w3)%list);
    try congruence; try lia.
  rewrite B7, A7 at 1. now rewrite app_assoc.
Qed.

Lemma delta_trans (w1 w2 w3 : World) :
  later w1 w2 -> later w2 w3 ->
  trace_delta w1 w3 = (trace_delta w1 w2 ++ trace_delta w2 w3)%list.
Proof.
  intros (_ & _ & _ & _ & _ & _ & A7) (_ & _ & _ & _ & _ & _ & B7).
  apply trace_delta_app. rewrite B7, A7 at 1. now rewrite app_assoc.
Qed.

Lemma outline_app (a b : list Event) :
  outline (a ++ b) = (outline a ++ outline b)%list.
Proof. apply filter_app. Qed.

Lemma later_now (w w' : World) : later w w' -> now w <= now w'.
Proof. intros H; apply H. Qed.

Lemma later_volume (w w' : World) : later w w' -> volume w' = volume w.
Proof. intros H; apply H. Qed.

Lemma later_mounted (w w' : World) : later w w' -> mounted w' = mounted w.
Proof. intros H; apply H. Qed.

Lemma later_read_file (w w' : World) (p : path) :
  later w w' -> read_file p w' = read_file p w.
Proof.
  intros (Hv & Hm & _). unfold read_file. now rewrite Hv, Hm.
Qed.

(** An event appended to the trace. *)
Lemma emit_later (e : Event) (w : World) :
  later w (emit e w) /\ trace_delta w (emit e w) = [e].
Proof.
  split; [apply later_intro with (d := [e]) | apply trace_delta_app];
    try reflexivity; simpl; lia.
Qed.

Lemma sleep_later (ms : Z) (w : World) :
  0 <= ms -> later w (sleep ms w) /\ trace_delta w (sleep ms w) = [EvSleep ms].
Proof.
  intros. split;
    [apply later_intro with (d := [EvSleep ms]) | apply trace_delta_app];
    try reflexivity; simpl; lia.
Qed.

Lemma poll_sleep_later (ms : Z) (w : World) :
  0 <= ms ->
  later w (poll_sleep ms w) /\ trace_delta w (poll_sleep ms w) = [EvPoll ms].
Proof.
  intros. split;
    [apply later_intro with (d := [EvPoll ms]) | apply trace_delta_app];
    try reflexivity; simpl; lia.
Qed.

Lemma next_poll_later (w : World) :
  later w (next_poll w) /\ trace_delta w (next_poll w) = [].
Proof.
  split; [apply later_intro with (d := []) | apply trace_delta_app];
    try reflexivity; simpl; try lia; now rewrite app_nil_r.
Qed.

Lemma serial_refl (w : World) : serial w [] w.
Proof. split; [apply later_refl | split; [apply delta_refl | reflexivity]]. Qed.

Lemma serial_trans (w1 w2 w3 : World) (d1 d2 : list Event) :
  serial w1 d1 w2 -> serial w2 d2 w3 -> serial w1 (d1 ++ d2) w3.
Proof.
  intros (L1 & D1 & P1) (L2 & D2 & P2). split; [|split].
  - apply (later_trans _ _ _ L1 L2).
  - rewrite (delta_trans _ _ _ L1 L2). congruence.
  - congruence.
Qed.

Lemma serial_emit (e : Event) (w : World) : serial w [e] (emit e w).
Proof. destruct (emit_later e w). split; [|split]; trivial. Qed.

Lemma serial_poll_sleep (ms : Z) (w : World) :
  0 <= ms -> serial w [EvPoll ms] (poll_sleep ms w).
Proof.
  intros H. destruct (poll_sleep_later ms w H). split; [|split]; trivial.
Qed.

Lemma serial_sleep (ms : Z) (w : World) :
  0 <= ms -> serial w [EvSleep ms] (sleep ms w).
Proof.
  intros H. destruct (sleep_later ms w H). split; [|split]; trivial.
Qed.

Lemma serial_next_poll (w : World) : serial w [] (next_poll w).
Proof. destruct (next_poll_later w). split; [|split]; trivial. Qed.

(** The engine's loops only sleep between polls. *)
Lemma send_at_loop_serial expected start timeout response w :
  exists d, serial w d (snd (send_at_loop expected start timeout response w))
            /\ outline d = [].
Proof.
  funelim (send_at_loop expected start timeout response w).
  - exists []. split; [apply serial_refl | reflexivity].
  - destruct (contains expected (response ++ s)
              || contains "ERROR" (response ++ s)).
    + exists []. split; [apply serial_next_poll | reflexivity].
    + destruct H as (d & Hd & Ho).
      exists ([] ++ [EvPoll 50] ++ d)%list. split.
      * eapply serial_trans; [apply serial_next_poll|].
        eapply serial_trans; [apply serial_poll_sleep; lia | exact Hd].
      * simpl. exact Ho.
  - destruct H as (d & Hd & Ho).
    exists ([] ++ [EvPoll 50] ++ d)%list. split.
    * eapply serial_trans; [apply serial_next_poll|].
      eapply serial_trans; [apply serial_poll_sleep; lia | exact Hd].
    * simpl. exact Ho.
Qed.

Lemma wait_loop_serial expected start timeout response w :
  exists d, serial w d (snd (wait_loop expected start timeout response w))
            /\ outline d = [].
Proof.
  funelim (wait_loop expected start timeout response w).
  - exists []. split; [apply serial_refl | reflexivity].
  - destruct (contains expected (response ++ s)).
    { exists []. split; [apply serial_next_poll | reflexivity]. }
    destruct (contains "ERROR" (response ++ s)).
    { exists []. split; [apply serial_next_poll | reflexivity]. }
    destruct H as (d & Hd & Ho).
    exists ([] ++ [EvPoll 100] ++ d)%list. split.
    * eapply serial_trans; [apply serial_next_poll|].
      eapply serial_trans; [apply serial_poll_sleep; lia | exact Hd].
    * simpl. exact Ho.
  - destruct H as (d & Hd & Ho).
    exists ([] ++ [EvPoll 100] ++ d)%list. split.
    * eapply serial_trans; [apply serial_next_poll|].
      eapply serial_trans; [apply serial_poll_sleep; lia | exact Hd].
    * simpl. exact Ho.
Qed.

Lemma send_at_serial command expected timeout w :
  exists d, serial w d (snd (send_at command expected timeout w))
            /\ outline d = [cmd command].
Proof.
  unfold send_at.
  destruct (send_at_loop_serial expected
              (now (ser_write (command ++ crlf) (reset_input_buffer w)))
              timeout ""
              (ser_write (command ++ crlf) (reset_input_buffer w)))
    as (d & Hd & Ho).
  exists ([EvReset] ++ [EvCmd (command ++ crlf)] ++ d)%list. split.
  - eapply serial_trans; [apply serial_emit|].
    eapply serial_trans; [apply serial_emit | exact Hd].
  - simpl. rewrite Ho. reflexivity.
Qed.

Lemma wait_for_response_serial expected timeout w :
  exists d, serial w d (snd (wait_for_response expected timeout w))
            /\ outline d = [].
Proof. apply wait_loop_serial. Qed.

Lemma at_do_serial command timeout w :
  exists d, serial w d (at_do command timeout w) /\ outline d = [cmd command].
Proof. apply send_at_serial. Qed.

(** Outlines are built step by step. *)
Lemma outlined_refl (w : World) : outlined w [] w.
Proof. split; [apply later_refl | now rewrite delta_refl]. Qed.

Lemma outlined_serial (w0 w w' : World) (o d : list Event) :
  outlined w0 o w -> serial w d w' -> outlined w0 (o ++ outline d) w'.
Proof.
  intros [L O] (L' & D & _). split.
  - exact (later_trans _ _ _ L L').
  - rewrite (delta_trans _ _ _ L L'), outline_app, O, D. reflexivity.
Qed.

Lemma outlined_quiet (w0 w w' : World) (o : list Event) :
  outlined w0 o w -> (exists d, serial w d w' /\ outline d = []) ->
  outlined w0 o w'.
Proof.
  intros H (d & S & O). pose proof (outlined_serial _ _ _ _ _ H S) as H'.
  rewrite O, app_nil_r in H'. exact H'.
Qed.

Lemma outlined_send_at (w0 w : World) (o : list Event)
  (command expected : string) (timeout : Z) :
  outlined w0 o w ->
  outlined w0 (o ++ [cmd command]) (snd (send_at command expected timeout w)).
Proof.
  intros H. destruct (send_at_serial command expected timeout w) as (d & S & O).
  rewrite <- O. exact (outlined_serial _ _ _ _ _ H S).
Qed.

Lemma outlined_at_do (w0 w : World) (o : list Event)
  (command : string) (timeout : Z) :
  outlined w0 o w -> outlined w0 (o ++ [cmd command]) (at_do command timeout w).
Proof. apply outlined_send_at. Qed.

Lemma outlined_wait (w0 w : World) (o : list Event)
  (expected : string) (timeout : Z) :
  outlined w0 o w -> outlined w0 o (snd (wait_for_response expected timeout w)).
Proof.
  intros H. apply (outlined_quiet _ _ _ _ H).
  apply wait_for_response_serial.
Qed.

Lemma outlined_emit (w0 w : World) (o : list Event) (e : Event) :
  outlined w0 o w -> outlined w0 (o ++ outline [e]) (emit e w).
Proof. intros H. exact (outlined_serial _ _ _ _ _ H (serial_emit e w)). Qed.

Lemma outlined_sleep (w0 w : World) (o : list Event) (ms : Z) :
  0 <= ms -> outlined w0 o w -> outlined w0 (o ++ [EvSleep ms]) (sleep ms w).
Proof.
  intros Hms H. exact (outlined_serial _ _ _ _ _ H (serial_sleep ms w Hms)).
Qed.

Lemma serial_progress (w w' : World) (d : list Event) :
  serial w d w' -> progress_file w' = progress_file w.
Proof. intros H; apply H. Qed.

Lemma send_at_progress command expected timeout w :
  progress_file (snd (send_at command expected timeout w)) = progress_file w.
Proof.
  destruct (send_at_serial command expected timeout w) as (d & S & _).
  exact (serial_progress _ _ _ S).
Qed.

Lemma wait_for_response_progress expected timeout w :
  progress_file (snd (wait_for_response expected timeout w)) = progress_file w.
Proof.
  destruct (wait_for_response_serial expected timeout w) as (d & S & _).
  exact (serial_progress _ _ _ S).
Qed.

Lemma split_singleton {A : Type} (x : A) (pre : list A) (p : A)
  (post : list A) :
  [x] = (pre ++ p :: post)%list -> pre = [] /\ p = x /\ post = [].
Proof.
  destruct pre as [|q pre]; cbn [app]; intros E.
  - injection E as -> ->. repeat split.
  - injection E as _ E. destruct pre; discriminate E.
Qed.

(** ** Strings and file reads *)

Lemma str_app_assoc (a b c : string) : (a ++ b) ++ c = a ++ b ++ c.
Proof. induction a as [|x a IH]; simpl; [reflexivity | now rewrite IH]. Qed.

Lemma str_app_empty_r (a : string) : a ++ "" = a.
Proof. induction a as [|x a IH]; simpl; [reflexivity | now rewrite IH]. Qed.

Lemma len_app (a b : string) : len (a ++ b) = len a + len b.
Proof.
  unfold len. induction a as [|x a IH]; simpl String.length.
  - simpl. lia.
  - rewrite !Nat2Z.inj_succ.
    change (Z.of_nat (String.length (a ++ b))) with (Z.of_nat (String.length (a ++ b))).
    lia.
Qed.



Lemma str_take_drop (n : nat) (s : string) : str_take n s ++ str_drop n s = s.
Proof.
  revert s. induction n as [|n IH]; intros [|c s]; simpl; try reflexivity.
  now rewrite IH.
Qed.


Lemma str_take_empty (n : nat) (s : string) :
  str_take n s = "" -> n = 0%nat \/ s = "".
Proof. destruct n, s; simpl; auto; discriminate. Qed.

Lemma file_read_split (n : Z) (rest : string) :
  file_read_chunk n rest ++ file_read_rest n rest = rest.
Proof.
  unfold file_read_chunk, file_read_rest. destruct (n <? 0).
  - apply str_app_empty_r.
  - apply str_take_drop.
Qed.


Lemma file_read_nothing (n : Z) (rest : string) :
  n <> 0 -> file_read_chunk n rest = "" -> rest = "".
Proof.
  intros Hn. unfold file_read_chunk. destruct (n <? 0) eqn:E; [trivial|].
  intros H. apply str_take_empty in H as [H|H]; [|exact H].
  apply Z.ltb_ge in E. lia.
Qed.

Lemma str_concat_cons (c : string) (chunks : list string) :
  String.concat "" (c :: chunks) = c ++ String.concat "" chunks.
Proof.
  destruct chunks as [|d chunks]; cbn [String.concat].
  - symmetry. apply str_app_empty_r.
  - reflexivity.
Qed.

(** ** The transaction engine: results and timing *)





(** ** The bearer controller *)

Lemma wait_registration_serial (n : nat) (w : World) :
  exists d polls,
    serial w d (snd (wait_registration n w)) /\
    (polls <= n)%nat /\
    (fst (wait_registration n w) = true -> (1 <= polls)%nat) /\
    (fst (wait_registration n w) = false -> polls = n) /\
    outline d = registration_outline polls (fst (wait_registration n w)).
Proof.
  revert w. induction n as [|n IH]; intros w.
  - exists [], 0%nat. simpl. split; [apply serial_refl|].
    repeat split; try lia; try discriminate.
  - simpl.
    destruct (send_at_serial "AT+CREG?" "OK" 2000 w) as (d1 & S1 & O1).
    destruct (contains ",1" (snd (fst (send_at "AT+CREG?" "OK" 2000 w)))
              || contains ",5" (snd (fst (send_at "AT+CREG?" "OK" 2000 w)))).
    + exists d1, 1%nat. simpl. split; [exact S1|].
      repeat split; try lia; try discriminate. exact O1.
    + destruct (IH (sleep 2000 (snd (send_at "AT+CREG?" "OK" 2000 w))))
        as (d2 & polls & S2 & Hle & Hreg & Hno & O2).
      exists (d1 ++ [EvSleep 2000] ++ d2)%list, (S polls). split; [|split; [|split; [|split]]].
      * eapply serial_trans; [exact S1|].
        eapply serial_trans; [apply serial_sleep; lia | exact S2].
      * lia.
      * intros; lia.
      * intros H. rewrite (Hno H). reflexivity.
      * rewrite !outline_app, O1, O2. simpl.
        unfold registration_outline.
        destruct (fst (wait_registration n _)) eqn:E.
        -- specialize (Hreg eq_refl).
           destruct polls as [|polls]; [lia|]. simpl.
           rewrite Nat.sub_0_r. reflexivity.
        -- reflexivity.
Qed.

Lemma bring_up_bearer_outlined (apn : string) (w0 w : World) (o : list Event) :
  outlined w0 o w ->
  exists polls registered,
    (1 <= polls <= 10)%nat /\ (registered = false -> polls = 10%nat) /\
    outlined w0
      (((((o ++ [cmd "AT+CSQ"]) ++ [cmd "AT+CFUN=1"])
         ++ registration_outline polls registered)
        ++ [cmd ("AT+SAPBR=3,1," ++ quoted "Contype" ++ "," ++ quoted "GPRS")])
       ++ [cmd ("AT+SAPBR=3,1," ++ quoted "APN" ++ "," ++ quoted apn)]
       ++ [cmd "AT+SAPBR=1,1"])%list
      (bring_up_bearer apn w).
Proof.
  intros H0. unfold bring_up_bearer.
  pose proof (outlined_at_do _ _ _ "AT+CSQ" 5000 H0) as H1.
  pose proof (outlined_at_do _ _ _ "AT+CFUN=1" 5000 H1) as H2.
  destruct (wait_registration_serial 10
              (at_do "AT+CFUN=1" 5000 (at_do "AT+CSQ" 5000 w)))
    as (d3 & polls & S3 & Hle & Hreg & Hno & O3).
  pose proof (outlined_serial _ _ _ _ _ H2 S3) as H3. rewrite O3 in H3.
  pose proof (outlined_at_do _ _ _
                ("AT+SAPBR=3,1," ++ quoted "Contype" ++ "," ++ quoted "GPRS")
                5000 H3) as H4.
  pose proof (outlined_at_do _ _ _
                ("AT+SAPBR=3,1," ++ quoted "APN" ++ "," ++ quoted apn)
                5000 H4) as H5.
  pose proof (outlined_at_do _ _ _ "AT+SAPBR=1,1" 10000 H5) as H6.
  exists polls,
    (fst (wait_registration 10
            (at_do "AT+CFUN=1" 5000 (at_do "AT+CSQ" 5000 w)))).
  split; [|split].
  - destruct (fst (wait_registration 10 _)).
    + specialize (Hreg eq_refl). lia.
    + specialize (Hno eq_refl). lia.
  - exact Hno.
  - rewrite <- app_assoc in H6. exact H6.
Qed.

(** C8: [setup_network] fails with "Modem not responding", sending nothing
    more, when the liveness probe gets no OK; otherwise it polls the
    registration between 1 and 10 times, sleeping 2 seconds after every
    unconfirmed poll, goes on to the bearer commands also when all 10 polls
    went unconfirmed, and fails with "Failed to get IP address" exactly when
    the response to the bearer query contains 0.0.0.0, succeeding with that
    response otherwise. *)
Theorem setup_network_spec (apn : string) (w : World) :
  let probe := send_at "AT" "OK" 2000 w in
  let r := setup_network apn w in
  (fst (fst probe) = false ->
     r = ((false, "Modem not responding"), snd probe)) /\
  (fst (fst probe) = true ->
     exists polls registered resp,
       (1 <= polls <= 10)%nat /\
       (registered = false -> polls = 10%nat) /\
       outline (trace_delta w (snd r)) =
         ([cmd "AT"; cmd "AT+CSQ"; cmd "AT+CFUN=1"]
          ++ registration_outline polls registered
          ++ bearer_outline apn)%list /\
       resp = snd (fst (send_at "AT+SAPBR=2,1" "OK" 5000
                          (bring_up_bearer apn (snd probe)))) /\
       (Occurs "0.0.0.0" resp ->
          fst r = (false, "Failed to get IP address")) /\
       (~ Occurs "0.0.0.0" resp -> fst r = (true, resp))).
Proof.
  cbn zeta. unfold setup_network.
  pose proof (outlined_send_at _ _ _ "AT" "OK" 2000 (outlined_refl w)) as H0.
  destruct (bring_up_bearer_outlined apn _ _ _ H0)
    as (polls & registered & Hp & Hr & H1).
  pose proof (outlined_send_at _ _ _ "AT+SAPBR=2,1" "OK" 5000 H1) as [_ H2].
  clear H0 H1. revert H2.
  generalize (send_at "AT+SAPBR=2,1" "OK" 5000
                (bring_up_bearer apn (snd (send_at "AT" "OK" 2000 w)))).
  generalize (send_at "AT" "OK" 2000 w).
  intros [[ok msg] w1] [[ok2 resp] w2] H2. cbn [fst snd] in *.
  split.
  - intros ->. reflexivity.
  - intros ->. cbn [negb].
    exists polls, registered, resp.
    rewrite <- contains_Occurs.
    assert (Hout :
      ((((((([] ++ [cmd "AT"]) ++ [cmd "AT+CSQ"]) ++ [cmd "AT+CFUN=1"])
          ++ registration_outline polls registered)
         ++ [cmd ("AT+SAPBR=3,1," ++ quoted "Contype" ++ "," ++ quoted "GPRS")])
        ++ [cmd ("AT+SAPBR=3,1," ++ quoted "APN" ++ "," ++ quoted apn)]
        ++ [cmd "AT+SAPBR=1,1"]) ++ [cmd "AT+SAPBR=2,1"]
      = [cmd "AT"; cmd "AT+CSQ"; cmd "AT+CFUN=1"]
        ++ registration_outline polls registered ++ bearer_outline apn)%list).
    { unfold bearer_outline. rewrite <- !app_assoc. reflexivity. }
    destruct (contains "0.0.0.0" resp) eqn:E; cbn [fst snd];
      (split; [exact Hp | split; [exact Hr | split; [| split; [reflexivity|]]]]).
    + rewrite H2. exact Hout.
    + split; [reflexivity | intros H; congruence].
    + rewrite H2. exact Hout.
    + split; [discriminate | reflexivity].
Qed.

(** ** The monitor loop *)





(** The scenario of the specification: quiet window 30 s, polls every 5 s,
    one write seen at the poll of t = 5 s, the host stays connected: the
    harvest starts at the poll of t = 35 s and at none before. *)
Example monitor_quiet_window_30s :
  snd (monitor_run 30000 (monitor_start 100)
         (map (fun k => mkPoll "configured" (if k =? 0 then 100 else 108)
                               (5000 * k) 108)
              [0; 1; 2; 3; 4; 5; 6; 7]))
  = [false; false; false; false; false; false; false; true].
Proof. vm_compute. reflexivity. Qed.

(** A host that disconnects 10 s after its last write: the harvest starts
    at the poll that sees it gone. *)
Example monitor_disconnect_triggers :
  snd (monitor_run 30000 (monitor_start 100)
         [mkPoll "configured" 100 0 0; mkPoll "configured" 108 5000 0;
          mkPoll "configured" 108 10000 0; mkPoll "not attached" 108 15000 0])
  = [false; false; false; true].
Proof. vm_compute. reflexivity. Qed.

(** ** Delivery of one chunk *)

Lemma retry_pause_serial (attempt max_retries retry_delay : Z) (w : World) :
  0 <= retry_delay ->
  serial w (if attempt <? max_retries - 1 then [EvSleep retry_delay] else [])
         (if attempt <? max_retries - 1 then sleep retry_delay w else w).
Proof.
  intros H. destruct (attempt <? max_retries - 1).
  - apply serial_sleep; assumption.
  - apply serial_refl.
Qed.

Lemma announce_line (chunk : string) :
  EvCmd ("AT+FTPPUT=2," ++ string_of_Z (len chunk) ++ crlf) = announce chunk.
Proof. reflexivity. Qed.

Lemma chunk_attempts_S (n : nat) (attempt max_retries retry_delay : Z)
  (chunk : string) (w : World) :
  chunk_attempts (S n) attempt max_retries retry_delay chunk w =
  let w1 := ser_write ("AT+FTPPUT=2," ++ string_of_Z (len chunk) ++ crlf)
                      (reset_input_buffer w) in
  let prompt := wait_for_response "+FTPPUT: 2," 15000 w1 in
  if negb (fst (fst prompt))
  then
    chunk_attempts n (attempt + 1) max_retries retry_delay chunk
      (if attempt <? max_retries - 1
       then sleep retry_delay (snd prompt) else snd prompt)
  else
    let ack := wait_for_response "OK" 15000
                 (ser_write_data chunk (snd prompt)) in
    if fst (fst ack) then (true, snd ack)
    else
      chunk_attempts n (attempt + 1) max_retries retry_delay chunk
        (if attempt <? max_retries - 1
         then sleep retry_delay (snd ack) else snd ack).
Proof. reflexivity. Qed.

Lemma chunk_attempts_outline (n : nat) (attempt max_retries retry_delay : Z)
  (chunk : string) (w : World) :
  0 <= retry_delay ->
  let r := chunk_attempts n attempt max_retries retry_delay chunk w in
  exists d outcomes,
    serial w d (snd r) /\
    outline d = retry_outline chunk max_retries retry_delay attempt outcomes /\
    (List.length outcomes <= n)%nat /\
    (fst r = true ->
       exists fails, outcomes = (fails ++ [Acked])%list /\ Forall failed fails) /\
    (fst r = false -> List.length outcomes = n /\ Forall failed outcomes).
Proof.
  intros Hrd. revert attempt w. induction n as [|n IH]; intros attempt w; cbn zeta.
  - exists [], []. split; [apply serial_refl|].
    cbn [chunk_attempts fst snd retry_outline List.length outline filter].
    repeat split; try lia; try discriminate. constructor.
  - rewrite chunk_attempts_S. cbv zeta.
    assert (S1 : serial w [EvReset; announce chunk]
                   (ser_write ("AT+FTPPUT=2," ++ string_of_Z (len chunk) ++ crlf)
                              (reset_input_buffer w))).
    { rewrite <- announce_line.
      exact (serial_trans _ _ _ [EvReset] [_]
               (serial_emit EvReset w) (serial_emit _ _)). }
    revert S1.
    generalize (ser_write ("AT+FTPPUT=2," ++ string_of_Z (len chunk) ++ crlf)
                          (reset_input_buffer w)).
    intros w1 S1.
    destruct (wait_for_response_serial "+FTPPUT: 2," 15000 w1) as (d2 & S2 & O2).
    revert S2. generalize (wait_for_response "+FTPPUT: 2," 15000 w1).
    intros [[ok resp] w2] S2. cbn [fst snd] in *.
    pose proof (serial_trans _ _ _ _ _ S1 S2) as S12.
    destruct ok; cbn [negb].
    + (* prompt received *)
      pose proof (serial_trans _ _ _ _ _ S12 (serial_emit (EvData chunk) w2))
        as S3.
      change (emit (EvData chunk) w2) with (ser_write_data chunk w2) in S3.
      destruct (wait_for_response_serial "OK" 15000 (ser_write_data chunk w2))
        as (d4 & S4 & O4).
      revert S4.
      generalize (wait_for_response "OK" 15000 (ser_write_data chunk w2)).
      intros [[ok2 resp2] w4] S4. cbn [fst snd] in *.
      pose proof (serial_trans _ _ _ _ _ S3 S4) as S34.
      destruct ok2.
      * exists ((([EvReset; announce chunk] ++ d2) ++ [EvData chunk]) ++ d4)%list,
               [Acked].
        split; [exact S34|]. split; [|split; [|split]].
        -- rewrite !outline_app, O2, O4. reflexivity.
        -- cbn; lia.
        -- intros _. exists []. split; [reflexivity | constructor].
        -- discriminate.
      * pose proof (retry_pause_serial attempt max_retries retry_delay w4 Hrd)
          as S5.
        pose proof (serial_trans _ _ _ _ _ S34 S5) as S45.
        revert S45.
        generalize (if attempt <? max_retries - 1
                    then sleep retry_delay w4 else w4).
        intros w5 S45.
        destruct (IH (attempt + 1) w5)
          as (d6 & outcomes & S6 & O6 & Hlen & Hok & Hfail).
        exists (((((([EvReset; announce chunk] ++ d2) ++ [EvData chunk]) ++ d4)
                  ++ (if attempt <? max_retries - 1
                      then [EvSleep retry_delay] else [])) ++ d6))%list,
               (AckFailed :: outcomes).
        split; [exact (serial_trans _ _ _ _ _ S45 S6)|].
        split; [|split; [|split]].
        -- rewrite !outline_app, O2, O4, O6. cbn [retry_outline].
           destruct (attempt <? max_retries - 1); reflexivity.
        -- cbn; lia.
        -- intros H. destruct (Hok H) as (fails & -> & Hf).
           exists (AckFailed :: fails). split; [reflexivity|].
           constructor; [discriminate | assumption].
        -- intros H. destruct (Hfail H) as (Hl & Hf). split; [cbn; lia|].
           constructor; [discriminate | assumption].
    + (* no prompt *)
      pose proof (retry_pause_serial attempt max_retries retry_delay w2 Hrd)
        as S5.
      pose proof (serial_trans _ _ _ _ _ S12 S5) as S25.
      revert S25.
      generalize (if attempt <? max_retries - 1
                  then sleep retry_delay w2 else w2).
      intros w5 S25.
      destruct (IH (attempt + 1) w5)
        as (d6 & outcomes & S6 & O6 & Hlen & Hok & Hfail).
      exists ((([EvReset; announce chunk] ++ d2)
               ++ (if attempt <? max_retries - 1
                   then [EvSleep retry_delay] else [])) ++ d6)%list,
             (PromptFailed :: outcomes).
      split; [exact (serial_trans _ _ _ _ _ S25 S6)|].
      split; [|split; [|split]].
      * rewrite !outline_app, O2, O6. cbn [retry_outline].
        destruct (attempt <? max_retries - 1); reflexivity.
      * cbn; lia.
      * intros H. destruct (Hok H) as (fails & -> & Hf).
        exists (PromptFailed :: fails). split; [reflexivity|].
        constructor; [discriminate | assumption].
      * intros H. destruct (Hfail H) as (Hl & Hf). split; [cbn; lia|].
        constructor; [discriminate | assumption].
Qed.

Lemma send_chunk_serial (max_retries retry_delay : Z) (chunk : string) (w : World) :
  0 <= retry_delay ->
  exists d, serial w d (snd (send_chunk max_retries retry_delay chunk w)).
Proof.
  intros H.
  destruct (chunk_attempts_outline (Z.to_nat max_retries) 0 max_retries
              retry_delay chunk w H) as (d & _ & S & _).
  exists d. exact S.
Qed.

Lemma periodic_signal_check_serial (last : Z) (w : World) :
  exists d, serial w d (snd (periodic_signal_check last w))
            /\ (outline d = [] \/ outline d = [cmd "AT+CSQ"]).
Proof.
  unfold periodic_signal_check. destruct (30000 <? now w - last); simpl.
  - destruct (at_do_serial "AT+CSQ" 2000 w) as (d & S & O).
    exists d. split; [exact S | right; exact O].
  - exists []. split; [apply serial_refl | left; reflexivity].
Qed.

(** ** Keeping the progress record *)

Lemma keeps_record_refl (w : World) : keeps_record w w.
Proof.
  split; [apply later_refl | split; [|trivial]].
  rewrite delta_refl. intros [].
Qed.

Lemma keeps_record_trans (w1 w2 w3 : World) :
  keeps_record w1 w2 -> keeps_record w2 w3 -> keeps_record w1 w3.
Proof.
  intros (L1 & N1 & P1) (L2 & N2 & P2). split; [|split].
  - exact (later_trans _ _ _ L1 L2).
  - rewrite (delta_trans _ _ _ L1 L2). intros H.
    apply in_app_or in H as [H|H]; [exact (N1 H) | exact (N2 H)].
  - intros H. exact (P2 (P1 H)).
Qed.

Lemma in_outline (e : Event) (d : list Event) :
  In e d -> engine_event e = false -> In e (outline d).
Proof.
  intros H E. unfold outline. apply filter_In. split; [exact H|].
  now rewrite E.
Qed.

Lemma serial_keeps (w w' : World) (d : list Event) :
  serial w d w' -> ~ In EvClearProgress (outline d) -> keeps_record w w'.
Proof.
  intros (L & D & P) N. split; [exact L | split].
  - rewrite D. intros H. apply N. apply (in_outline _ _ H). reflexivity.
  - rewrite P. trivial.
Qed.

Lemma quiet_keeps (w w' : World) :
  (exists d, serial w d w' /\ outline d = []) -> keeps_record w w'.
Proof.
  intros (d & S & O). apply (serial_keeps _ _ _ S). rewrite O. intros [].
Qed.

Lemma send_at_keeps command expected timeout w :
  keeps_record w (snd (send_at command expected timeout w)).
Proof.
  destruct (send_at_serial command expected timeout w) as (d & S & O).
  apply (serial_keeps _ _ _ S). rewrite O.
  intros [H|[]]. discriminate H.
Qed.

Lemma wait_for_response_keeps expected timeout w :
  keeps_record w (snd (wait_for_response expected timeout w)).
Proof. apply quiet_keeps. apply wait_for_response_serial. Qed.

Lemma sleep_keeps (ms : Z) (w : World) :
  0 <= ms -> keeps_record w (sleep ms w).
Proof.
  intros H. apply (serial_keeps _ _ _ (serial_sleep ms w H)).
  intros [E|[]]. discriminate E.
Qed.

Lemma save_progress_keeps (filepath : path) (bytes_sent : Z) (w : World) :
  keeps_record w (save_progress filepath bytes_sent w) /\
  trace_delta w (save_progress filepath bytes_sent w)
  = [EvSaveProgress (mkProgress filepath bytes_sent (now w))] /\
  progress_file (save_progress filepath bytes_sent w)
  = Some (mkProgress filepath bytes_sent (now w)) /\
  now (save_progress filepath bytes_sent w) = now w.
Proof.
  assert (D : trace_delta w (save_progress filepath bytes_sent w)
              = [EvSaveProgress (mkProgress filepath bytes_sent (now w))])
    by (apply trace_delta_app; reflexivity).
  split; [|split; [exact D | split; reflexivity]].
  split; [|split].
  - apply later_intro
      with (d := [EvSaveProgress (mkProgress filepath bytes_sent (now w))]);
      try reflexivity; simpl; lia.
  - rewrite D. intros [E|[]]. discriminate E.
  - intros _. discriminate.
Qed.

Lemma retry_outline_no_clear chunk max_retries retry_delay attempt outcomes :
  ~ In EvClearProgress
       (retry_outline chunk max_retries retry_delay attempt outcomes).
Proof.
  revert attempt. induction outcomes as [|a outcomes IH]; intros attempt.
  - intros [].
  - cbn [retry_outline]. intros [E|H]; [discriminate E|].
    apply in_app_or in H as [H|H].
    { destruct a; simpl in H; intuition discriminate. }
    apply in_app_or in H as [H|H]; [|exact (IH _ H)].
    destruct a; try destruct (attempt <? max_retries - 1); simpl in H;
      intuition discriminate.
Qed.

Lemma send_chunk_keeps (max_retries retry_delay : Z) (chunk : string) (w : World) :
  0 <= retry_delay ->
  keeps_record w (snd (send_chunk max_retries retry_delay chunk w)).
Proof.
  intros H.
  destruct (chunk_attempts_outline (Z.to_nat max_retries) 0 max_retries
              retry_delay chunk w H) as (d & outcomes & S & O & _).
  apply (serial_keeps _ _ _ S). rewrite O. apply retry_outline_no_clear.
Qed.

Lemma periodic_signal_check_keeps (last : Z) (w : World) :
  keeps_record w (snd (periodic_signal_check last w)).
Proof.
  destruct (periodic_signal_check_serial last w) as (d & S & [O|O]);
    apply (serial_keeps _ _ _ S); rewrite O.
  - intros [].
  - intros [E|[]]. discriminate E.
Qed.

(** ** The stream loop *)

Lemma stream_loop_spec filepath filesize max_chunk max_retries retry_delay
  rest bytes_sent acked last w :
  0 <= retry_delay ->
  let r := stream_loop filepath filesize max_chunk max_retries retry_delay
                       rest bytes_sent acked last w in
  keeps_record w (snd r) /\
  exists sent tail,
    rest = sent ++ tail /\
    exit_acked (fst r) = acked ++ sent /\
    exit_offset (fst r) = bytes_sent + len sent /\
    match fst r with
    | ChunkFailed o _ =>
        progress_file (snd r) = Some (mkProgress filepath o (now (snd r))) /\
        file_read_chunk max_chunk tail <> "" /\
        exists w1,
          keeps_record w w1 /\
          fst (send_chunk max_retries retry_delay
                          (file_read_chunk max_chunk tail) w1) = false
    | StreamDone o _ => filesize <= o \/ file_read_chunk max_chunk tail = ""
    end.
Proof.
  intros Hrd.
  funelim (stream_loop filepath filesize max_chunk max_retries retry_delay
                       rest bytes_sent acked last w); cbn zeta.
  - cbn [fst snd]. split; [apply keeps_record_refl|].
    exists "", rest. cbn [exit_acked exit_offset]. change (len "") with 0.
    rewrite str_app_empty_r. repeat split; try reflexivity; try lia.
  - cbn [fst snd]. split; [apply periodic_signal_check_keeps|].
    exists "", rest. cbn [exit_acked exit_offset]. change (len "") with 0.
    rewrite str_app_empty_r. repeat split; try reflexivity; try lia.
    right. assumption.
  - clear Heqcall.
    pose proof (periodic_signal_check_keeps last_signal_check w) as K1.
    revert K1 H. generalize (periodic_signal_check last_signal_check w).
    intros [lsc w1] K1 H. cbn [fst snd] in *.
    pose proof (send_chunk_keeps max_retries retry_delay (String c s) w1 Hrd)
      as K2.
    revert K2 H.
    destruct (send_chunk max_retries retry_delay (String c s) w1)
      as [ok w2] eqn:Hsc.
    intros K2 H. cbn [fst snd] in *.
    pose proof (keeps_record_trans _ _ _ K1 K2) as K12.
    destruct ok; cbn [negb].
    + assert (K : keeps_record w
                    (if (bytes_sent + len (String c s)) mod (500 * 1024)
                        <? max_chunk
                     then save_progress filepath
                            (bytes_sent + len (String c s)) w2
                     else w2)).
      { destruct ((bytes_sent + len (String c s)) mod (500 * 1024)
                  <? max_chunk); [|exact K12].
        apply (keeps_record_trans _ _ _ K12). apply save_progress_keeps. }
      revert K H.
      generalize (if (bytes_sent + len (String c s)) mod (500 * 1024)
                     <? max_chunk
                  then save_progress filepath
                         (bytes_sent + len (String c s)) w2
                  else w2).
      intros w3 K H. specialize (H Hrd). cbn zeta in H.
      destruct H as (K4 & sent & tail & Hrest & Hack & Hoff & Hexit).
      split; [exact (keeps_record_trans _ _ _ K K4)|].
      exists (String c s ++ sent), tail.
      split; [|split; [|split]].
      * rewrite str_app_assoc, <- Hrest, <- Hread.
        symmetry. apply file_read_split.
      * rewrite Hack. apply str_app_assoc.
      * rewrite Hoff, len_app. lia.
      * destruct (fst (stream_loop _ _ _ _ _ _ _ _ _ _)); [|exact Hexit].
        destruct Hexit as (P & Hne & w1' & K5 & Hfail).
        split; [exact P | split; [exact Hne|]].
        exists w1'. split; [exact (keeps_record_trans _ _ _ K K5) | exact Hfail].
    + destruct (save_progress_keeps filepath bytes_sent w2) as (K3 & _ & P3 & N3).
      cbn [fst snd]. split; [exact (keeps_record_trans _ _ _ K12 K3)|].
      exists "", rest. cbn [exit_acked exit_offset]. change (len "") with 0.
      rewrite str_app_empty_r.
      rewrite Hread.
      split; [reflexivity | split; [reflexivity | split; [lia|]]].
      split; [reflexivity | split; [discriminate|]].
      exists w1. split; [exact K1 | now rewrite Hsc].
Qed.



(** ** Opening and closing the session *)

Lemma cmds_no_clear (o : list Event) :
  Forall is_cmd o -> ~ In EvClearProgress o.
Proof.
  intros F H. rewrite Forall_forall in F. exact (F _ H).
Qed.

Lemma cmds_no_data (o : list Event) (chunk : string) :
  Forall is_cmd o -> ~ In (EvData chunk) o.
Proof.
  intros F H. rewrite Forall_forall in F. exact (F _ H).
Qed.

Lemma outlined_keeps (w w' : World) (o : list Event) :
  outlined w o w' -> progress_file w' = progress_file w ->
  ~ In EvClearProgress o -> keeps_record w w'.
Proof.
  intros [L O] P N. split; [exact L | split].
  - intros H. apply N. rewrite <- O. apply (in_outline _ _ H). reflexivity.
  - rewrite P. trivial.
Qed.

Lemma session_outline_cmds server port username password filename remote_path
  use_append :
  Forall is_cmd (session_outline server port username password filename
                                 remote_path use_append).
Proof. unfold session_outline. repeat constructor. Qed.

Lemma at_do_progress command timeout w :
  progress_file (at_do command timeout w) = progress_file w.
Proof. apply send_at_progress. Qed.

Lemma configure_ftp_outlined server port username password filename
  remote_path use_append w0 w o :
  outlined w0 o w ->
  outlined w0
    (o ++ removelast (session_outline server port username password filename
                                      remote_path use_append))
    (configure_ftp server port username password filename remote_path
                   use_append w)
  /\ progress_file (configure_ftp server port username password filename
                                  remote_path use_append w)
     = progress_file w.
Proof.
  intros H0. unfold configure_ftp. split.
  - pose proof (outlined_at_do _ _ _ "AT+FTPCID=1" 5000 H0) as H1.
    pose proof (outlined_at_do _ _ _ ("AT+FTPSERV=" ++ quoted server) 5000 H1)
      as H2.
    pose proof (outlined_at_do _ _ _ ("AT+FTPPORT=" ++ string_of_Z port) 5000 H2)
      as H3.
    pose proof (outlined_at_do _ _ _ "AT+FTPMODE=1" 5000 H3) as H4.
    pose proof (outlined_at_do _ _ _ ("AT+FTPUN=" ++ quoted username) 5000 H4)
      as H5.
    pose proof (outlined_at_do _ _ _ ("AT+FTPPW=" ++ quoted password) 5000 H5)
      as H6.
    pose proof (outlined_at_do _ _ _ ("AT+FTPPUTNAME=" ++ quoted filename)
                  5000 H6) as H7.
    pose proof (outlined_at_do _ _ _ ("AT+FTPPUTPATH=" ++ quoted remote_path)
                  5000 H7) as H8.
    pose proof (outlined_at_do _ _ _ ("AT+FTPTYPE=" ++ quoted "I") 5000 H8)
      as H9.
    destruct use_append.
    + pose proof (outlined_at_do _ _ _ ("AT+FTPPUTOPT=" ++ quoted "APPE")
                    5000 H9) as H10.
      rewrite <- !app_assoc in H10. exact H10.
    + pose proof (outlined_at_do _ _ _ ("AT+FTPPUTOPT=" ++ quoted "STOR")
                    5000 H9) as H10.
      rewrite <- !app_assoc in H10. exact H10.
  - destruct use_append; rewrite !at_do_progress; reflexivity.
Qed.


(** What [open_session] leaves behind, for a file that exists. *)
Lemma open_session_spec chunk_size server port username password filepath
  remote_path w content :
  read_file filepath w = Some content ->
  let r := open_session chunk_size server port username password filepath
                        remote_path w in
  let resume := resume_point filepath (len content) w in
  outlined w (session_outline server port username password
                              (basename filepath) remote_path (snd resume))
           (snd r) /\
  progress_file (snd r) = progress_file w /\
  keeps_record w (snd r) /\
  let opened :=
    wait_for_response "+FTPPUT: 1,1" 60000
      (ser_write ("AT+FTPPUT=1" ++ crlf)
         (reset_input_buffer
            (configure_ftp server port username password (basename filepath)
                           remote_path (snd resume) w))) in
  snd r = snd opened /\
  fst r = if fst (fst opened)
          then SessionReady content (fst resume)
                            (parse_max_chunk (snd (fst opened)) chunk_size)
          else SessionFailed ("Failed to open FTP session: " ++ snd (fst opened)).
Proof.
  intros Hread. cbn zeta. unfold open_session. rewrite Hread. cbv zeta.
  destruct (configure_ftp_outlined server port username password
              (basename filepath) remote_path
              (snd (resume_point filepath (len content) w)) w w []
              (outlined_refl w)) as [H1 P1].
  revert H1 P1.
  generalize (configure_ftp server port username password (basename filepath)
                remote_path (snd (resume_point filepath (len content) w)) w).
  intros w1 H1 P1.
  pose proof (outlined_emit _ _ _ EvReset H1) as H2.
  pose proof (outlined_emit _ _ _ (EvCmd ("AT+FTPPUT=1" ++ crlf)) H2) as H3.
  change (emit (EvCmd ("AT+FTPPUT=1" ++ crlf)) (emit EvReset w1))
    with (ser_write ("AT+FTPPUT=1" ++ crlf) (reset_input_buffer w1)) in H3.
  pose proof (outlined_wait _ _ _ "+FTPPUT: 1,1" 60000 H3) as H4.
  pose proof (wait_for_response_progress "+FTPPUT: 1,1" 60000
                (ser_write ("AT+FTPPUT=1" ++ crlf) (reset_input_buffer w1)))
    as P4.
  revert H4 P4.
  generalize (wait_for_response "+FTPPUT: 1,1" 60000
                (ser_write ("AT+FTPPUT=1" ++ crlf) (reset_input_buffer w1))).
  intros [[ok resp] w4] H4 P4. cbn [fst snd] in *.
  assert (Hout : outlined w
                   (session_outline server port username password
                      (basename filepath) remote_path
                      (snd (resume_point filepath (len content) w))) w4).
  { destruct H4 as [L O]. split; [exact L|]. rewrite O.
    unfold session_outline. cbn [removelast outline filter engine_event negb
                                  app]. reflexivity. }
  assert (P : progress_file w4 = progress_file w).
  { rewrite P4. cbn [ser_write reset_input_buffer emit set_trace progress_file].
    exact P1. }
  assert (K : keeps_record w w4).
  { apply (outlined_keeps _ _ _ Hout P). apply cmds_no_clear.
    apply session_outline_cmds. }
  destruct ok; cbn [negb fst snd]; repeat split; assumption || reflexivity
    || apply Hout || apply K.
Qed.

Lemma clear_progress_spec (w : World) :
  later w (clear_progress w) /\ progress_file (clear_progress w) = None /\
  now (clear_progress w) = now w /\
  (trace_delta w (clear_progress w) = [] \/
   trace_delta w (clear_progress w) = [EvClearProgress]).
Proof.
  unfold clear_progress. destruct (progress_file w) as [p|] eqn:E.
  - split; [|split; [reflexivity | split; [reflexivity|]]].
    + apply later_intro with (d := [EvClearProgress]);
        try reflexivity; simpl; lia.
    + right. apply trace_delta_app. reflexivity.
  - split; [apply later_refl | split; [exact E | split; [reflexivity|]]].
    left. apply delta_refl.
Qed.

(** How [close_session] ends. *)
Lemma close_session_spec (filepath : path) (bytes_sent : Z) (w : World) :
  let r := close_session filepath bytes_sent w in
  let final := wait_for_response "+FTPPUT: 1,0" 30000
                 (at_do "AT+FTPPUT=2,0" 5000 (sleep 500 w)) in
  later w (snd r) /\
  fst (fst r) = fst (fst final) /\
  (fst (fst final) = true ->
     fst r = (true, "Upload successful") /\ progress_file (snd r) = None) /\
  (fst (fst final) = false ->
     keeps_record w (snd r) /\
     progress_file (snd r)
     = Some (mkProgress filepath bytes_sent (now (snd r)))) /\
  exists record_events,
    outline (trace_delta w (snd r))
    = ([EvSleep 500; cmd "AT+FTPPUT=2,0"] ++ record_events)%list /\
    Forall (fun e => e = EvClearProgress \/
                     exists p, e = EvSaveProgress p) record_events.
Proof.
  cbn zeta. unfold close_session.
  assert (H500 : 0 <= 500) by lia.
  pose proof (outlined_sleep _ _ _ 500 H500 (outlined_refl w)) as H1.
  pose proof (sleep_keeps 500 w H500) as K1.
  pose proof (outlined_at_do _ _ _ "AT+FTPPUT=2,0" 5000 H1) as H2.
  pose proof (send_at_keeps "AT+FTPPUT=2,0" "OK" 5000 (sleep 500 w)) as K2.
  change (snd (send_at "AT+FTPPUT=2,0" "OK" 5000 (sleep 500 w)))
    with (at_do "AT+FTPPUT=2,0" 5000 (sleep 500 w)) in K2.
  pose proof (outlined_wait _ _ _ "+FTPPUT: 1,0" 30000 H2) as H3.
  pose proof (wait_for_response_keeps "+FTPPUT: 1,0" 30000
                (at_do "AT+FTPPUT=2,0" 5000 (sleep 500 w))) as K3.
  pose proof (keeps_record_trans _ _ _ (keeps_record_trans _ _ _ K1 K2) K3)
    as K.
  revert H3 K. clear K1 K2 K3 H1 H2.
  generalize (wait_for_response "+FTPPUT: 1,0" 30000
                (at_do "AT+FTPPUT=2,0" 5000 (sleep 500 w))).
  intros [[ok resp] w3] [L3 O3] K. cbn [fst snd] in *.
  destruct ok; cbn [fst snd].
  - destruct (clear_progress_spec w3) as (Lc & Pc & _ & Dc).
    split; [exact (later_trans _ _ _ L3 Lc)|].
    split; [reflexivity|].
    split; [intros _; split; [reflexivity | exact Pc]|].
    split; [discriminate|].
    rewrite (delta_trans _ _ _ L3 Lc), outline_app, O3.
    destruct Dc as [-> | ->].
    + exists []. split; [reflexivity | constructor].
    + exists [EvClearProgress]. split; [reflexivity|].
      constructor; [left; reflexivity | constructor].
  - destruct (save_progress_keeps filepath bytes_sent w3)
      as (Ks & Ds & Ps & Ns).
    split; [exact (later_trans _ _ _ L3 (proj1 Ks))|].
    split; [reflexivity|].
    split; [discriminate|].
    split.
    + intros _. split; [exact (keeps_record_trans _ _ _ K Ks)|].
      rewrite Ps, Ns. reflexivity.
    + rewrite (delta_trans _ _ _ L3 (proj1 Ks)), outline_app, O3, Ds.
      eexists. split; [reflexivity|].
      constructor; [right; eexists; reflexivity | constructor].
Qed.
(** ** Attempts and their outcomes *)


Lemma failed_outcome (a : Attempt) : a <> Acked -> failed a.
Proof. trivial. Qed.






(** ** The stream loop runs as [stream_run] says *)


(** ** What a run writes and what it gets acknowledged *)















(** ** Chunk retries and the progress record *)















(** ** Resuming *)







(** A run that resumes: the record says 2 of the 5 bytes of [a.txt] were
    sent a second ago; the upload selects APPE, sends the last 3 bytes as
    one chunk, and succeeds, leaving no record. *)
Example upload_resumes_at_offset :
  let r := upload_ftp 512000 "ftp.example.com" 21 "user" "secret" ["a.txt"]
                      "/" 3 5000 world_resuming in
  fst r = (true, "Upload successful") /\
  progress_file (snd r) = None /\
  filter (fun e => match e with EvData _ => true | _ => false end)
         (trace (snd r)) = [EvData "llo"] /\
  In (cmd ("AT+FTPPUTOPT=" ++ quoted "APPE")) (trace (snd r)).
Proof.
  cbn zeta. split; [vm_compute; reflexivity|].
  split; [vm_compute; reflexivity|]. split; [vm_compute; reflexivity|].
  vm_compute. do 19 right. left. reflexivity.
Qed.


(** ** Empty files *)

Lemma stream_loop_done filepath filesize max_chunk max_retries retry_delay
  rest bytes_sent acked last w :
  filesize <= bytes_sent ->
  stream_loop filepath filesize max_chunk max_retries retry_delay
              rest bytes_sent acked last w
  = (StreamDone bytes_sent acked, w).
Proof.
  intros H.
  funelim (stream_loop filepath filesize max_chunk max_retries retry_delay
                       rest bytes_sent acked last w);
    [reflexivity | lia | lia].
Qed.

Lemma resume_point_empty (filepath : path) (w : World) :
  resume_point filepath 0 w = (0, false).
Proof.
  unfold resume_point.
  destruct (0 <? load_progress filepath w) eqn:H0; cbn [andb];
    [|reflexivity].
  destruct (load_progress filepath w <? 0) eqn:H1; [lia | reflexivity].
Qed.

(** C9 (as amended): for an empty file the upload configures and opens the
    PUT session like for any other file and fails when it does not open;
    once it is open no chunk is announced and no data is written: the end
    of data is signalled at once, and the upload succeeds exactly when the
    close of the session is confirmed. *)
Theorem zero_byte_upload chunk_size server port username password filepath
  remote_path max_retries retry_delay w :
  read_file filepath w = Some "" ->
  zero_byte_spec chunk_size server port username password filepath
                 remote_path max_retries retry_delay w.
Proof.
  intros Hread. unfold zero_byte_spec. cbn zeta. unfold upload_ftp.
  pose proof (open_session_spec chunk_size server port username password
                filepath remote_path w "" Hread) as Hopen.
  cbn zeta in Hopen. change (len "") with 0 in Hopen.
  rewrite resume_point_empty in Hopen. cbn [fst snd] in Hopen.
  destruct Hopen as (Hout & _ & _ & Hsnd & Hfst).
  revert Hout Hsnd Hfst.
  generalize (open_session chunk_size server port username password
                filepath remote_path w).
  intros [s w3] Hout Hsnd Hfst. cbn [fst snd] in *.
  rewrite <- Hsnd. revert Hfst. clear Hsnd.
  generalize (wait_for_response "+FTPPUT: 1,1" 60000
                (ser_write ("AT+FTPPUT=1" ++ crlf)
                   (reset_input_buffer
                      (configure_ftp server port username password
                         (basename filepath) remote_path false w)))).
  intros [[ok resp] wo] Hfst. cbn [fst snd] in *. subst s.
  destruct Hout as [L3 O3].
  destruct ok; cbn [andb].
  - change (len "") with 0.
    rewrite (stream_loop_done filepath 0 (parse_max_chunk resp chunk_size)
               max_retries retry_delay (seek_to 0 "") 0 "" (now w3) w3)
      by lia.
    pose proof (close_session_spec filepath 0 w3) as Hclose.
    cbn zeta in Hclose. revert Hclose.
    generalize (wait_for_response "+FTPPUT: 1,0" 30000
                  (at_do "AT+FTPPUT=2,0" 5000 (sleep 500 w3))).
    generalize (close_session filepath 0 w3).
    intros [[okc msg] w5] [[okf respf] wf]
           (L5 & Heq & _ & _ & (events & O5 & F5)).
    cbn [fst snd] in *. subst okf.
    split; [reflexivity|].
    exists events. split; [exact F5|].
    rewrite (delta_trans _ _ _ L3 L5), outline_app, O3, O5. reflexivity.
  - cbn [fst snd]. split; [reflexivity|].
    exists []. split; [constructor|]. rewrite O3. reflexivity.
Qed.

Lemma zero_byte_upload_witness :
  read_file ["empty.log"] world_empty_file = Some "" /\
  zero_byte_spec 512000 "ftp.example.com" 21 "user" "secret" ["empty.log"]
                 "/" 3 5000 world_empty_file.
Proof.
  split; [reflexivity|].
  apply (zero_byte_upload 512000 "ftp.example.com" 21 "user" "secret"
           ["empty.log"] "/" 3 5000 world_empty_file). reflexivity.
Defined.

(** C9 as worded fails on an empty file and a modem that does not answer:
    the PUT session is requested, and the upload fails. *)
Lemma zero_byte_not_as_worded :
  ~ zero_byte_as_worded world_empty_file
      (upload_ftp 512000 "ftp.example.com" 21 "user" "secret" ["empty.log"]
                  "/" 3 5000 world_empty_file).
Proof.
  intros [H _]. vm_compute in H. discriminate H.
Qed.

(** On that run the request to open the session is on the wire. *)
Example zero_byte_opens_session :
  In (cmd "AT+FTPPUT=1")
     (outline (trace (snd (upload_ftp 512000 "ftp.example.com" 21 "user"
                             "secret" ["empty.log"] "/" 3 5000
                             world_empty_file)))).
Proof. vm_compute. do 10 right. left. reflexivity. Qed.

(** ** The orchestrator: what an upload leaves untouched *)

Lemma keeps_later (w w' : World) : keeps_record w w' -> later w w'.
Proof. intros H; apply H. Qed.

Lemma upload_ftp_later chunk_size server port username password filepath
  remote_path max_retries retry_delay w :
  0 <= retry_delay ->
  later w (snd (upload_ftp chunk_size server port username password filepath
                           remote_path max_retries retry_delay w)).
Proof.
  intros Hrd. unfold upload_ftp.
  destruct (read_file filepath w) as [content|] eqn:Hread.
  - pose proof (open_session_spec chunk_size server port username password
                  filepath remote_path w content Hread) as Hopen.
    cbn zeta in Hopen. destruct Hopen as ([L _] & _ & _ & _ & _).
    revert L.
    generalize (open_session chunk_size server port username password
                  filepath remote_path w).
    intros [[msg | content' B max_chunk] w3] L; cbn [fst snd] in *;
      [exact L|].
    pose proof (stream_loop_spec filepath (len content') max_chunk
                  max_retries retry_delay (seek_to B content') B ""
                  (now w3) w3 Hrd) as Hspec.
    cbn zeta in Hspec. destruct Hspec as [[L4 _] _]. revert L4.
    generalize (stream_loop filepath (len content') max_chunk max_retries
                  retry_delay (seek_to B content') B "" (now w3) w3).
    intros [[o a | o a] w4] L4; cbn [fst snd] in *.
    + exact (later_trans _ _ _ L L4).
    + pose proof (close_session_spec filepath o w4) as Hclose.
      cbn zeta in Hclose. destruct Hclose as (L5 & _).
      exact (later_trans _ _ _ (later_trans _ _ _ L L4) L5).
  - assert (Hopen : open_session chunk_size server port username password
                      filepath remote_path w
                    = (SessionFailed ("File not found: "
                                      ++ path_string filepath), w)).
    { unfold open_session. rewrite Hread. reflexivity. }
    rewrite Hopen. apply later_refl.
Qed.

Lemma modem_upload_later (cfg : Config) (filepath : path) (w : World) :
  later w (snd (modem_upload cfg filepath w)).
Proof. apply upload_ftp_later. lia. Qed.

Lemma path_eqb_eq (p q : path) : path_eqb p q = true <-> p = q.
Proof.
  unfold path_eqb. destruct (list_eq_dec string_dec p q); split;
    congruence.
Qed.

Lemma os_remove_volume (q : path) (w : World) (p : path) (c : string) :
  In (p, c) (volume (os_remove q w)) -> In (p, c) (volume w).
Proof.
  unfold os_remove. destruct (mounted w); [|trivial].
  cbn [volume set_volume]. intros H. apply filter_In in H. apply H.
Qed.

Lemma os_remove_other (q : path) (w : World) (p : path) (c : string) :
  p <> q -> In (p, c) (volume w) -> In (p, c) (volume (os_remove q w)).
Proof.
  intros Hne H. unfold os_remove. destruct (mounted w); [|exact H].
  cbn [volume set_volume]. apply filter_In. split; [exact H|].
  cbn [fst]. destruct (path_eqb p q) eqn:E; [|reflexivity].
  apply path_eqb_eq in E. contradiction.
Qed.

Lemma os_remove_gone (q : path) (w : World) (c : string) :
  mounted w = true -> ~ In (q, c) (volume (os_remove q w)).
Proof.
  intros Hm. unfold os_remove. rewrite Hm. cbn [volume set_volume].
  intros H. apply filter_In in H as [_ H]. cbn [fst] in H.
  assert (E : path_eqb q q = true) by (apply path_eqb_eq; reflexivity).
  rewrite E in H. discriminate H.
Qed.

Lemma upload_each_counters (cfg : Config) (files : list path)
  (u f u' f' : Z) (w : World) :
  snd (upload_each cfg files u f w) = snd (upload_each cfg files u' f' w).
Proof.
  revert u f u' f' w. induction files as [|q files IH]; intros; cbn [upload_each].
  - reflexivity.
  - destruct (fst (fst (modem_upload cfg q w))); apply IH.
Qed.

Lemma upload_each_subset (cfg : Config) (files : list path) (u f : Z)
  (w : World) (p : path) (c : string) :
  In (p, c) (volume (snd (upload_each cfg files u f w))) ->
  In (p, c) (volume w).
Proof.
  revert u f w. induction files as [|q files IH]; intros u f w;
    cbn [upload_each].
  - trivial.
  - pose proof (later_volume _ _ (modem_upload_later cfg q w)) as V.
    destruct (fst (fst (modem_upload cfg q w))); intros H;
      apply IH in H; [apply os_remove_volume in H|]; now rewrite V in H.
Qed.

Lemma world_before_cons (cfg : Config) (q : path) (pre : list path)
  (w : World) :
  world_before cfg (q :: pre) w =
  world_before cfg pre
    (if fst (fst (modem_upload cfg q w))
     then os_remove q (snd (modem_upload cfg q w))
     else snd (modem_upload cfg q w)).
Proof.
  unfold world_before. cbn [upload_each].
  destruct (fst (fst (modem_upload cfg q w))); apply upload_each_counters.
Qed.

(** A file that is gone after the loop had an upload of its own that
    returned success. *)
Lemma upload_each_deletes (cfg : Config) (files : list path) (u f : Z)
  (w : World) (p : path) (c : string) :
  In (p, c) (volume w) ->
  ~ In (p, c) (volume (snd (upload_each cfg files u f w))) ->
  exists pre post,
    files = (pre ++ p :: post)%list /\
    fst (fst (modem_upload cfg p (world_before cfg pre w))) = true.
Proof.
  revert u f w. induction files as [|q files IH]; intros u f w Hin Hgone.
  - cbn [upload_each snd] in Hgone. contradiction.
  - cbn [upload_each] in Hgone.
    pose proof (later_volume _ _ (modem_upload_later cfg q w)) as V.
    destruct (fst (fst (modem_upload cfg q w))) eqn:Hok.
    + destruct (list_eq_dec string_dec p q) as [->|Hne].
      * exists [], files. split; [reflexivity | exact Hok].
      * assert (Hin' : In (p, c) (volume (os_remove q
                                    (snd (modem_upload cfg q w))))).
        { apply os_remove_other; [exact Hne | now rewrite V]. }
        destruct (IH _ _ _ Hin' Hgone) as (pre & post & -> & H).
        exists (q :: pre), post. split; [reflexivity|].
        rewrite world_before_cons, Hok. exact H.
    + assert (Hin' : In (p, c) (volume (snd (modem_upload cfg q w))))
        by now rewrite V.
      destruct (IH _ _ _ Hin' Hgone) as (pre & post & -> & H).
      exists (q :: pre), post. split; [reflexivity|].
      rewrite world_before_cons, Hok. exact H.
Qed.

Lemma entry_in_dec (e : path * string) (v : list (path * string)) :
  {In e v} + {~ In e v}.
Proof.
  apply in_dec. intros [p c] [q d].
  destruct (list_eq_dec string_dec p q); destruct (string_dec c d);
    [left | right | right | right]; congruence.
Qed.

Lemma setup_network_later (apn : string) (w : World) :
  later w (snd (setup_network apn w)).
Proof.
  unfold setup_network.
  pose proof (outlined_send_at _ _ _ "AT" "OK" 2000 (outlined_refl w)) as H0.
  destruct (bring_up_bearer_outlined apn _ _ _ H0)
    as (polls & registered & _ & _ & H1).
  pose proof (outlined_send_at _ _ _ "AT+SAPBR=2,1" "OK" 5000 H1) as [L2 _].
  destruct H0 as [L0 _]. clear H1. revert L0 L2.
  generalize (send_at "AT+SAPBR=2,1" "OK" 5000
                (bring_up_bearer apn (snd (send_at "AT" "OK" 2000 w)))).
  generalize (send_at "AT" "OK" 2000 w).
  intros [[ok msg] w1] [[ok2 resp] w2] L0 L2. cbn [fst snd] in *.
  destruct ok; cbn [negb]; [|exact L0].
  destruct (contains "0.0.0.0" resp); exact L2.
Qed.

Lemma close_bearer_later (w : World) : later w (close_bearer w).
Proof.
  destruct (outlined_at_do _ _ _ "AT+SAPBR=0,1" 5000 (outlined_refl w))
    as [L _]. exact L.
Qed.

Lemma harvest_mounted_volume (w : World) :
  volume (harvest_mounted w) = volume w.
Proof.
  unfold harvest_mounted, mount_usb_disk.
  destruct (mountable _); reflexivity.
Qed.

Lemma load_usb_gadget_volume (w : World) :
  volume (snd (load_usb_gadget w)) = volume w.
Proof. unfold load_usb_gadget. destruct (loadable w); reflexivity. Qed.

(** Closes the four parts of the deletion statement when the volume is
    unchanged, given the equation [V] between the two volumes. *)
Ltac unchanged_volume V :=
  rewrite V;
  split; [intros p c H; exact H|];
  split; [intros p c Hin Hgone; contradiction|];
  split; [intros p c Hin _; exact Hin | intros _; reflexivity].

Lemma harvest_and_upload_eq (cfg : Config) (w : World) :
  harvest_and_upload cfg w =
  if negb (fst (mount_usb_disk (sleep 1000 (unload_usb_gadget w))))
  then (false, snd (load_usb_gadget (harvest_mounted w)))
  else
    match files_to_upload (harvest_mounted w) with
    | [] => (true, snd (load_usb_gadget (unmount_usb_disk (harvest_mounted w))))
    | _ :: _ =>
        if negb (fst (fst (setup_network (apn cfg) (harvest_mounted w))))
        then (false,
              snd (load_usb_gadget
                     (unmount_usb_disk
                        (snd (setup_network (apn cfg) (harvest_mounted w))))))
        else
          (snd (fst (upload_each cfg (files_to_upload (harvest_mounted w)) 0 0
                       (snd (setup_network (apn cfg) (harvest_mounted w)))))
           =? 0,
           snd (load_usb_gadget
                  (unmount_usb_disk
                     (close_bearer
                        (snd (upload_each cfg
                                (files_to_upload (harvest_mounted w)) 0 0
                                (snd (setup_network (apn cfg)
                                        (harvest_mounted w)))))))))
    end.
Proof. reflexivity. Qed.

Lemma harvest_network_eq (cfg : Config) (w : World) :
  harvest_network cfg w = snd (setup_network (apn cfg) (harvest_mounted w)).
Proof. reflexivity. Qed.

Lemma harvest_deletion (cfg : Config) (w : World) (r : bool * World) :
  r = harvest_and_upload cfg w ->
  (forall p c, In (p, c) (volume (snd r)) -> In (p, c) (volume w)) /\
  (forall p c, In (p, c) (volume w) -> ~ In (p, c) (volume (snd r)) ->
     fst (fst (setup_network (apn cfg) (harvest_mounted w))) = true /\
     exists pre post,
       files_to_upload (harvest_mounted w) = (pre ++ p :: post)%list /\
       fst (fst (modem_upload cfg p
                   (world_before cfg pre (harvest_network cfg w)))) = true) /\
  (forall p c, In (p, c) (volume w) ->
     (forall pre post,
        files_to_upload (harvest_mounted w) = (pre ++ p :: post)%list ->
        fst (fst (modem_upload cfg p
                    (world_before cfg pre (harvest_network cfg w)))) = false) ->
     In (p, c) (volume (snd r))) /\
  (fst (fst (setup_network (apn cfg) (harvest_mounted w))) = false ->
   volume (snd r) = volume w).
Proof.
  intros Hr. rewrite harvest_and_upload_eq in Hr.
  rewrite !harvest_network_eq.
  destruct r as [b w']. cbn [snd].
  pose proof (harvest_mounted_volume w) as Vm.
  revert Hr Vm. generalize (harvest_mounted w).
  generalize (fst (mount_usb_disk (sleep 1000 (unload_usb_gadget w)))).
  intros okm wm Hr Vm.
  destruct okm; cbn [negb] in Hr.
  - destruct (files_to_upload wm) as [|q files] eqn:Hfiles.
    + injection Hr as _ Hw.
      assert (V : volume w' = volume w)
        by (rewrite Hw, load_usb_gadget_volume; exact Vm).
      unchanged_volume V.
    + pose proof (later_volume _ _ (setup_network_later (apn cfg) wm)) as Vn.
      revert Hr Vn. generalize (setup_network (apn cfg) wm).
      intros [[okn msg] wn] Hr Vn. cbn [fst snd] in *.
      destruct okn; cbn [negb] in Hr.
      * pose proof (upload_each_subset cfg (q :: files) 0 0 wn) as Hsub.
        pose proof (upload_each_deletes cfg (q :: files) 0 0 wn) as Hdel.
        assert (Vf : volume (snd (load_usb_gadget
                       (unmount_usb_disk
                          (close_bearer
                             (snd (upload_each cfg (q :: files) 0 0 wn))))))
                     = volume (snd (upload_each cfg (q :: files) 0 0 wn))).
        { rewrite load_usb_gadget_volume.
          exact (later_volume _ _ (close_bearer_later _)). }
        revert Hr Hsub Hdel Vf.
        generalize (upload_each cfg (q :: files) 0 0 wn).
        intros [[u f] wd] Hr Hsub Hdel Vf. cbn [fst snd] in *.
        injection Hr as _ Hw.
        assert (V : volume w' = volume wd) by (rewrite Hw; exact Vf).
        rewrite V. rewrite <- Vm, <- Vn.
        split; [intros p c H; exact (Hsub p c H)|].
        split; [intros p c Hin Hgone; split;
                  [reflexivity | exact (Hdel p c Hin Hgone)]|].
        split; [|discriminate].
        intros p c Hin Hfail.
        destruct (entry_in_dec (p, c) (volume wd)) as [H|H]; [exact H|].
        destruct (Hdel p c Hin H) as (pre & post & E & Hok).
        rewrite (Hfail pre post E) in Hok. discriminate Hok.
      * injection Hr as _ Hw.
        assert (V : volume w' = volume w)
          by (rewrite Hw, load_usb_gadget_volume; cbn [unmount_usb_disk];
              rewrite <- Vm, <- Vn; reflexivity).
        unchanged_volume V.
  - injection Hr as _ Hw.
    assert (V : volume w' = volume w)
      by (rewrite Hw, load_usb_gadget_volume; exact Vm).
    unchanged_volume V.
Qed.

(** C1: in a harvest cycle a file is deleted from the volume only when the
    upload of that very file returned success; a file whose upload failed,
    and every file of a cycle whose network setup failed, stays on the
    volume with its content. *)
Theorem harvest_deletes_only_uploaded (cfg : Config) (w : World) :
  harvest_deletion_spec cfg w.
Proof. exact (harvest_deletion cfg w _ eq_refl). Qed.

(** ** The boot-time drain *)

Lemma grows_refl (w : World) : grows w w.
Proof.
  split; [reflexivity | split; [lia|]].
  rewrite delta_refl. now rewrite app_nil_r.
Qed.

Lemma grows_delta (w1 w2 w3 : World) :
  grows w1 w2 -> grows w2 w3 ->
  trace_delta w1 w3 = (trace_delta w1 w2 ++ trace_delta w2 w3)%list.
Proof.
  intros (_ & _ & A) (_ & _ & B).
  apply trace_delta_app. rewrite B, A at 1. now rewrite app_assoc.
Qed.

Lemma grows_trans (w1 w2 w3 : World) :
  grows w1 w2 -> grows w2 w3 -> grows w1 w3.
Proof.
  intros G1 G2. pose proof (grows_delta _ _ _ G1 G2) as D.
  destruct G1 as (A1 & A2 & A3), G2 as (B1 & B2 & B3).
  split; [congruence | split; [lia|]].
  rewrite D, B3, A3 at 1. now rewrite app_assoc.
Qed.

Lemma later_grows (w w' : World) : later w w' -> grows w w'.
Proof.
  intros (_ & M & _ & _ & _ & N & T). split; [exact M | split; assumption].
Qed.

Lemma os_remove_grows (q : path) (w : World) : grows w (os_remove q w).
Proof.
  unfold os_remove. destruct (mounted w); [|apply grows_refl].
  split; [reflexivity | split; [cbn; lia|]].
  rewrite (trace_delta_app w _ []); cbn [trace set_volume];
    now rewrite app_nil_r.
Qed.

Lemma os_remove_read_other (q p : path) (w : World) :
  p <> q -> read_file p (os_remove q w) = read_file p w.
Proof.
  intros Hne. unfold os_remove, read_file.
  destruct (mounted w) eqn:M; [|now rewrite M].
  cbn [mounted volume set_volume]. rewrite M.
  induction (volume w) as [|[r c] v IH]; [reflexivity|].
  cbn [filter fst lookup_file].
  destruct (path_eqb r q) eqn:E; cbn [negb].
  - apply path_eqb_eq in E. subst r.
    destruct (path_eqb q p) eqn:E'; [|exact IH].
    apply path_eqb_eq in E'. congruence.
  - cbn [lookup_file]. destruct (path_eqb r p); [reflexivity | exact IH].
Qed.

(** What [upload_ftp] does after the session was opened keeps the volume,
    the mount and the trace written so far. *)
Lemma upload_ftp_after_open chunk_size server port username password filepath
  remote_path max_retries retry_delay w :
  0 <= retry_delay ->
  later (snd (open_session chunk_size server port username password filepath
                           remote_path w))
        (snd (upload_ftp chunk_size server port username password filepath
                         remote_path max_retries retry_delay w)).
Proof.
  intros Hrd. unfold upload_ftp.
  generalize (open_session chunk_size server port username password
                filepath remote_path w).
  intros [[msg | content' B max_chunk] w3]; cbn [fst snd];
    [apply later_refl|].
  pose proof (stream_loop_spec filepath (len content') max_chunk
                max_retries retry_delay (seek_to B content') B ""
                (now w3) w3 Hrd) as Hspec.
  cbn zeta in Hspec. destruct Hspec as [[L4 _] _]. revert L4.
  generalize (stream_loop filepath (len content') max_chunk max_retries
                retry_delay (seek_to B content') B "" (now w3) w3).
  intros [[o a | o a] w4] L4; cbn [fst snd] in *; [exact L4|].
  pose proof (close_session_spec filepath o w4) as Hclose.
  cbn zeta in Hclose. destruct Hclose as (L5 & _).
  exact (later_trans _ _ _ L4 L5).
Qed.

(** An upload of a file that exists names the remote file after it. *)
Lemma modem_upload_attempt (cfg : Config) (p : path) (w : World) :
  read_file p w <> None ->
  In (upload_attempt p) (trace_delta w (snd (modem_upload cfg p w))).
Proof.
  intros Hread. destruct (read_file p w) as [content|] eqn:E;
    [clear Hread | congruence].
  pose proof (open_session_spec (chunk_size cfg) (ftp_server cfg)
                (ftp_port cfg) (ftp_username cfg) (ftp_password cfg) p
                (ftp_remote_path cfg) w content E) as Hopen.
  cbn zeta in Hopen. destruct Hopen as ([L O] & _).
  pose proof (upload_ftp_after_open (chunk_size cfg) (ftp_server cfg)
                (ftp_port cfg) (ftp_username cfg) (ftp_password cfg) p
                (ftp_remote_path cfg) 3 5000 w ltac:(lia)) as L2.
  unfold modem_upload. rewrite (delta_trans _ _ _ L L2).
  apply in_or_app. left.
  assert (H : In (upload_attempt p)
                (outline (trace_delta w
                   (snd (open_session (chunk_size cfg) (ftp_server cfg)
                           (ftp_port cfg) (ftp_username cfg)
                           (ftp_password cfg) p (ftp_remote_path cfg) w))))).
  { rewrite O. unfold session_outline, upload_attempt.
    do 6 right. left. reflexivity. }
  unfold outline in H. apply filter_In in H. apply H.
Qed.

Lemma modem_upload_grows (cfg : Config) (p : path) (w : World) :
  grows w (snd (modem_upload cfg p w)).
Proof. apply later_grows, modem_upload_later. Qed.

Lemma upload_pending_cons (cfg : Config) (q : path) (pending : list path)
  (start_time : Z) (w : World) :
  upload_pending cfg (q :: pending) start_time w =
  if boot_upload_timeout cfg <? now w - start_time then w
  else
    match read_file q w with
    | None => upload_pending cfg pending start_time w
    | Some _ =>
        if fst (fst (modem_upload cfg q w))
        then upload_pending cfg pending start_time
               (os_remove q (snd (modem_upload cfg q w)))
        else upload_pending cfg pending start_time
               (snd (modem_upload cfg q w))
    end.
Proof. reflexivity. Qed.

Lemma upload_pending_grows (cfg : Config) (pending : list path)
  (start_time : Z) (w : World) :
  grows w (upload_pending cfg pending start_time w).
Proof.
  revert w. induction pending as [|q pending IH]; intros w.
  - apply grows_refl.
  - rewrite upload_pending_cons.
    destruct (boot_upload_timeout cfg <? now w - start_time);
      [apply grows_refl|].
    destruct (read_file q w); [|apply IH].
    pose proof (modem_upload_grows cfg q w) as G. revert G.
    generalize (modem_upload cfg q w). intros [[ok msg] w1] G.
    cbn [fst snd] in *. destruct ok.
    + exact (grows_trans _ _ _ (grows_trans _ _ _ G (os_remove_grows q w1))
               (IH _)).
    + exact (grows_trans _ _ _ G (IH _)).
Qed.

Lemma upload_pending_timeout (cfg : Config) (pending : list path)
  (start_time : Z) (w : World) :
  boot_upload_timeout cfg < now w - start_time ->
  upload_pending cfg pending start_time w = w.
Proof.
  intros T. destruct pending as [|q pending]; [reflexivity|].
  rewrite upload_pending_cons.
  apply Z.ltb_lt in T. rewrite T. reflexivity.
Qed.

(** The loop over a list is the loop over its first part, then over the
    rest: once the timeout made it leave, it stays left. *)
Lemma upload_pending_app (cfg : Config) (pre post : list path)
  (start_time : Z) (w : World) :
  upload_pending cfg (pre ++ post) start_time w
  = upload_pending cfg post start_time (upload_pending cfg pre start_time w).
Proof.
  revert w. induction pre as [|q pre IH]; intros w; [reflexivity|].
  cbn [app]. rewrite !upload_pending_cons.
  destruct (boot_upload_timeout cfg <? now w - start_time) eqn:T.
  { apply Z.ltb_lt in T. symmetry. exact (upload_pending_timeout _ _ _ _ T). }
  destruct (read_file q w); [|apply IH].
  destruct (fst (fst (modem_upload cfg q w))); apply IH.
Qed.

(** The loop removes none but the files it was given. *)
Lemma upload_pending_read_other (cfg : Config) (pre : list path)
  (start_time : Z) (w : World) (p : path) :
  ~ In p pre ->
  read_file p (upload_pending cfg pre start_time w) = read_file p w.
Proof.
  revert w. induction pre as [|q pre IH]; intros w Hin; [reflexivity|].
  rewrite upload_pending_cons.
  destruct (boot_upload_timeout cfg <? now w - start_time); [reflexivity|].
  assert (Hne : p <> q) by (intros ->; apply Hin; left; reflexivity).
  assert (Hin' : ~ In p pre) by (intros H; apply Hin; right; exact H).
  destruct (read_file q w); [|exact (IH w Hin')].
  pose proof (later_read_file _ _ p (modem_upload_later cfg q w)) as R.
  revert R. generalize (modem_upload cfg q w). intros [[ok msg] w1] R.
  cbn [fst snd] in *. destruct ok.
  - rewrite (IH _ Hin'), (os_remove_read_other q p w1 Hne). exact R.
  - rewrite (IH _ Hin'). exact R.
Qed.

(** The turn of [p], which the entries [pre] precede and the entries
    [post] follow. *)
Lemma upload_pending_turn (cfg : Config) (pre : list path) (p : path)
  (post : list path) (start_time : Z) (wn : World) :
  ~ In p pre -> read_file p wn <> None ->
  let wi := upload_pending cfg pre start_time wn in
  let w_end := upload_pending cfg (pre ++ p :: post) start_time wn in
  grows wn wi /\ grows wi w_end /\
  (boot_upload_timeout cfg < now wi - start_time -> w_end = wi) /\
  (now wi - start_time <= boot_upload_timeout cfg ->
     let u := modem_upload cfg p wi in
     In (upload_attempt p) (trace_delta wi (snd u)) /\
     w_end = upload_pending cfg post start_time
               (if fst (fst u) then os_remove p (snd u) else snd u) /\
     trace_delta wn w_end
     = (trace_delta wn wi ++ trace_delta wi (snd u)
        ++ trace_delta (snd u) w_end)%list).
Proof.
  intros Hin Hread. cbn zeta. rewrite upload_pending_app.
  pose proof (upload_pending_grows cfg pre start_time wn) as G1.
  rewrite <- (upload_pending_read_other cfg pre start_time wn p Hin) in Hread.
  revert G1 Hread. generalize (upload_pending cfg pre start_time wn).
  intros wi G1 Hread.
  pose proof (upload_pending_grows cfg (p :: post) start_time wi) as G2.
  split; [exact G1|]. split; [exact G2|].
  split; [apply upload_pending_timeout|].
  intros T.
  pose proof (modem_upload_attempt cfg p wi Hread) as A.
  split; [exact A|].
  assert (E : upload_pending cfg (p :: post) start_time wi
              = upload_pending cfg post start_time
                  (if fst (fst (modem_upload cfg p wi))
                   then os_remove p (snd (modem_upload cfg p wi))
                   else snd (modem_upload cfg p wi))).
  { rewrite upload_pending_cons.
    assert (T' : (boot_upload_timeout cfg <? now wi - start_time) = false)
      by (apply Z.ltb_ge; exact T).
    rewrite T'. destruct (read_file p wi); [|congruence].
    destruct (fst (fst (modem_upload cfg p wi))); reflexivity. }
  split; [exact E|].
  rewrite (grows_delta _ _ _ G1 G2). f_equal.
  apply grows_delta; [apply modem_upload_grows|].
  rewrite E.
  pose proof (upload_pending_grows cfg post start_time) as G3.
  destruct (fst (fst (modem_upload cfg p wi))).
  - exact (grows_trans _ _ _ (os_remove_grows p _) (G3 _)).
  - apply G3.
Qed.

Lemma get_pending_uploads_nodup (cfg : Config) (w : World) :
  NoDup (get_pending_uploads cfg w).
Proof.
  unfold get_pending_uploads. apply NoDup_filter.
  unfold listdir. destruct (mounted w); [apply NoDup_nodup | constructor].
Qed.

Lemma unmount_usb_disk_later_trace (w : World) :
  now w <= now (unmount_usb_disk w) /\
  trace (unmount_usb_disk w) = (trace w ++ [EvSleep 500])%list.
Proof. split; [cbn; lia | reflexivity]. Qed.

Lemma mount_usb_disk_same (w : World) :
  now (snd (mount_usb_disk w)) = now w /\
  trace (snd (mount_usb_disk w)) = trace w.
Proof. unfold mount_usb_disk. destruct (mountable _); split; reflexivity. Qed.

(** What [listdir] names: the children of [d] at or below which a file of
    the volume lies. *)
Lemma listdir_spec (d : path) (w : World) (p : path) :
  In p (listdir d w) <->
  mounted w = true /\
  exists f below,
    p = (d ++ [f])%list /\ In (d ++ f :: below)%list (map fst (volume w)).
Proof.
  unfold listdir. destruct (mounted w);
    [|split; [intros [] | intros [H _]; discriminate H]].
  rewrite nodup_In, in_flat_map. split.
  - intros (q & Hq & Hp). unfold entry_under in Hp.
    destruct (path_eqb (firstn (List.length d) q) d) eqn:E1;
      cbn [andb] in Hp; [|contradiction].
    destruct (Nat.ltb (List.length d) (List.length q)) eqn:E2;
      [|contradiction].
    destruct Hp as [<-|[]]. apply path_eqb_eq in E1.
    apply Nat.ltb_lt in E2. split; [reflexivity|].
    pose proof (firstn_skipn (List.length d) q) as S. rewrite E1 in S.
    destruct (skipn (List.length d) q) as [|f below].
    + exfalso. rewrite app_nil_r in S. subst q. lia.
    + exists f, below. subst q. split; [|exact Hq].
      rewrite firstn_app, firstn_all2 by lia.
      replace (S (List.length d) - List.length d)%nat with 1%nat by lia.
      reflexivity.
  - intros [_ (f & below & -> & Hq)]. exists (d ++ f :: below)%list.
    split; [exact Hq|]. unfold entry_under.
    assert (F1 : firstn (List.length d) (d ++ f :: below) = d).
    { rewrite firstn_app, firstn_all, Nat.sub_diag. cbn [firstn].
      apply app_nil_r. }
    assert (F2 : firstn (S (List.length d)) (d ++ f :: below)
                 = (d ++ [f])%list).
    { rewrite firstn_app, firstn_all2 by lia.
      replace (S (List.length d) - List.length d)%nat with 1%nat by lia.
      reflexivity. }
    assert (E1 : path_eqb d d = true) by (apply path_eqb_eq; reflexivity).
    assert (E2 : Nat.ltb (List.length d) (List.length (d ++ f :: below)) = true)
      by (apply Nat.ltb_lt; rewrite length_app; cbn [List.length]; lia).
    rewrite F1, F2, E1, E2. left. reflexivity.
Qed.

Lemma get_pending_uploads_spec (cfg : Config) (w : World) (p : path) :
  In p (get_pending_uploads cfg w) <->
  mounted w = true /\
  exists f below,
    p = (outbox_dir cfg ++ [f])%list /\
    (endswith f ".zip" = true \/ endswith f ".gz" = true) /\
    In (outbox_dir cfg ++ f :: below)%list (map fst (volume w)).
Proof.
  unfold get_pending_uploads, pending_name. rewrite filter_In, listdir_spec.
  rewrite Bool.orb_true_iff. split.
  - intros [[Hm (f & below & -> & Hq)] Hn]. split; [exact Hm|].
    exists f, below. unfold basename in Hn. rewrite last_last in Hn.
    repeat split; assumption.
  - intros [Hm (f & below & -> & Hn & Hq)].
    split; [split; [exact Hm | exists f, below; split; [reflexivity | exact Hq]]|].
    unfold basename. rewrite last_last. exact Hn.
Qed.

Lemma startup_upload_phase_eq (cfg : Config) (w : World) :
  startup_upload_phase cfg w =
  if negb (fst (mount_usb_disk w)) then (true, snd (mount_usb_disk w))
  else
    match get_pending_uploads cfg (snd (mount_usb_disk w)) with
    | [] => (true, unmount_usb_disk (snd (mount_usb_disk w)))
    | _ :: _ =>
        if negb (fst (fst (setup_network (apn cfg) (snd (mount_usb_disk w)))))
        then
          if now (snd (setup_network (apn cfg) (snd (mount_usb_disk w))))
             - now (snd (mount_usb_disk w)) <? boot_upload_timeout cfg
          then (false, snd (setup_network (apn cfg) (snd (mount_usb_disk w))))
          else (true, unmount_usb_disk
                        (snd (setup_network (apn cfg) (snd (mount_usb_disk w)))))
        else
          (true, unmount_usb_disk
                   (close_bearer
                      (upload_pending cfg (get_pending_uploads cfg (snd (mount_usb_disk w)))
                         (now (snd (mount_usb_disk w)))
                         (snd (setup_network (apn cfg)
                                 (snd (mount_usb_disk w)))))))
    end.
Proof. reflexivity. Qed.

(** C10 (as amended): at boot the entries collected are those of the
    outbox whose name ends in [.zip] or [.gz], whatever else lies there;
    with none of them the phase unmounts the disk and lets the boot
    proceed; and when the disk mounts and the network comes up, the entries
    are taken in the order collected, the time elapsed being compared with
    the timeout before each: beyond it the loop is left and the entries
    left wait; otherwise an upload is attempted for the entry, after what
    was done for those before it and before what is done for those after
    it.  This for a phase that raises nothing: the outbox is a directory,
    the entries collected are files, and the modem announces no chunk size
    that [read] refuses. *)
Theorem boot_drain (cfg : Config) (w : World) :
  boot_drain_runs cfg w -> boot_drain_spec cfg w.
Proof.
  intros (_ & Hfiles & _). unfold boot_drain_spec; cbn zeta.
  split; [intros p; apply get_pending_uploads_spec|].
  pose proof (get_pending_uploads_nodup cfg (snd (mount_usb_disk w))) as ND.
  split; [exact ND|].
  split.
  { intros Hm Hp. rewrite startup_upload_phase_eq, Hm, Hp. reflexivity. }
  intros Hm Hn pre p post E.
  rewrite startup_upload_phase_eq, Hm, Hn. cbn [negb].
  assert (Hread : read_file p (snd (mount_usb_disk w)) <> None)
    by (apply Hfiles; rewrite E; apply in_or_app; right; left; reflexivity).
  rewrite E in ND |- *. apply NoDup_remove_2 in ND.
  assert (Hin : ~ In p pre)
    by (intros H; apply ND, in_or_app; left; exact H).
  pose proof (setup_network_later (apn cfg) (snd (mount_usb_disk w))) as Ln.
  rewrite <- (later_read_file _ _ p Ln) in Hread.
  clear Hm Hn Hfiles E ND Ln. revert Hread.
  generalize (snd (setup_network (apn cfg) (snd (mount_usb_disk w)))).
  generalize (now (snd (mount_usb_disk w))).
  intros start_time wn Hread.
  split; [destruct pre; reflexivity|].
  exact (upload_pending_turn cfg pre p post start_time wn Hin Hread).
Qed.

(** The boot with [log.zip] in the outbox and a modem that accepts
    everything raises nothing. *)
Lemma world_boot_answering_runs :
  boot_drain_runs cfg_default world_boot_answering.
Proof.
  assert (P : get_pending_uploads cfg_default
                (snd (mount_usb_disk world_boot_answering))
              = [["outbox"; "log.zip"]]) by (vm_compute; reflexivity).
  unfold boot_drain_runs. cbn zeta. rewrite P.
  split; [vm_compute; reflexivity|]. split.
  - intros p [<- | []]. vm_compute. discriminate.
  - intros pre p post E.
    destruct (split_singleton _ _ _ _ E) as (-> & -> & ->).
    intros content resume_from max_chunk H. vm_compute in H.
    injection H as _ _ <-. lia.
Qed.

Lemma boot_drain_witness :
  boot_drain_runs cfg_default world_boot_answering /\
  boot_drain_spec cfg_default world_boot_answering.
Proof.
  split; [exact world_boot_answering_runs|].
  exact (boot_drain cfg_default world_boot_answering
           world_boot_answering_runs).
Defined.

(** At boot with [log.zip] and [notes.txt] in the outbox and a modem that
    accepts everything, only [log.zip] is uploaded and removed. *)
Example boot_drain_uploads_archive :
  let r := startup_upload_phase cfg_default world_boot_answering in
  fst (mount_usb_disk world_boot_answering) = true /\
  fst (fst (setup_network (apn cfg_default)
              (snd (mount_usb_disk world_boot_answering)))) = true /\
  get_pending_uploads cfg_default (snd (mount_usb_disk world_boot_answering))
  = [["outbox"; "log.zip"]] /\
  fst r = true /\
  In (upload_attempt ["outbox"; "log.zip"])
     (trace_delta world_boot_answering (snd r)) /\
  ~ In (upload_attempt ["outbox"; "notes.txt"])
       (trace_delta world_boot_answering (snd r)) /\
  volume (snd r) = [(["outbox"; "notes.txt"], "memo")] /\
  now (snd r) - now world_boot_answering <= boot_upload_timeout cfg_default.
Proof.
  cbn zeta.
  split; [vm_compute; reflexivity|].
  split; [vm_compute; reflexivity|].
  split; [vm_compute; reflexivity|].
  split; [vm_compute; reflexivity|].
  split; [vm_compute; repeat (first [left; reflexivity | right])|].
  split; [|split; [vm_compute; reflexivity | vm_compute; discriminate]].
  vm_compute. intros H.
  repeat (destruct H as [H|H]; [discriminate H|]). exact H.
Qed.

(** C10 as worded fails: [notes.txt] lies in the outbox and is neither
    collected nor uploaded, though the network is up. *)
Lemma boot_drain_not_as_worded :
  ~ boot_drain_as_worded cfg_default world_boot_answering.
Proof.
  unfold boot_drain_as_worded; cbn zeta. intros H.
  assert (Hm : fst (mount_usb_disk world_boot_answering) = true)
    by reflexivity.
  assert (Hn : fst (fst (setup_network (apn cfg_default)
                  (snd (mount_usb_disk world_boot_answering)))) = true)
    by (vm_compute; reflexivity).
  assert (Hl : In ["outbox"; "notes.txt"]
                 (listdir (outbox_dir cfg_default)
                          (snd (mount_usb_disk world_boot_answering))))
    by (vm_compute; right; left; reflexivity).
  destruct (H Hm Hn _ Hl) as [Hp _].
  vm_compute in Hp. destruct Hp as [Hp|[]]. discriminate Hp.
Qed.
(** ** Exclusivity at boot *)

(** C2 fails at boot: with an archive waiting in the outbox and a modem
    that stays silent for the whole boot timeout, every pass of
    [startup_upload_phase] returns [False] with the disk left mounted, the
    boot loop of [main] ends on its deadline, and [load_usb_gadget] then
    exposes the disk while it is still mounted. *)
Theorem boot_exposes_mounted_disk :
  exists w,
    main_boot cfg_default 15 world_boot_silent = Some (true, w) /\
    mounted w = true /\ gadget_loaded w = true /\ ~ exclusive w.
Proof.
  destruct (main_boot cfg_default 15 world_boot_silent) as [[b w]|] eqn:E;
    vm_compute in E; [|discriminate E].
  exists w. injection E as <- <-.
  repeat split; try reflexivity.
  intros H. apply H. split; reflexivity.
Qed.
(** ** How long the bearer controller can take *)

Lemma within_refl (w : World) : within 0 w w.
Proof. unfold within. lia. Qed.

Lemma within_trans (a b : Z) (w1 w2 w3 : World) :
  within a w1 w2 -> within b w2 w3 -> within (a + b) w1 w3.
Proof. unfold within. lia. Qed.

Lemma within_weaken (a b : Z) (w w' : World) :
  a <= b -> within a w w' -> within b w w'.
Proof. unfold within. lia. Qed.

(** A command whose timeout is a multiple of the poll interval is back
    within its timeout. *)
Lemma send_at_within command expected timeout w :
  0 <= timeout -> timeout mod 50 = 0 ->
  within timeout w (snd (send_at command expected timeout w)).
Proof.
  intros Hpos Hmod.
  destruct (send_at_serial command expected timeout w) as (d & [L _] & _).
  pose proof (later_now _ _ L) as Hnow.
  pose proof (send_at_loop_deadline expected
                (now (ser_write (command ++ crlf) (reset_input_buffer w)))
                timeout ""
                (ser_write (command ++ crlf) (reset_input_buffer w))) as D.
  assert (E : send_at command expected timeout w =
              send_at_loop expected
                (now (ser_write (command ++ crlf) (reset_input_buffer w)))
                timeout ""
                (ser_write (command ++ crlf) (reset_input_buffer w)))
    by reflexivity.
  rewrite <- E in D. clear E.
  assert (N : now (ser_write (command ++ crlf) (reset_input_buffer w)) = now w)
    by reflexivity.
  rewrite N in D. clear N.
  revert Hnow D. generalize (send_at command expected timeout w).
  intros [[ok resp] w1]; cbn [snd]. intros Hnow D.
  rewrite Z.sub_diag in D. specialize (D eq_refl Hmod Hpos).
  unfold within. lia.
Qed.

Lemma at_do_within command timeout w :
  0 <= timeout -> timeout mod 50 = 0 ->
  within timeout w (at_do command timeout w).
Proof. apply send_at_within. Qed.

Lemma sleep_within (ms : Z) (w : World) : 0 <= ms -> within ms w (sleep ms w).
Proof. intros H. unfold within. cbn. lia. Qed.

Lemma wait_registration_S (n : nat) (w : World) :
  wait_registration (S n) w =
  if contains ",1" (snd (fst (send_at "AT+CREG?" "OK" 2000 w)))
     || contains ",5" (snd (fst (send_at "AT+CREG?" "OK" 2000 w)))
  then (true, snd (send_at "AT+CREG?" "OK" 2000 w))
  else wait_registration n (sleep 2000 (snd (send_at "AT+CREG?" "OK" 2000 w))).
Proof. reflexivity. Qed.

(** The registration loop: two seconds for the query and two of sleep, at
    most, for each poll. *)
Lemma wait_registration_within (n : nat) (w : World) :
  within (4000 * Z.of_nat n) w (snd (wait_registration n w)).
Proof.
  revert w. induction n as [|n IH]; intros w.
  - apply within_refl.
  - rewrite wait_registration_S.
    pose proof (send_at_within "AT+CREG?" "OK" 2000 w ltac:(lia) eq_refl) as S.
    revert S. generalize (send_at "AT+CREG?" "OK" 2000 w).
    intros [[ok resp] w1]; cbn [fst snd]. intros S.
    destruct (contains ",1" resp || contains ",5" resp); cbn [snd].
    + apply within_weaken with (a := 2000); [lia | exact S].
    + pose proof (within_trans _ _ _ _ _
                    (within_trans _ _ _ _ _ S
                       (sleep_within 2000 w1 ltac:(lia)))
                    (IH (sleep 2000 w1))) as T.
      apply within_weaken with (2 := T). lia.
Qed.

Lemma bring_up_bearer_within (apn : string) (w : World) :
  within 70000 w (bring_up_bearer apn w).
Proof.
  unfold bring_up_bearer; cbn zeta.
  pose proof (at_do_within "AT+CSQ" 5000 w ltac:(lia) eq_refl) as S1.
  revert S1. generalize (at_do "AT+CSQ" 5000 w). intros w2 S1.
  pose proof (at_do_within "AT+CFUN=1" 5000 w2 ltac:(lia) eq_refl) as S2.
  revert S2. generalize (at_do "AT+CFUN=1" 5000 w2). intros w3 S2.
  pose proof (wait_registration_within 10 w3) as S3.
  revert S3. generalize (snd (wait_registration 10 w3)). intros w4 S3.
  pose proof (at_do_within
                ("AT+SAPBR=3,1," ++ quoted "Contype" ++ "," ++ quoted "GPRS")
                5000 w4 ltac:(lia) eq_refl) as S4.
  revert S4.
  generalize (at_do ("AT+SAPBR=3,1," ++ quoted "Contype" ++ ","
                     ++ quoted "GPRS") 5000 w4).
  intros w5 S4.
  pose proof (at_do_within
                ("AT+SAPBR=3,1," ++ quoted "APN" ++ "," ++ quoted apn)
                5000 w5 ltac:(lia) eq_refl) as S5.
  revert S5.
  generalize (at_do ("AT+SAPBR=3,1," ++ quoted "APN" ++ "," ++ quoted apn)
                    5000 w5).
  intros w6 S5.
  pose proof (at_do_within "AT+SAPBR=1,1" 10000 w6 ltac:(lia) eq_refl) as S6.
  revert S6. generalize (at_do "AT+SAPBR=1,1" 10000 w6). intros w7 S6.
  unfold within in *. lia.
Qed.

(** [setup_network] always returns, and within 77 seconds: 2 for the probe,
    5 each for the signal and the mode commands, 40 for the ten
    registration polls, 20 to configure and open the bearer and 5 to query
    it. *)
Theorem setup_network_duration (apn : string) (w : World) :
  within 77000 w (snd (setup_network apn w)).
Proof.
  unfold setup_network; cbn zeta.
  pose proof (send_at_within "AT" "OK" 2000 w ltac:(lia) eq_refl) as S0.
  revert S0. generalize (send_at "AT" "OK" 2000 w).
  intros [[ok resp] w1]; cbn [fst snd]. intros S0.
  destruct ok; cbn [negb snd].
  - pose proof (bring_up_bearer_within apn w1) as S1.
    revert S1. generalize (bring_up_bearer apn w1). intros w2 S1.
    pose proof (send_at_within "AT+SAPBR=2,1" "OK" 5000 w2 ltac:(lia) eq_refl)
      as S2.
    revert S2. generalize (send_at "AT+SAPBR=2,1" "OK" 5000 w2).
    intros [[ok2 resp2] w3]; cbn [fst snd]. intros S2.
    destruct (contains "0.0.0.0" resp2); cbn [snd];
      unfold within in *; lia.
  - unfold within in *. lia.
Qed.

(** Nearly all of it can be needed: a modem that answers the probe at
    once and nothing else keeps [setup_network] busy for 75 seconds, after
    which the network is reported ready, the empty reply to the bearer
    query not holding the address 0.0.0.0. *)
Example setup_network_slowest :
  now (snd (setup_network "hologram" world_probe_only)) = 75000 /\
  fst (setup_network "hologram" world_probe_only) = (true, "").
Proof. split; vm_compute; reflexivity. Qed.
(** ** More on the upload engine *)

(** An upload leaves the disk alone: the files and their contents, the
    mount and the gadget are as before, the clock has not gone back and the
    trace has only grown.  Deleting is left to the caller. *)
Theorem upload_ftp_frame chunk_size server port username password filepath
  remote_path max_retries retry_delay w :
  0 <= retry_delay ->
  forall w',
    w' = snd (upload_ftp chunk_size server port username password filepath
                         remote_path max_retries retry_delay w) ->
    volume w' = volume w /\ mounted w' = mounted w /\
    gadget_loaded w' = gadget_loaded w /\ now w <= now w' /\
    (forall p, read_file p w' = read_file p w) /\
    exists d, trace w' = (trace w ++ d)%list.
Proof.
  intros Hrd w' ->.
  pose proof (upload_ftp_later chunk_size server port username password
                filepath remote_path max_retries retry_delay w Hrd) as L.
  revert L.
  generalize (snd (upload_ftp chunk_size server port username password
                     filepath remote_path max_retries retry_delay w)).
  intros w' L.
  pose proof (fun p => later_read_file _ _ p L) as R.
  destruct L as (V & M & G & _ & _ & N & T).
  repeat split; try assumption. eexists. exact T.
Qed.

Lemma upload_ftp_frame_witness :
  0 <= 5000 /\
  volume (snd (upload_ftp 512000 "ftp.example.com" 21 "user" "secret"
                 ["a.txt"] "/" 3 5000 world_resuming))
  = volume world_resuming.
Proof.
  split; [lia|].
  apply (upload_ftp_frame 512000 "ftp.example.com" 21 "user" "secret"
           ["a.txt"] "/" 3 5000 world_resuming ltac:(lia) _ eq_refl).
Defined.

(** ** The progress record, written and read back *)


(** ** The working chunk size *)

(** The size announced, capped by the configured one; 1000 when the
    announcement does not end in an integer. *)
Example parse_max_chunk_examples :
  parse_max_chunk "+FTPPUT: 1,1,1360" 512000 = 1360 /\
  parse_max_chunk "+FTPPUT: 1,1,1360" 512 = 512 /\
  parse_max_chunk "+FTPPUT: 1,1" 512000 = 1 /\
  parse_max_chunk "+FTPPUT: 1,1,1360 OK" 512 = 1000.
Proof. repeat split; vm_compute; reflexivity. Qed.

(** ** A working chunk size of zero *)

Lemma stream_loop_zero_chunk filepath filesize max_chunk max_retries
  retry_delay rest bytes_sent acked last w :
  max_chunk = 0 -> last = now w ->
  stream_loop filepath filesize max_chunk max_retries retry_delay
              rest bytes_sent acked last w
  = (StreamDone bytes_sent acked, w).
Proof.
  intros Hz Hl.
  funelim (stream_loop filepath filesize max_chunk max_retries retry_delay
                       rest bytes_sent acked last w).
  - reflexivity.
  - unfold periodic_signal_check. rewrite Z.sub_diag. reflexivity.
  - exfalso. unfold file_read_chunk in Hread. cbn in Hread.
    destruct rest; discriminate Hread.
Qed.

(** When the session opens with a working chunk size of 0 (the modem
    announced a maximum length of 0, or [chunk_size] is 0), the first read
    returns nothing and ends the loop: no data is written, the session is
    closed at once, and the upload is reported successful when the close is
    confirmed. *)
Theorem upload_zero_chunk chunk_size server port username password filepath
  remote_path max_retries retry_delay w content B :
  read_file filepath w = Some content ->
  fst (open_session chunk_size server port username password filepath
                    remote_path w) = SessionReady content B 0 ->
  forall r,
    r = upload_ftp chunk_size server port username password filepath
                   remote_path max_retries retry_delay w ->
    (forall chunk, ~ In (EvData chunk) (trace_delta w (snd r))) /\
    fst (fst r)
    = fst (fst (wait_for_response "+FTPPUT: 1,0" 30000
                  (at_do "AT+FTPPUT=2,0" 5000
                     (sleep 500
                        (snd (open_session chunk_size server port username
                                password filepath remote_path w)))))).
Proof.
  intros Hread Hopen r Hr.
  pose proof (open_session_spec chunk_size server port username password
                filepath remote_path w content Hread) as Hspec.
  cbn zeta in Hspec. destruct Hspec as ([L O] & _).
  unfold upload_ftp in Hr. revert Hopen Hr L O.
  generalize (open_session chunk_size server port username password
                filepath remote_path w).
  intros [s w3]. cbn [fst snd]. intros -> Hr L O.
  rewrite (stream_loop_zero_chunk filepath (len content) 0 max_retries
             retry_delay _ B "" (now w3) w3 eq_refl eq_refl) in Hr.
  pose proof (close_session_spec filepath B w3) as Hclose.
  cbn zeta in Hclose.
  destruct Hclose as (Lc & Hok & _ & _ & (rec & Oc & Frec)).
  revert Hr Lc Hok Oc. generalize (close_session filepath B w3).
  intros r' <- Lc Hok Oc. split; [|exact Hok].
  intros chunk Hin. rewrite (delta_trans _ _ _ L Lc) in Hin.
  apply in_app_or in Hin as [Hin|Hin].
  - apply in_outline in Hin; [|reflexivity]. rewrite O in Hin.
    exact (cmds_no_data _ chunk (session_outline_cmds _ _ _ _ _ _ _) Hin).
  - apply in_outline in Hin; [|reflexivity]. rewrite Oc in Hin.
    destruct Hin as [E|[E|Hin]]; [discriminate E | discriminate E|].
    rewrite Forall_forall in Frec.
    destruct (Frec _ Hin) as [E|[p E]]; discriminate E.
Qed.

Lemma upload_zero_chunk_witness :
  read_file ["a.txt"] world_zero_window = Some "hello" /\
  fst (open_session 512000 "ftp.example.com" 21 "user" "secret" ["a.txt"]
                    "/" world_zero_window) = SessionReady "hello" 0 0 /\
  fst (upload_ftp 512000 "ftp.example.com" 21 "user" "secret" ["a.txt"] "/"
                  3 5000 world_zero_window) = (true, "Upload successful") /\
  forall chunk,
    ~ In (EvData chunk)
         (trace_delta world_zero_window
            (snd (upload_ftp 512000 "ftp.example.com" 21 "user" "secret"
                             ["a.txt"] "/" 3 5000 world_zero_window))).
Proof.
  split; [reflexivity|]. split; [vm_compute; reflexivity|].
  split; [vm_compute; reflexivity|].
  apply (upload_zero_chunk 512000 "ftp.example.com" 21 "user" "secret"
           ["a.txt"] "/" 3 5000 world_zero_window "hello" 0);
    [reflexivity | vm_compute; reflexivity | reflexivity].
Defined.
(** ** The state of the device through the orchestrator *)

Lemma device_kept_refl (w : World) : device_kept w w.
Proof. unfold device_kept. repeat split; lia. Qed.

Lemma device_kept_trans (w1 w2 w3 : World) :
  device_kept w1 w2 -> device_kept w2 w3 -> device_kept w1 w3.
Proof.
  intros (A1 & A2 & A3 & A4 & A5) (B1 & B2 & B3 & B4 & B5).
  unfold device_kept. repeat split; try congruence; lia.
Qed.

Lemma later_device_kept (w w' : World) : later w w' -> device_kept w w'.
Proof.
  intros (_ & M & G & Ma & Lo & N & _). unfold device_kept.
  repeat split; assumption.
Qed.

Lemma os_remove_device_kept (q : path) (w : World) :
  device_kept w (os_remove q w).
Proof.
  unfold os_remove. destruct (mounted w) eqn:M; [|apply device_kept_refl].
  unfold device_kept. cbn. repeat split; try reflexivity; lia.
Qed.

Lemma upload_each_cons (cfg : Config) (q : path) (files : list path)
  (u f : Z) (w : World) :
  upload_each cfg (q :: files) u f w =
  if fst (fst (modem_upload cfg q w))
  then upload_each cfg files (u + 1) f (os_remove q (snd (modem_upload cfg q w)))
  else upload_each cfg files u (f + 1) (snd (modem_upload cfg q w)).
Proof. reflexivity. Qed.

Lemma upload_each_device_kept (cfg : Config) (files : list path) (u f : Z)
  (w : World) :
  device_kept w (snd (upload_each cfg files u f w)).
Proof.
  revert u f w. induction files as [|q files IH]; intros u f w.
  - apply device_kept_refl.
  - rewrite upload_each_cons.
    pose proof (later_device_kept _ _ (modem_upload_later cfg q w)) as D.
    revert D. generalize (modem_upload cfg q w).
    intros [[ok msg] w1] D. cbn [fst snd] in *. destruct ok.
    + exact (device_kept_trans _ _ _
               (device_kept_trans _ _ _ D (os_remove_device_kept q w1))
               (IH _ _ _)).
    + exact (device_kept_trans _ _ _ D (IH _ _ _)).
Qed.

Lemma upload_pending_device_kept (cfg : Config) (pending : list path)
  (start_time : Z) (w : World) :
  device_kept w (upload_pending cfg pending start_time w).
Proof.
  revert w. induction pending as [|q pending IH]; intros w.
  - apply device_kept_refl.
  - rewrite upload_pending_cons.
    destruct (boot_upload_timeout cfg <? now w - start_time);
      [apply device_kept_refl|].
    destruct (read_file q w); [|apply IH].
    pose proof (later_device_kept _ _ (modem_upload_later cfg q w)) as D.
    revert D. generalize (modem_upload cfg q w).
    intros [[ok msg] w1] D. cbn [fst snd] in *. destruct ok.
    + exact (device_kept_trans _ _ _
               (device_kept_trans _ _ _ D (os_remove_device_kept q w1))
               (IH _)).
    + exact (device_kept_trans _ _ _ D (IH _)).
Qed.

Lemma mount_usb_disk_state (w : World) :
  mounted (snd (mount_usb_disk w)) = fst (mount_usb_disk w) /\
  fst (mount_usb_disk w) = mountable w /\
  gadget_loaded (snd (mount_usb_disk w)) = gadget_loaded w /\
  loadable (snd (mount_usb_disk w)) = loadable w /\
  now (snd (mount_usb_disk w)) = now w.
Proof.
  unfold mount_usb_disk. cbn [mountable set_mounted].
  destruct (mountable w); repeat split.
Qed.

Lemma unmount_usb_disk_state (w : World) :
  mounted (unmount_usb_disk w) = false /\
  gadget_loaded (unmount_usb_disk w) = gadget_loaded w /\
  loadable (unmount_usb_disk w) = loadable w /\
  now (unmount_usb_disk w) = now w + 500.
Proof. repeat split. Qed.

Lemma load_usb_gadget_state (w : World) :
  mounted (snd (load_usb_gadget w)) = mounted w /\
  fst (load_usb_gadget w) = loadable w /\
  gadget_loaded (snd (load_usb_gadget w)) = loadable w || gadget_loaded w.
Proof. unfold load_usb_gadget. destruct (loadable w); repeat split. Qed.

Lemma harvest_mounted_state (w : World) :
  mounted (harvest_mounted w)
  = fst (mount_usb_disk (sleep 1000 (unload_usb_gadget w))) /\
  gadget_loaded (harvest_mounted w) = false /\
  loadable (harvest_mounted w) = loadable w.
Proof.
  unfold harvest_mounted.
  destruct (mount_usb_disk_state (sleep 1000 (unload_usb_gadget w)))
    as (M & _ & G & L & _).
  repeat split; assumption.
Qed.

(** The device state at the end of a harvest, read off a device state that
    was kept since the mount. *)
Lemma harvest_end_state (wm wd : World) (l : bool) :
  gadget_loaded wm = false -> loadable wm = l -> device_kept wm wd ->
  mounted (snd (load_usb_gadget (unmount_usb_disk wd))) = false /\
  gadget_loaded (snd (load_usb_gadget (unmount_usb_disk wd))) = l.
Proof.
  intros G L (_ & G' & _ & L' & _).
  destruct (load_usb_gadget_state (unmount_usb_disk wd)) as (M1 & _ & G1).
  destruct (unmount_usb_disk_state wd) as (M2 & G2 & L2 & _).
  rewrite M1, G1, M2, G2, L2, G', L', G, L.
  split; [reflexivity | apply Bool.orb_false_r].
Qed.

Lemma harvest_device (cfg : Config) (w : World) (r : bool * World) :
  r = harvest_and_upload cfg w ->
  mounted (snd r) = false /\ gadget_loaded (snd r) = loadable w.
Proof.
  intros Hr. rewrite harvest_and_upload_eq in Hr.
  destruct r as [b w']. cbn [snd].
  destruct (harvest_mounted_state w) as (M & G & L).
  revert Hr M G L. generalize (harvest_mounted w).
  generalize (fst (mount_usb_disk (sleep 1000 (unload_usb_gadget w)))).
  intros okm wm Hr M G L.
  destruct okm; cbn [negb] in Hr.
  - destruct (files_to_upload wm) as [|q files].
    + injection Hr as _ ->.
      exact (harvest_end_state wm wm _ G L (device_kept_refl wm)).
    + pose proof (later_device_kept _ _ (setup_network_later (apn cfg) wm))
        as Dn.
      revert Hr Dn. generalize (setup_network (apn cfg) wm).
      intros [[okn msg] wn] Hr Dn. cbn [fst snd] in *.
      destruct okn; cbn [negb] in Hr.
      * pose proof (upload_each_device_kept cfg (q :: files) 0 0 wn) as De.
        pose proof (later_device_kept _ _
                      (close_bearer_later
                         (snd (upload_each cfg (q :: files) 0 0 wn)))) as Dc.
        revert Hr De Dc. generalize (upload_each cfg (q :: files) 0 0 wn).
        intros [[u f] wd]. cbn [fst snd]. generalize (close_bearer wd).
        intros wc Hr De Dc. injection Hr as _ ->.
        exact (harvest_end_state wm wc _ G L
                 (device_kept_trans _ _ _ Dn (device_kept_trans _ _ _ De Dc))).
      * injection Hr as _ ->. exact (harvest_end_state wm wn _ G L Dn).
  - injection Hr as _ ->.
    destruct (load_usb_gadget_state wm) as (M1 & _ & G1).
    rewrite M1, G1, M, G, L. split; [reflexivity | apply Bool.orb_false_r].
Qed.

(** Whatever happens in a harvest cycle that raises nothing (mount
    failure, nothing to upload, no network, failed uploads), it ends with
    the disk unmounted, and with the gadget loaded exactly when the gadget
    command succeeds: the disk is never left both mounted and exposed. *)
Theorem harvest_exclusive (cfg : Config) (w : World) :
  harvest_runs cfg w ->
  mounted (snd (harvest_and_upload cfg w)) = false /\
  gadget_loaded (snd (harvest_and_upload cfg w)) = loadable w /\
  exclusive (snd (harvest_and_upload cfg w)).
Proof.
  intros _. destruct (harvest_device cfg w _ eq_refl) as [M G].
  split; [exact M | split; [exact G|]].
  intros [M' _]. rewrite M in M'. discriminate M'.
Qed.

Lemma harvest_exclusive_witness :
  harvest_runs cfg_default world_harvest_ok /\
  mounted (snd (harvest_and_upload cfg_default world_harvest_ok)) = false /\
  gadget_loaded (snd (harvest_and_upload cfg_default world_harvest_ok))
  = loadable world_harvest_ok /\
  exclusive (snd (harvest_and_upload cfg_default world_harvest_ok)).
Proof.
  assert (R : harvest_runs cfg_default world_harvest_ok).
  { assert (P : files_to_upload
                  (snd (mount_usb_disk
                          (sleep 1000 (unload_usb_gadget world_harvest_ok))))
                = [["data.csv"]]) by (vm_compute; reflexivity).
    unfold harvest_runs. cbn zeta. rewrite P. intros pre p post E.
    destruct (split_singleton _ _ _ _ E) as (-> & -> & ->).
    intros content resume_from max_chunk H. vm_compute in H.
    injection H as _ _ <-. lia. }
  split; [exact R|].
  exact (harvest_exclusive cfg_default world_harvest_ok R).
Defined.

(** ** What a harvest reports *)

(** The two counters of the upload loop: every file is counted once. *)
Lemma upload_each_counts (cfg : Config) (files : list path) (u f : Z)
  (w : World) :
  u <= fst (fst (upload_each cfg files u f w)) /\
  f <= snd (fst (upload_each cfg files u f w)) /\
  fst (fst (upload_each cfg files u f w))
  + snd (fst (upload_each cfg files u f w))
  = u + f + Z.of_nat (List.length files).
Proof.
  revert u f w. induction files as [|q files IH]; intros u f w.
  - cbn. lia.
  - rewrite upload_each_cons. cbn [List.length]. rewrite Nat2Z.inj_succ.
    generalize (modem_upload cfg q w). intros [[ok msg] w1].
    cbn [fst snd]. destruct ok.
    + specialize (IH (u + 1) f (os_remove q w1)). lia.
    + specialize (IH u (f + 1) w1). lia.
Qed.

(** When no upload of the loop failed, none of its files is left. *)
Lemma upload_each_all_gone (cfg : Config) (files : list path) (u f : Z)
  (w : World) (p : path) (c : string) :
  mounted w = true ->
  snd (fst (upload_each cfg files u f w)) = f ->
  In p files -> ~ In (p, c) (volume (snd (upload_each cfg files u f w))).
Proof.
  revert u f w. induction files as [|q files IH]; intros u f w Hm Hf Hin;
    [contradiction|].
  rewrite upload_each_cons in Hf |- *.
  pose proof (later_mounted _ _ (modem_upload_later cfg q w)) as M.
  rewrite Hm in M. revert Hf M. generalize (modem_upload cfg q w).
  intros [[ok msg] w1]. cbn [fst snd]. intros Hf M. destruct ok.
  - destruct (list_eq_dec string_dec p q) as [->|Hne].
    + intros H. apply upload_each_subset in H.
      exact (os_remove_gone q w1 c M H).
    + destruct Hin as [E|Hin]; [congruence|].
      apply IH; [|exact Hf | exact Hin].
      destruct (os_remove_device_kept q w1) as (M' & _). congruence.
  - pose proof (upload_each_counts cfg files u (f + 1) w1) as (_ & H & _).
    lia.
Qed.

Lemma harvest_report (cfg : Config) (w : World) (r : bool * World) :
  r = harvest_and_upload cfg w -> fst r = true ->
  fst (mount_usb_disk (sleep 1000 (unload_usb_gadget w))) = true /\
  (files_to_upload (harvest_mounted w) <> [] ->
   fst (fst (setup_network (apn cfg) (harvest_mounted w))) = true) /\
  forall p c, In p (files_to_upload (harvest_mounted w)) ->
              ~ In (p, c) (volume (snd r)).
Proof.
  intros Hr Ht. rewrite harvest_and_upload_eq in Hr.
  destruct r as [b w']. cbn [fst snd] in *. subst b.
  destruct (harvest_mounted_state w) as (M & _ & _).
  revert Hr M. generalize (harvest_mounted w).
  generalize (fst (mount_usb_disk (sleep 1000 (unload_usb_gadget w)))).
  intros okm wm Hr M.
  destruct okm; cbn [negb] in Hr; [|discriminate Hr].
  split; [reflexivity|].
  destruct (files_to_upload wm) as [|q files].
  - split; [congruence | intros p c []].
  - pose proof (later_mounted _ _ (setup_network_later (apn cfg) wm)) as Mn.
    rewrite M in Mn. revert Hr Mn. generalize (setup_network (apn cfg) wm).
    intros [[okn msg] wn] Hr Mn. cbn [fst snd] in *.
    destruct okn; cbn [negb] in Hr; [|discriminate Hr].
    split; [reflexivity|]. intros p c Hin.
    pose proof (upload_each_all_gone cfg (q :: files) 0 0 wn p c Mn) as Hgone.
    assert (V : forall wd,
              volume (snd (load_usb_gadget
                             (unmount_usb_disk (close_bearer wd))))
              = volume wd).
    { intros wd. rewrite load_usb_gadget_volume.
      exact (later_volume _ _ (close_bearer_later wd)). }
    revert Hr Hgone. generalize (upload_each cfg (q :: files) 0 0 wn).
    intros [[u f] wd]. cbn [fst snd]. intros Hr Hgone.
    injection Hr as Hf Hw. symmetry in Hf. apply Z.eqb_eq in Hf.
    rewrite Hw, V. exact (Hgone Hf Hin).
Qed.

(** A harvest that returns [True] mounted the disk, brought the network up
    if there was anything to upload, and left none of the files it found on
    the disk. *)
Theorem harvest_success_empties (cfg : Config) (w : World) :
  fst (harvest_and_upload cfg w) = true ->
  fst (mount_usb_disk (sleep 1000 (unload_usb_gadget w))) = true /\
  (files_to_upload (harvest_mounted w) <> [] ->
   fst (fst (setup_network (apn cfg) (harvest_mounted w))) = true) /\
  forall p c, In p (files_to_upload (harvest_mounted w)) ->
              ~ In (p, c) (volume (snd (harvest_and_upload cfg w))).
Proof. exact (harvest_report cfg w _ eq_refl). Qed.

(** ** Files a harvest never touches *)

Lemma files_to_upload_candidate (w : World) (p : path) :
  In p (files_to_upload w) -> harvest_candidate p = true.
Proof.
  unfold files_to_upload. destruct (mounted w); [|contradiction].
  intros H. apply filter_In in H. apply H.
Qed.

(** Hidden files, [desktop.ini], [Thumbs.db] and whatever lies under a
    hidden directory stay on the disk through a harvest, with their
    content. *)
Theorem harvest_keeps_skipped (cfg : Config) (w : World) (p : path)
  (c : string) :
  harvest_candidate p = false -> In (p, c) (volume w) ->
  In (p, c) (volume (snd (harvest_and_upload cfg w))).
Proof.
  intros Hskip Hin.
  destruct (harvest_deletion cfg w _ eq_refl) as (_ & _ & Hkeep & _).
  apply Hkeep; [exact Hin|]. intros pre post E. exfalso.
  assert (H : In p (files_to_upload (harvest_mounted w)))
    by (rewrite E; apply in_or_app; right; left; reflexivity).
  apply files_to_upload_candidate in H. congruence.
Qed.

Lemma harvest_success_empties_witness :
  fst (harvest_and_upload cfg_default world_harvest_ok) = true /\
  forall p c, In p (files_to_upload (harvest_mounted world_harvest_ok)) ->
    ~ In (p, c) (volume (snd (harvest_and_upload cfg_default
                                                  world_harvest_ok))).
Proof.
  split; [vm_compute; reflexivity|].
  apply (harvest_success_empties cfg_default world_harvest_ok).
  vm_compute; reflexivity.
Defined.

Lemma harvest_keeps_skipped_witness :
  harvest_candidate [".Trash"; "old.csv"] = false /\
  In ([".Trash"; "old.csv"], "junk") (volume world_harvest_ok) /\
  In ([".Trash"; "old.csv"], "junk")
     (volume (snd (harvest_and_upload cfg_default world_harvest_ok))).
Proof.
  split; [reflexivity|]. split; [right; left; reflexivity|].
  apply (harvest_keeps_skipped cfg_default world_harvest_ok
           [".Trash"; "old.csv"] "junk");
    [reflexivity | right; left; reflexivity].
Defined.

(** A harvest of a disk holding [data.csv], a hidden directory and
    [desktop.ini]: only [data.csv] is uploaded and deleted, and the gadget
    is loaded again on the unmounted disk. *)
Example harvest_uploads_visible_files :
  files_to_upload (harvest_mounted world_harvest_ok) = [["data.csv"]] /\
  fst (harvest_and_upload cfg_default world_harvest_ok) = true /\
  volume (snd (harvest_and_upload cfg_default world_harvest_ok))
  = [([".Trash"; "old.csv"], "junk"); (["desktop.ini"], "x")] /\
  mounted (snd (harvest_and_upload cfg_default world_harvest_ok)) = false /\
  gadget_loaded (snd (harvest_and_upload cfg_default world_harvest_ok)) = true.
Proof.
  split; [vm_compute; reflexivity|].
  split; [vm_compute; reflexivity|].
  split; [vm_compute; reflexivity|].
  split; vm_compute; reflexivity.
Qed.

(** ** The boot phase: mount state and termination *)

Lemma startup_phase_facts (cfg : Config) (w : World) (r : bool * World) :
  r = startup_upload_phase cfg w ->
  now w <= now (snd r) /\
  gadget_loaded (snd r) = gadget_loaded w /\
  loadable (snd r) = loadable w /\
  (fst r = true -> mounted (snd r) = false) /\
  (fst r = false ->
     mounted (snd r) = true /\
     fst (mount_usb_disk w) = true /\
     get_pending_uploads cfg (snd (mount_usb_disk w)) <> [] /\
     fst (fst (setup_network (apn cfg) (snd (mount_usb_disk w)))) = false /\
     now (snd r) - now w < boot_upload_timeout cfg).
Proof.
  intros Hr. rewrite startup_upload_phase_eq in Hr.
  destruct r as [b w']. cbn [fst snd].
  destruct (mount_usb_disk_state w) as (M & _ & G & L & N).
  revert Hr M G L N. generalize (mount_usb_disk w).
  intros [okm wm]. cbn [fst snd]. intros Hr M G L N.
  destruct okm; cbn [negb] in Hr.
  - destruct (get_pending_uploads cfg wm) as [|q l] eqn:P.
    + injection Hr as -> ->.
      destruct (unmount_usb_disk_state wm) as (M' & G' & L' & N').
      rewrite M', G', L', N'.
      repeat split; try congruence; try lia; discriminate.
    + pose proof (later_device_kept _ _ (setup_network_later (apn cfg) wm))
        as (Mn & Gn & _ & Ln & Nn).
      revert Hr Mn Gn Ln Nn. generalize (setup_network (apn cfg) wm).
      intros [[okn msg] wn]. cbn [fst snd negb]. intros Hr Mn Gn Ln Nn.
      destruct okn; cbn [negb] in Hr.
      * pose proof (upload_pending_device_kept cfg (q :: l) (now wm) wn)
          as (_ & Gp & _ & Lp & Np).
        pose proof (later_device_kept _ _
                      (close_bearer_later
                         (upload_pending cfg (q :: l) (now wm) wn)))
          as (_ & Gc & _ & Lc & Nc).
        revert Hr Gp Lp Np Gc Lc Nc.
        generalize (upload_pending cfg (q :: l) (now wm) wn). intros we.
        generalize (close_bearer we). intros wc Hr Gp Lp Np Gc Lc Nc.
        injection Hr as -> ->.
        destruct (unmount_usb_disk_state wc) as (M' & G' & L' & N').
        rewrite M', G', L', N'.
        repeat split; try congruence; try lia; discriminate.
      * destruct (now wn - now wm <? boot_upload_timeout cfg) eqn:T.
        -- injection Hr as -> ->. apply Z.ltb_lt in T.
           repeat split; try congruence; try lia; try discriminate.
        -- injection Hr as -> ->.
           destruct (unmount_usb_disk_state wn) as (M' & G' & L' & N').
           rewrite M', G', L', N'.
           repeat split; try congruence; try lia; discriminate.
  - injection Hr as -> ->.
    repeat split; try congruence; try lia; discriminate.
Qed.

(** [startup_upload_phase] returns [True] only with the disk unmounted, and
    [False] only with the disk still mounted: files were pending, the
    network setup failed, and the time it took was within the timeout. *)
Theorem startup_phase_mount_state (cfg : Config) (w : World) :
  (fst (startup_upload_phase cfg w) = true ->
     mounted (snd (startup_upload_phase cfg w)) = false) /\
  (fst (startup_upload_phase cfg w) = false ->
     mounted (snd (startup_upload_phase cfg w)) = true /\
     fst (mount_usb_disk w) = true /\
     get_pending_uploads cfg (snd (mount_usb_disk w)) <> [] /\
     fst (fst (setup_network (apn cfg) (snd (mount_usb_disk w)))) = false /\
     now (snd (startup_upload_phase cfg w)) - now w
     < boot_upload_timeout cfg).
Proof.
  destruct (startup_phase_facts cfg w _ eq_refl) as (_ & _ & _ & Ht & Hf).
  split; assumption.
Qed.

Lemma boot_loop_S (cfg : Config) (fuel : nat) (boot_start : Z) (w : World) :
  boot_loop cfg (S fuel) boot_start w =
  if now w - boot_start <? boot_upload_timeout cfg
  then
    if fst (startup_upload_phase cfg w)
    then Some (snd (startup_upload_phase cfg w))
    else boot_loop cfg fuel boot_start
           (sleep 10000 (snd (startup_upload_phase cfg w)))
  else Some w.
Proof. reflexivity. Qed.

Lemma boot_loop_O (cfg : Config) (boot_start : Z) (w : World) :
  boot_loop cfg O boot_start w =
  if now w - boot_start <? boot_upload_timeout cfg then None else Some w.
Proof. reflexivity. Qed.

(** Each pass of the boot loop that does not end it moves the clock on by
    the 10 seconds of the retry sleep at least, so the loop ends. *)
Lemma boot_loop_fuel (cfg : Config) (fuel : nat) (boot_start : Z) (w : World) :
  boot_upload_timeout cfg - (now w - boot_start) <= 10000 * Z.of_nat fuel ->
  boot_loop cfg fuel boot_start w <> None.
Proof.
  revert w. induction fuel as [|fuel IH]; intros w H.
  - rewrite boot_loop_O.
    destruct (now w - boot_start <? boot_upload_timeout cfg) eqn:T;
      [|discriminate].
    apply Z.ltb_lt in T. lia.
  - rewrite boot_loop_S.
    destruct (now w - boot_start <? boot_upload_timeout cfg); [|discriminate].
    destruct (startup_phase_facts cfg w _ eq_refl) as (N & _).
    revert N. generalize (startup_upload_phase cfg w).
    intros [b w1]. cbn [fst snd]. intros N.
    destruct b; [discriminate|].
    apply IH. cbn [now sleep emit set_trace set_now]. lia.
Qed.

(** The boot phase of a [main] that raises nothing terminates: one pass
    for every 10 seconds of the boot timeout, and one more, are enough to
    reach the point where the gadget is loaded. *)
Theorem main_boot_terminates (cfg : Config) (w : World) :
  main_boot_runs cfg w ->
  exists loaded w',
    main_boot cfg (Z.to_nat (boot_upload_timeout cfg / 10000) + 1) w
    = Some (loaded, w').
Proof.
  intros _. unfold main_boot.
  pose proof (boot_loop_fuel cfg
                (Z.to_nat (boot_upload_timeout cfg / 10000) + 1)
                (now (unload_usb_gadget w)) (unload_usb_gadget w)) as H.
  destruct (boot_loop cfg (Z.to_nat (boot_upload_timeout cfg / 10000) + 1)
              (now (unload_usb_gadget w)) (unload_usb_gadget w)) as [w2|].
  - destruct (load_usb_gadget w2) as [b w3]. exists b, w3. reflexivity.
  - exfalso. apply H; [|reflexivity].
    rewrite Z.sub_diag, Z.sub_0_r, Nat2Z.inj_add.
    destruct (Z.le_gt_cases 0 (boot_upload_timeout cfg)) as [Hp|Hn].
    + rewrite Z2Nat.id by (apply Z.div_pos; lia).
      pose proof (Z.mul_succ_div_gt (boot_upload_timeout cfg) 10000
                    ltac:(lia)). lia.
    + lia.
Qed.

Lemma main_boot_terminates_witness :
  main_boot_runs cfg_default world_boot_answering /\
  exists loaded w',
    main_boot cfg_default
      (Z.to_nat (boot_upload_timeout cfg_default / 10000) + 1)
      world_boot_answering
    = Some (loaded, w').
Proof.
  assert (R : main_boot_runs cfg_default world_boot_answering).
  { intros w' B.
    assert (E : w' = world_boot_answering).
    { induction B as [|w' B IH T F]; [reflexivity|].
      subst w'. vm_compute in F. discriminate F. }
    subst w'. exact world_boot_answering_runs. }
  split; [exact R|].
  exact (main_boot_terminates cfg_default world_boot_answering R).
Defined.

Lemma boot_loop_mount (cfg : Config) (fuel : nat) (boot_start : Z)
  (w w2 : World) :
  boot_loop cfg fuel boot_start w = Some w2 ->
  gadget_loaded w2 = gadget_loaded w /\ loadable w2 = loadable w /\
  (mounted w2 = false \/ boot_upload_timeout cfg <= now w2 - boot_start).
Proof.
  revert w. induction fuel as [|fuel IH]; intros w.
  - rewrite boot_loop_O.
    destruct (now w - boot_start <? boot_upload_timeout cfg) eqn:T;
      [discriminate|].
    intros [= <-]. apply Z.ltb_ge in T. repeat split. right. exact T.
  - rewrite boot_loop_S.
    destruct (now w - boot_start <? boot_upload_timeout cfg) eqn:T.
    + destruct (startup_phase_facts cfg w _ eq_refl)
        as (_ & G & L & Ht & _).
      revert G L Ht. generalize (startup_upload_phase cfg w).
      intros [b w1]. cbn [fst snd]. intros G L Ht.
      destruct b.
      * intros [= <-]. repeat split; try assumption.
        left. exact (Ht eq_refl).
      * intros H. destruct (IH _ H) as (G2 & L2 & M2).
        cbn [gadget_loaded loadable sleep emit set_trace set_now] in G2, L2.
        split; [congruence | split; [congruence | exact M2]].
    + intros [= <-]. apply Z.ltb_ge in T. repeat split. right. exact T.
Qed.

(** When [main] reaches the point of loading the gadget, the disk is
    unmounted unless the boot loop ran into its deadline: only then can
    the gadget be loaded on a mounted disk. *)
Theorem main_boot_exclusive_before_deadline (cfg : Config) (fuel : nat)
  (w w' : World) (loaded : bool) :
  main_boot cfg fuel w = Some (loaded, w') ->
  exclusive w' \/ boot_upload_timeout cfg <= now w' - now w.
Proof.
  unfold main_boot.
  destruct (boot_loop cfg fuel (now (unload_usb_gadget w))
              (unload_usb_gadget w)) as [w2|] eqn:E; [|discriminate].
  apply boot_loop_mount in E as (_ & _ & M).
  destruct (load_usb_gadget_state w2) as (M1 & _).
  assert (N : now (snd (load_usb_gadget w2)) = now w2)
    by (unfold load_usb_gadget; destruct (loadable w2); reflexivity).
  revert M1 N. generalize (load_usb_gadget w2).
  intros [b w3]. cbn [snd]. intros M1 N [= _ <-].
  destruct M as [M|M].
  - left. intros [M' _]. congruence.
  - right. rewrite N. exact M.
Qed.

Lemma main_boot_exclusive_before_deadline_witness :
  main_boot cfg_default 1 world_boot_answering
  = Some (true, snd (load_usb_gadget
                       (snd (startup_upload_phase cfg_default
                               (unload_usb_gadget world_boot_answering))))) /\
  (exclusive (snd (load_usb_gadget
                     (snd (startup_upload_phase cfg_default
                             (unload_usb_gadget world_boot_answering)))))
   \/ boot_upload_timeout cfg_default
      <= now (snd (load_usb_gadget
                     (snd (startup_upload_phase cfg_default
                             (unload_usb_gadget world_boot_answering)))))
         - now world_boot_answering).
Proof.
  split; [vm_compute; reflexivity|].
  apply (main_boot_exclusive_before_deadline cfg_default 1
           world_boot_answering _ true).
  vm_compute; reflexivity.
Defined.
(** ** Signal strength *)

Lemma check_signal_eq (w : World) :
  check_signal w =
  if fst (fst (send_at "AT+CSQ" "OK" 2000 w))
     && contains "+CSQ:" (snd (fst (send_at "AT+CSQ" "OK" 2000 w)))
  then
    match py_int (strip (csq_field (snd (fst (send_at "AT+CSQ" "OK" 2000 w)))))
    with
    | Some rssi => ((true, rssi), snd (send_at "AT+CSQ" "OK" 2000 w))
    | None => ((false, 99), snd (send_at "AT+CSQ" "OK" 2000 w))
    end
  else ((false, 99), snd (send_at "AT+CSQ" "OK" 2000 w)).
Proof. reflexivity. Qed.

Lemma check_signal_facts (w : World) (r : (bool * Z) * World) :
  r = check_signal w ->
  snd r = at_do "AT+CSQ" 2000 w /\
  (fst (fst r) = false -> snd (fst r) = 99) /\
  (fst (fst r) = true ->
     fst (fst (send_at "AT+CSQ" "OK" 2000 w)) = true /\
     Occurs "+CSQ:" (snd (fst (send_at "AT+CSQ" "OK" 2000 w))) /\
     py_int (strip (csq_field (snd (fst (send_at "AT+CSQ" "OK" 2000 w)))))
     = Some (snd (fst r))).
Proof.
  intros Hr. rewrite check_signal_eq in Hr. unfold at_do.
  revert Hr. generalize (send_at "AT+CSQ" "OK" 2000 w).
  intros [[ok resp] w1]. cbn [fst snd]. intros Hr.
  destruct ok; cbn [andb] in Hr.
  - destruct (contains "+CSQ:" resp) eqn:C.
    + destruct (py_int (strip (csq_field resp))) as [rssi|] eqn:P;
        subst r; cbn [fst snd].
      * split; [reflexivity|]. split; [discriminate|]. intros _.
        split; [reflexivity|]. split; [|reflexivity].
        apply contains_Occurs. exact C.
      * split; [reflexivity|]. split; [reflexivity | discriminate].
    + subst r. cbn [fst snd].
      split; [reflexivity|]. split; [reflexivity | discriminate].
  - subst r. cbn [fst snd].
    split; [reflexivity|]. split; [reflexivity | discriminate].
Qed.

(** [check_signal] sends [AT+CSQ] once and is back within two seconds; it
    reports a reading only when the reply holds both [OK] and [+CSQ:] and
    the text between the first colon and the next comma is an integer, and
    reports [(False, 99)] in every other case. *)
Theorem check_signal_spec (w : World) :
  snd (check_signal w) = at_do "AT+CSQ" 2000 w /\
  within 2000 w (snd (check_signal w)) /\
  (fst (fst (check_signal w)) = false -> snd (fst (check_signal w)) = 99) /\
  (fst (fst (check_signal w)) = true ->
     fst (fst (send_at "AT+CSQ" "OK" 2000 w)) = true /\
     Occurs "+CSQ:" (snd (fst (send_at "AT+CSQ" "OK" 2000 w))) /\
     py_int (strip (csq_field (snd (fst (send_at "AT+CSQ" "OK" 2000 w)))))
     = Some (snd (fst (check_signal w)))).
Proof.
  destruct (check_signal_facts w _ eq_refl) as (Hw & Hf & Ht).
  split; [exact Hw|]. split; [|split; assumption].
  rewrite Hw. apply at_do_within; [lia | reflexivity].
Qed.

Example check_signal_examples :
  fst (check_signal world_signal_good) = (true, 20) /\
  fst (check_signal (world_answering "+CSQ: 99,99 OK")) = (true, 99) /\
  fst (check_signal (world_answering "+CSQ: ,0 OK")) = (false, 99) /\
  fst (check_signal (world_answering "OK")) = (false, 99) /\
  fst (check_signal (world_answering "+CSQ: 20,0 ERROR")) = (false, 99) /\
  fst (check_signal world0) = (false, 99).
Proof. repeat split; vm_compute; reflexivity. Qed.

(** The signal check of the stream loop is [check_signal], its reading
    thrown away. *)
Lemma periodic_signal_check_check_signal (last : Z) (w : World) :
  30000 < now w - last ->
  snd (periodic_signal_check last w) = snd (check_signal w).
Proof.
  intros H. destruct (check_signal_facts w _ eq_refl) as (Hw & _).
  rewrite Hw. unfold periodic_signal_check.
  apply Z.ltb_lt in H. rewrite H. reflexivity.
Qed.

Lemma check_signal_quality_eq (modem_ready : bool) (w : World) :
  check_signal_quality modem_ready w =
  if negb modem_ready then ((false, 0), w)
  else
    if fst (fst (check_signal w))
    then
      if snd (fst (check_signal w)) =? 99
      then ((false, snd (fst (check_signal w))), snd (check_signal w))
      else if snd (fst (check_signal w)) <? 5
      then ((false, snd (fst (check_signal w))), snd (check_signal w))
      else if snd (fst (check_signal w)) <? 10
      then ((true, snd (fst (check_signal w))), snd (check_signal w))
      else ((true, snd (fst (check_signal w))), snd (check_signal w))
    else ((false, 0), snd (check_signal w)).
Proof. reflexivity. Qed.

Lemma check_signal_quality_facts (modem_ready : bool) (w : World)
  (r : (bool * Z) * World) :
  r = check_signal_quality modem_ready w ->
  (fst (fst r) = true <->
   modem_ready = true /\ fst (fst (check_signal w)) = true /\
   5 <= snd (fst (check_signal w)) /\ snd (fst (check_signal w)) <> 99) /\
  (fst (fst r) = true -> snd (fst r) = snd (fst (check_signal w))) /\
  (modem_ready = false -> r = ((false, 0), w)) /\
  (modem_ready = true -> snd r = snd (check_signal w)) /\
  (modem_ready = true -> fst (fst (check_signal w)) = false ->
   fst r = (false, 0)).
Proof.
  intros Hr. rewrite check_signal_quality_eq in Hr.
  revert Hr. generalize (check_signal w). intros [[ok rssi] w1].
  cbn [fst snd]. intros Hr.
  destruct modem_ready; cbn [negb] in Hr.
  - destruct ok.
    + destruct (rssi =? 99) eqn:E99.
      { apply Z.eqb_eq in E99. subst r. cbn [fst snd].
        repeat split; try discriminate; try reflexivity.
        intros (_ & _ & _ & H). contradiction. }
      apply Z.eqb_neq in E99.
      destruct (rssi <? 5) eqn:E5.
      { apply Z.ltb_lt in E5. subst r. cbn [fst snd].
        repeat split; try discriminate; try reflexivity.
        intros (_ & _ & H & _). lia. }
      apply Z.ltb_ge in E5.
      destruct (rssi <? 10); subst r; cbn [fst snd];
        repeat split; try discriminate; try reflexivity; assumption.
    + subst r. cbn [fst snd].
      repeat split; try discriminate; try reflexivity.
      intros (_ & H & _). discriminate H.
  - subst r. cbn [fst snd].
    repeat split; try discriminate; try reflexivity.
    intros (H & _). discriminate H.
Qed.

(** [check_signal_quality] lets uploads go ahead exactly when a modem is
    set, a reading was obtained, and the reading is at least 5 and not 99;
    it then passes the reading on.  Without a modem it does nothing, and
    without a reading it reports 0. *)
Theorem check_signal_quality_spec (modem_ready : bool) (w : World) :
  (fst (fst (check_signal_quality modem_ready w)) = true <->
   modem_ready = true /\ fst (fst (check_signal w)) = true /\
   5 <= snd (fst (check_signal w)) /\ snd (fst (check_signal w)) <> 99) /\
  (fst (fst (check_signal_quality modem_ready w)) = true ->
   snd (fst (check_signal_quality modem_ready w))
   = snd (fst (check_signal w))) /\
  (modem_ready = false ->
   check_signal_quality modem_ready w = ((false, 0), w)) /\
  (modem_ready = true ->
   snd (check_signal_quality modem_ready w) = snd (check_signal w)) /\
  (modem_ready = true -> fst (fst (check_signal w)) = false ->
   fst (check_signal_quality modem_ready w) = (false, 0)).
Proof. exact (check_signal_quality_facts modem_ready w _ eq_refl). Qed.

Example check_signal_quality_examples :
  fst (check_signal_quality true world_signal_good) = (true, 20) /\
  fst (check_signal_quality true world_signal_weak) = (false, 3) /\
  fst (check_signal_quality true (world_answering "+CSQ: 99,99 OK"))
  = (false, 99) /\
  fst (check_signal_quality true (world_answering "+CSQ: 7,0 OK"))
  = (true, 7) /\
  fst (check_signal_quality true (world_answering "+CSQ: -3,0 OK"))
  = (false, -3) /\
  fst (check_signal_quality true world0) = (false, 0) /\
  fst (check_signal_quality false world_signal_good) = (false, 0).
Proof. repeat split; vm_compute; reflexivity. Qed.

(** ** The outbox loop of [ftp_uploader.py] *)

Lemma open_session_later chunk_size server port username password filepath
  remote_path w :
  later w (snd (open_session chunk_size server port username password
                             filepath remote_path w)).
Proof.
  destruct (read_file filepath w) as [content|] eqn:Hread.
  - pose proof (open_session_spec chunk_size server port username password
                  filepath remote_path w content Hread) as Hopen.
    cbn zeta in Hopen. destruct Hopen as ([L _] & _). exact L.
  - unfold open_session. rewrite Hread. apply later_refl.
Qed.

Lemma uploader_upload_file_eq (cfg : Config) (max_retries retry_delay : Z)
  (removable : bool) (file_path : path) (w : World) :
  uploader_upload_file cfg true max_retries retry_delay removable file_path w =
  if read_raises (fst (open_session 512000 (ftp_server cfg) (ftp_port cfg)
                (ftp_username cfg) (ftp_password cfg) file_path
                (ftp_remote_path cfg) w))
  then (false, snd (open_session 512000 (ftp_server cfg) (ftp_port cfg)
                (ftp_username cfg) (ftp_password cfg) file_path
                (ftp_remote_path cfg) w))
  else
    if fst (fst (upload_ftp 512000 (ftp_server cfg) (ftp_port cfg)
                (ftp_username cfg) (ftp_password cfg) file_path
                (ftp_remote_path cfg) max_retries retry_delay w))
    then (true, if removable
                then os_remove file_path (snd (upload_ftp 512000 (ftp_server cfg) (ftp_port cfg)
                (ftp_username cfg) (ftp_password cfg) file_path
                (ftp_remote_path cfg) max_retries retry_delay w))
                else snd (upload_ftp 512000 (ftp_server cfg) (ftp_port cfg)
                (ftp_username cfg) (ftp_password cfg) file_path
                (ftp_remote_path cfg) max_retries retry_delay w))
    else (false, snd (upload_ftp 512000 (ftp_server cfg) (ftp_port cfg)
                (ftp_username cfg) (ftp_password cfg) file_path
                (ftp_remote_path cfg) max_retries retry_delay w)).
Proof. reflexivity. Qed.

Lemma uploader_upload_file_facts (cfg : Config) (max_retries retry_delay : Z)
  (removable : bool) (q : path) (w : World) (r : bool * World) :
  0 <= retry_delay ->
  r = uploader_upload_file cfg true max_retries retry_delay removable q w ->
  device_kept w (snd r) /\
  (forall p c, In (p, c) (volume (snd r)) -> In (p, c) (volume w)) /\
  (fst r = false -> volume (snd r) = volume w) /\
  (fst r = true -> removable = false -> volume (snd r) = volume w) /\
  (fst r = true -> removable = true -> mounted w = true ->
   forall p c, In (p, c) (volume (snd r)) <->
               In (p, c) (volume w) /\ p <> q).
Proof.
  intros Hrd Hr. rewrite uploader_upload_file_eq in Hr.
  pose proof (upload_ftp_later 512000 (ftp_server cfg) (ftp_port cfg)
                (ftp_username cfg) (ftp_password cfg) q
                (ftp_remote_path cfg) max_retries retry_delay w Hrd) as L.
  pose proof (open_session_later 512000 (ftp_server cfg) (ftp_port cfg)
                (ftp_username cfg) (ftp_password cfg) q
                (ftp_remote_path cfg) w) as Lo.
  revert Hr L Lo.
  generalize (upload_ftp 512000 (ftp_server cfg) (ftp_port cfg)
                (ftp_username cfg) (ftp_password cfg) q
                (ftp_remote_path cfg) max_retries retry_delay w).
  generalize (open_session 512000 (ftp_server cfg) (ftp_port cfg)
                (ftp_username cfg) (ftp_password cfg) q
                (ftp_remote_path cfg) w).
  intros [s wo] [[ok msg] w1]. cbn [fst snd]. intros Hr L Lo.
  destruct (read_raises s).
  { subst r. cbn [fst snd].
    split; [exact (later_device_kept _ _ Lo)|].
    split; [intros p c H; rewrite <- (later_volume _ _ Lo); exact H|].
    split; [intros _; exact (later_volume _ _ Lo)|].
    split; discriminate. }
  pose proof (later_volume _ _ L) as V.
  pose proof (later_mounted _ _ L) as M.
  pose proof (later_device_kept _ _ L) as D.
  destruct ok; subst r; cbn [fst snd].
  - destruct removable.
    + split; [exact (device_kept_trans _ _ _ D (os_remove_device_kept q w1))|].
      split; [intros p c H; rewrite <- V; exact (os_remove_volume _ _ _ _ H)|].
      split; [discriminate|]. split; [discriminate|].
      intros _ _ Hm p c. rewrite Hm in M. rewrite <- V. split.
      * intros H. split; [exact (os_remove_volume _ _ _ _ H)|].
        intros ->. exact (os_remove_gone _ _ _ M H).
      * intros [H Hne]. exact (os_remove_other _ _ _ _ Hne H).
    + split; [exact D|].
      split; [intros p c H; rewrite <- V; exact H|].
      split; [discriminate|]. split; [intros _ _; exact V | discriminate].
  - split; [exact D|].
    split; [intros p c H; rewrite <- V; exact H|].
    split; [intros _; exact V|]. split; discriminate.
Qed.

(** ** Deletion by the uploader of [ftp_uploader.py] *)

(** [FTPUploader.upload_file], on a mounted volume: an uploader without a
    modem returns [False] and does nothing; an upload that raises returns
    [False]; otherwise the result is that of [upload_ftp].  A [False]
    leaves every file where it was, and so does a [True] whose removal
    fails; a [True] whose removal succeeds removes the file it was given,
    and no other. *)
Theorem uploader_deletion (cfg : Config) (modem_ready : bool)
  (max_retries retry_delay : Z) (removable : bool) (file_path : path)
  (w : World) :
  0 <= retry_delay -> mounted w = true ->
  uploader_deletion_spec cfg modem_ready max_retries retry_delay removable
                         file_path w.
Proof.
  intros Hrd Hm. unfold uploader_deletion_spec. cbn zeta.
  destruct modem_ready.
  - destruct (uploader_upload_file_facts cfg max_retries retry_delay
                removable file_path w _ Hrd eq_refl)
      as (_ & _ & F & K & G).
    split; [discriminate|].
    split.
    { intros _ content resume_from max_chunk Hs Hlt Hmc.
      rewrite uploader_upload_file_eq, Hs. unfold read_raises.
      assert (E1 : (resume_from <? len content) = true)
        by (apply Z.ltb_lt; exact Hlt).
      assert (E2 : (max_chunk <? -1) = true) by (apply Z.ltb_lt; exact Hmc).
      rewrite E1, E2. reflexivity. }
    split.
    { intros _ H. rewrite uploader_upload_file_eq.
      assert (E : read_raises
                    (fst (open_session 512000 (ftp_server cfg) (ftp_port cfg)
                         (ftp_username cfg) (ftp_password cfg) file_path
                         (ftp_remote_path cfg) w)) = false).
      { destruct (fst (open_session 512000 (ftp_server cfg) (ftp_port cfg)
                         (ftp_username cfg) (ftp_password cfg) file_path
                         (ftp_remote_path cfg) w))
          as [msg | content resume_from max_chunk] eqn:Hs; [reflexivity|].
        unfold read_raises.
        destruct (resume_from <? len content) eqn:E1; [|reflexivity].
        apply Z.ltb_lt in E1. pose proof (H _ _ _ eq_refl E1) as Hmc.
        cbn [andb]. apply Z.ltb_ge. exact Hmc. }
      rewrite E.
      destruct (fst (fst (upload_ftp 512000 (ftp_server cfg) (ftp_port cfg)
                        (ftp_username cfg) (ftp_password cfg) file_path
                        (ftp_remote_path cfg) max_retries retry_delay w))); reflexivity. }
    split; [exact F|]. split; [exact K|].
    intros Ht Hr. exact (G Ht Hr Hm).
  - split; [reflexivity|]. split; [discriminate|]. split; [discriminate|].
    split; [reflexivity|]. split; discriminate.
Qed.

Lemma uploader_deletion_witness :
  0 <= 5000 /\ mounted world_resuming = true /\
  uploader_deletion_spec cfg_default true 3 5000 true ["a.txt"]
                         world_resuming.
Proof.
  split; [lia|]. split; [reflexivity|].
  apply (uploader_deletion cfg_default true 3 5000 true ["a.txt"]
           world_resuming); [lia | reflexivity].
Defined.

(** The upload of [a.txt] succeeds; the file is removed when the removal
    succeeds, and stays when it fails, the result being [True] both
    times. *)
Example uploader_removal_may_fail :
  fst (uploader_upload_file cfg_default true 3 5000 true ["a.txt"]
         world_resuming) = true /\
  volume (snd (uploader_upload_file cfg_default true 3 5000 true ["a.txt"]
                 world_resuming)) = [] /\
  fst (uploader_upload_file cfg_default true 3 5000 false ["a.txt"]
         world_resuming) = true /\
  volume (snd (uploader_upload_file cfg_default true 3 5000 false ["a.txt"]
                 world_resuming)) = volume world_resuming.
Proof.
  split; [vm_compute; reflexivity|]. split; [vm_compute; reflexivity|].
  split; vm_compute; reflexivity.
Qed.

(** The modem announces a chunk size of -5: the read raises, the uploader
    returns [False], nothing was written as file data and the file
    stays. *)
Example uploader_catches_refused_read :
  fst (uploader_upload_file cfg_default true 3 5000 true ["a.txt"]
         world_negative_size) = false /\
  volume (snd (uploader_upload_file cfg_default true 3 5000 true ["a.txt"]
                 world_negative_size)) = volume world_negative_size /\
  writes_of (trace (snd (uploader_upload_file cfg_default true 3 5000 true
                           ["a.txt"] world_negative_size))) = [].
Proof.
  split; [vm_compute; reflexivity|]. split; vm_compute; reflexivity.
Qed.

Lemma upload_until_failure_cons (cfg : Config) (max_retries retry_delay : Z)
  (removable : path -> bool) (q : path) (rest : list path) (s : Z)
  (w : World) :
  upload_until_failure cfg max_retries retry_delay removable (q :: rest) s w =
  match read_file q w with
  | None => None
  | Some _ =>
      if fst (uploader_upload_file cfg true max_retries retry_delay
                                   (removable q) q w)
      then upload_until_failure cfg max_retries retry_delay removable rest
             (s + 1)
             (snd (uploader_upload_file cfg true max_retries retry_delay
                                        (removable q) q w))
      else Some ((s, 1),
                 snd (uploader_upload_file cfg true max_retries retry_delay
                                           (removable q) q w))
  end.
Proof. reflexivity. Qed.

Lemma read_file_mounted (p : path) (w : World) :
  read_file p w <> None -> mounted w = true.
Proof. unfold read_file. destruct (mounted w); congruence. Qed.

(** The loop only ever deletes. *)
Lemma upload_until_failure_shrinks (cfg : Config) (max_retries retry_delay : Z)
  (removable : path -> bool) (pending : list path) (s : Z) (w : World) (counts : Z * Z) (w' : World) :
  0 <= retry_delay ->
  upload_until_failure cfg max_retries retry_delay removable pending s w
  = Some (counts, w') ->
  device_kept w w' /\
  forall p c, In (p, c) (volume w') -> In (p, c) (volume w).
Proof.
  intros Hrd. revert s w. induction pending as [|q rest IH]; intros s w.
  - intros [= _ <-]. split; [apply device_kept_refl | trivial].
  - rewrite upload_until_failure_cons.
    destruct (read_file q w); [|discriminate].
    destruct (uploader_upload_file_facts cfg max_retries retry_delay (removable q)
                q w _
                Hrd eq_refl) as (D & V & _).
    revert D V.
    generalize (uploader_upload_file cfg true max_retries retry_delay
                                      (removable q) q w).
    intros [ok w1]. cbn [fst snd]. intros D V. destruct ok.
    + intros H. destruct (IH _ _ H) as (D' & V').
      split; [exact (device_kept_trans _ _ _ D D')|].
      intros p c Hin. exact (V _ _ (V' _ _ Hin)).
    + intros [= _ <-]. split; assumption.
Qed.

Lemma upload_until_failure_stops (cfg : Config) (max_retries retry_delay : Z)
  (removable : path -> bool) (pending : list path) (s : Z) (w : World) (counts : Z * Z) (w' : World) :
  0 <= retry_delay ->
  upload_until_failure cfg max_retries retry_delay removable pending s w
  = Some (counts, w') ->
  (counts = (s + Z.of_nat (List.length pending), 0) /\
   forall p c, In p pending -> removable p = true ->
               ~ In (p, c) (volume w'))
  \/
  (exists pre q post w1,
     pending = (pre ++ q :: post)%list /\
     counts = (s + Z.of_nat (List.length pre), 1) /\
     upload_until_failure cfg max_retries retry_delay removable pre s w
     = Some ((s + Z.of_nat (List.length pre), 0), w1) /\
     read_file q w1 <> None /\
     uploader_upload_file cfg true max_retries retry_delay (removable q) q w1
     = (false, w')).
Proof.
  intros Hrd. revert s w. induction pending as [|q rest IH]; intros s w.
  - intros [= <- <-]. left. cbn [List.length]. rewrite Z.add_0_r.
    split; [reflexivity | intros p c []].
  - rewrite upload_until_failure_cons.
    destruct (read_file q w) as [content|] eqn:R; [|discriminate].
    assert (Hm : mounted w = true)
      by (apply (read_file_mounted q); congruence).
    assert (U : exists ok w1,
              uploader_upload_file cfg true max_retries retry_delay
                                   (removable q) q w
              = (ok, w1))
      by (destruct (uploader_upload_file cfg true max_retries retry_delay
                                         (removable q) q w) as [ok w1];
          exists ok, w1; reflexivity).
    destruct U as (ok & w1 & U).
    destruct (uploader_upload_file_facts cfg max_retries retry_delay (removable q)
                q w _
                Hrd (eq_sym U)) as (_ & _ & _ & _ & G).
    rewrite U. cbn [fst snd] in *. destruct ok.
    + intros H. pose proof (upload_until_failure_shrinks _ _ _ _ _ _ _ _ _
                              Hrd H) as (_ & V).
      destruct (IH _ _ H) as [[Hc Hgone]|(pre & f & post & w2 & E & Hc & Hpre
                                          & Hr & Hf)].
      * left. split.
        -- rewrite Hc. cbn [List.length]. rewrite Nat2Z.inj_succ.
           f_equal. lia.
        -- intros p c [<-|Hin] Hrm; [|exact (Hgone p c Hin Hrm)].
           intros Hin.
           destruct (proj1 (G eq_refl Hrm Hm q c) (V _ _ Hin)) as [_ Hne].
           apply Hne. reflexivity.
      * right. exists (q :: pre), f, post, w2.
        split; [rewrite E; reflexivity|].
        cbn [List.length]. rewrite Nat2Z.inj_succ.
        replace (s + Z.succ (Z.of_nat (List.length pre)))
          with (s + 1 + Z.of_nat (List.length pre)) by lia.
        split; [exact Hc|]. split; [|split; assumption].
        rewrite upload_until_failure_cons, R, U. exact Hpre.
    + intros [= <- <-]. right. exists [], q, rest, w.
      cbn [List.length app]. rewrite Z.add_0_r.
      split; [reflexivity|]. split; [reflexivity|].
      split; [reflexivity|]. split; [congruence | exact U].
Qed.

(** The upload loop of [process_outbox] stops at the first failure: either
    every pending file was uploaded, and removed when its removal
    succeeds, or the loop ended in the world in which the first failed
    upload returned, the files before it uploaded and counted, the files
    after it not tried. *)
Theorem outbox_stops_on_first_failure (cfg : Config)
  (max_retries retry_delay : Z) (removable : path -> bool)
  (pending : list path) (w : World)
  (counts : Z * Z) (w' : World) :
  0 <= retry_delay ->
  upload_until_failure cfg max_retries retry_delay removable pending 0 w
  = Some (counts, w') ->
  (counts = (Z.of_nat (List.length pending), 0) /\
   forall p c, In p pending -> removable p = true ->
               ~ In (p, c) (volume w'))
  \/
  (exists pre q post w1,
     pending = (pre ++ q :: post)%list /\
     counts = (Z.of_nat (List.length pre), 1) /\
     upload_until_failure cfg max_retries retry_delay removable pre 0 w
     = Some ((Z.of_nat (List.length pre), 0), w1) /\
     read_file q w1 <> None /\
     uploader_upload_file cfg true max_retries retry_delay (removable q) q w1
     = (false, w')).
Proof.
  intros Hrd H.
  exact (upload_until_failure_stops cfg max_retries retry_delay removable
           pending 0 w counts w' Hrd H).
Qed.

Lemma outbox_stops_on_first_failure_witness :
  0 <= 5000 /\
  upload_until_failure cfg_default 3 5000 (fun _ => true)
    [["a.txt"]; ["b.txt"]; ["c.txt"]] 0 world_outbox_checked
  = Some ((1, 1), world_outbox_failed) /\
  volume world_outbox_failed
  = [(["b.txt"], "world"); (["c.txt"], "again")] /\
  ((1, 1) = (Z.of_nat (List.length [["a.txt"]; ["b.txt"]; ["c.txt"]]), 0) /\
   (forall p c, In p [["a.txt"]; ["b.txt"]; ["c.txt"]] -> true = true ->
                ~ In (p, c) (volume world_outbox_failed))
   \/
   exists pre q post w1,
     [["a.txt"]; ["b.txt"]; ["c.txt"]] = (pre ++ q :: post)%list /\
     (1, 1) = (Z.of_nat (List.length pre), 1) /\
     upload_until_failure cfg_default 3 5000 (fun _ => true) pre 0
                          world_outbox_checked
     = Some ((Z.of_nat (List.length pre), 0), w1) /\
     read_file q w1 <> None /\
     uploader_upload_file cfg_default true 3 5000 true q w1
     = (false, world_outbox_failed)).
Proof.
  split; [lia|]. split; [vm_compute; reflexivity|].
  split; [vm_compute; reflexivity|].
  apply (outbox_stops_on_first_failure cfg_default 3 5000 (fun _ => true)
           [["a.txt"]; ["b.txt"]; ["c.txt"]] world_outbox_checked (1, 1)
           world_outbox_failed); [lia | vm_compute; reflexivity].
Defined.

(** ** [process_outbox] *)

Lemma check_signal_quality_volume (w : World) :
  volume (snd (check_signal_quality true w)) = volume w.
Proof.
  destruct (check_signal_quality_facts true w _ eq_refl)
    as (_ & _ & _ & Hw & _).
  rewrite (Hw eq_refl).
  destruct (check_signal_facts w _ eq_refl) as (Hs & _). rewrite Hs.
  destruct (at_do_serial "AT+CSQ" 2000 w) as (d & [L _] & _).
  exact (later_volume _ _ L).
Qed.

Lemma process_outbox_eq (cfg : Config) (modem_ready : bool)
  (max_retries retry_delay : Z) (removable : path -> bool)
  (pending_files : list path) (w : World) :
  process_outbox cfg modem_ready max_retries retry_delay removable
                 pending_files w =
  if negb (fst (if negb modem_ready then initialize_modem cfg w
                else (true, w)))
  then Some (false, snd (if negb modem_ready then initialize_modem cfg w
                         else (true, w)))
  else
    if negb (fst (fst (check_signal_quality true
                         (snd (if negb modem_ready
                               then initialize_modem cfg w else (true, w))))))
    then Some (false,
               snd (check_signal_quality true
                      (snd (if negb modem_ready
                            then initialize_modem cfg w else (true, w)))))
    else
      match pending_files with
      | [] => Some (true,
                    snd (check_signal_quality true
                           (snd (if negb modem_ready
                                 then initialize_modem cfg w else (true, w)))))
      | _ :: _ =>
          match upload_until_failure cfg max_retries retry_delay removable
                  pending_files 0
                  (snd (check_signal_quality true
                          (snd (if negb modem_ready
                                then initialize_modem cfg w else (true, w)))))
          with
          | None => None
          | Some done => Some (snd (fst done) =? 0, snd done)
          end
      end.
Proof. reflexivity. Qed.

Lemma initialize_modem_volume (cfg : Config) (w : World) :
  volume (snd (initialize_modem cfg w)) = volume w.
Proof.
  unfold initialize_modem. cbn [snd].
  exact (later_volume _ _ (setup_network_later (apn cfg) w)).
Qed.

Lemma process_outbox_facts (cfg : Config) (modem_ready : bool)
  (max_retries retry_delay : Z) (removable : path -> bool)
  (pending : list path) (w : World) (ok : bool) (w' : World) :
  0 <= retry_delay ->
  process_outbox cfg modem_ready max_retries retry_delay removable pending w
  = Some (ok, w') ->
  (forall p c, In (p, c) (volume w') -> In (p, c) (volume w)) /\
  (ok = true ->
   forall p c, In p pending -> removable p = true ->
               ~ In (p, c) (volume w')) /\
  (modem_ready = false -> fst (initialize_modem cfg w) = false ->
   ok = false /\ volume w' = volume w) /\
  (fst (fst (check_signal_quality true
               (snd (if negb modem_ready then initialize_modem cfg w
                     else (true, w))))) = false ->
   ok = false /\ volume w' = volume w).
Proof.
  intros Hrd H. rewrite process_outbox_eq in H.
  assert (V0 : volume (snd (if negb modem_ready then initialize_modem cfg w
                            else (true, w))) = volume w)
    by (destruct modem_ready; cbn [negb snd];
        [reflexivity | apply initialize_modem_volume]).
  assert (I0 : modem_ready = false ->
               fst (if negb modem_ready then initialize_modem cfg w
                    else (true, w)) = fst (initialize_modem cfg w))
    by (intros ->; reflexivity).
  revert H V0 I0.
  generalize (if negb modem_ready then initialize_modem cfg w else (true, w)).
  generalize (fst (initialize_modem cfg w)).
  intros iok [okm w0]. cbn [fst snd]. intros H V0 I0.
  destruct okm; cbn [negb] in H.
  - pose proof (check_signal_quality_volume w0) as Vs. rewrite V0 in Vs.
    revert H Vs. generalize (check_signal_quality true w0).
    intros [[sok rssi] ws]. cbn [fst snd]. intros H Vs.
    destruct sok; cbn [negb] in H.
    + destruct pending as [|q l].
      * injection H as <- <-. rewrite Vs.
        split; [trivial|]. split; [intros _ p c []|].
        split; [intros E1 E2; specialize (I0 E1); congruence|].
        discriminate.
      * destruct (upload_until_failure cfg max_retries retry_delay removable
                    (q :: l) 0 ws) as [[counts w2]|] eqn:U;
          [|discriminate H].
        cbn [fst snd] in H. injection H as <- <-.
        destruct (upload_until_failure_shrinks _ _ _ _ _ _ _ _ _ Hrd U)
          as (_ & Vu).
        split; [intros p c Hin; rewrite <- Vs; exact (Vu _ _ Hin)|].
        split.
        -- intros Hz p c Hin Hrm.
           destruct (upload_until_failure_stops _ _ _ _ _ _ _ _ _ Hrd U)
             as [[_ Hgone]|(pre & f & post & w1 & _ & Hc & _)].
           ++ exact (Hgone p c Hin Hrm).
           ++ rewrite Hc in Hz. discriminate Hz.
        -- split; [intros E1 E2; specialize (I0 E1); congruence|].
           discriminate.
    + injection H as <- <-. rewrite Vs.
      split; [trivial|]. split; [discriminate|].
      split; intros; split; reflexivity.
  - injection H as <- <-. rewrite V0.
    split; [trivial|]. split; [discriminate|].
    split; intros; split; reflexivity.
Qed.

(** [process_outbox] only ever deletes files, and only uploaded ones: it
    returns [True] only when none of the pending files is left, those
    apart whose removal failed; when the
    modem cannot be initialised or the signal is too weak it returns
    [False] and every file is where it was. *)
Theorem process_outbox_spec (cfg : Config) (modem_ready : bool)
  (max_retries retry_delay : Z) (removable : path -> bool)
  (pending : list path) (w : World) (ok : bool) (w' : World) :
  0 <= retry_delay ->
  process_outbox cfg modem_ready max_retries retry_delay removable pending w
  = Some (ok, w') ->
  (forall p c, In (p, c) (volume w') -> In (p, c) (volume w)) /\
  (ok = true ->
   forall p c, In p pending -> removable p = true ->
               ~ In (p, c) (volume w')) /\
  (modem_ready = false -> fst (initialize_modem cfg w) = false ->
   ok = false /\ volume w' = volume w) /\
  (fst (fst (check_signal_quality true
               (snd (if negb modem_ready then initialize_modem cfg w
                     else (true, w))))) = false ->
   ok = false /\ volume w' = volume w).
Proof.
  exact (process_outbox_facts cfg modem_ready _ _ removable pending w ok w').
Qed.

Lemma process_outbox_spec_witness :
  0 <= 5000 /\
  process_outbox cfg_default true 3 5000 (fun _ => true)
                 [["a.txt"]; ["b.txt"]; ["c.txt"]] world_outbox
  = Some (false, world_outbox_failed) /\
  forall p c, In (p, c) (volume world_outbox_failed) ->
              In (p, c) (volume world_outbox).
Proof.
  split; [lia|]. split; [vm_compute; reflexivity|].
  apply (process_outbox_spec cfg_default true 3 5000 (fun _ => true)
           [["a.txt"]; ["b.txt"]; ["c.txt"]] world_outbox false
           world_outbox_failed); [lia | vm_compute; reflexivity].
Defined.

(** With a signal quality of 3 nothing is uploaded and nothing deleted. *)
Example process_outbox_weak_signal :
  exists w',
    process_outbox cfg_default true 3 5000 (fun _ => true) [["a.txt"]]
                   world_signal_weak
    = Some (false, w') /\
    volume w' = volume world_signal_weak /\
    outline (trace w') = [cmd "AT+CSQ"].
Proof.
  eexists. split; [vm_compute; reflexivity|].
  split; vm_compute; reflexivity.
Qed.
(** ** The main program's single-file upload *)

(** [upload_file] of [main.py] never deletes: after it, every file is on
    the disk with its content and the device is as it was; it returns
    [True] only when the network came up and the FTP upload succeeded, and
    when the network does not come up it stops there, without sending any
    FTP command or closing the bearer. *)
Theorem main_upload_file_spec (cfg : Config) (zip_path : path) (w : World) :
  later w (snd (main_upload_file cfg zip_path w)) /\
  (fst (main_upload_file cfg zip_path w) = true ->
   fst (fst (setup_network (apn cfg) w)) = true /\
   fst (fst (modem_upload cfg zip_path (snd (setup_network (apn cfg) w))))
   = true) /\
  (fst (fst (setup_network (apn cfg) w)) = false ->
   main_upload_file cfg zip_path w = (false, snd (setup_network (apn cfg) w))).
Proof.
  unfold main_upload_file; cbn zeta.
  pose proof (setup_network_later (apn cfg) w) as Ln. revert Ln.
  generalize (setup_network (apn cfg) w).
  intros [[okn msg] wn]. cbn [fst snd]. intros Ln.
  destruct okn; cbn [negb].
  - pose proof (modem_upload_later cfg zip_path wn) as Lu.
    pose proof (close_bearer_later (snd (modem_upload cfg zip_path wn))) as Lc.
    revert Lu Lc. generalize (modem_upload cfg zip_path wn).
    intros [[ok m] wu]. cbn [fst snd]. intros Lu Lc.
    split; [exact (later_trans _ _ _ (later_trans _ _ _ Ln Lu) Lc)|].
    split; [intros ->; split; reflexivity | discriminate].
  - cbn [fst snd]. split; [exact Ln|].
    split; [discriminate | reflexivity].
Qed.

(** ** The HTTP upload *)

Lemma data_written_app (a b : list Event) :
  data_written (a ++ b) = data_written a ++ data_written b.
Proof.
  induction a as [|e a IH]; [reflexivity|].
  destruct e; cbn [app data_written]; try exact IH.
  rewrite IH. symmetry. apply str_app_assoc.
Qed.

Lemma data_written_outline (d : list Event) :
  data_written (outline d) = data_written d.
Proof.
  induction d as [|e d IH]; [reflexivity|].
  destruct e; cbn [outline filter engine_event negb data_written];
    fold (outline d); try exact IH.
  now rewrite IH.
Qed.

Lemma http_post_chunk_outlined (url chunk : string) (w0 w : World)
  (o : list Event) :
  outlined w0 o w ->
  outlined w0 (o ++ http_chunk_outline url chunk)
           (snd (http_post_chunk url chunk w)).
Proof.
  intros H0. unfold http_post_chunk; cbn zeta. cbn [snd].
  pose proof (outlined_at_do _ _ _ "AT+HTTPINIT" 5000 H0) as H1.
  pose proof (outlined_at_do _ _ _
                ("AT+HTTPPARA=" ++ quoted "URL" ++ "," ++ quoted url)
                5000 H1) as H2.
  pose proof (outlined_at_do _ _ _
                ("AT+HTTPPARA=" ++ quoted "CONTENT" ++ ","
                 ++ quoted "application/octet-stream") 5000 H2) as H3.
  pose proof (outlined_emit _ _ _
                (EvCmd ("AT+HTTPDATA=" ++ string_of_Z (len chunk)
                        ++ ",10000" ++ crlf)) H3) as H4.
  pose proof (outlined_sleep _ _ _ 500 ltac:(lia) H4) as H5.
  pose proof (outlined_emit _ _ _ (EvData chunk) H5) as H6.
  pose proof (outlined_send_at _ _ _ "AT+HTTPACTION=1" "+HTTPACTION: 1,200"
                30000 H6) as H7.
  pose proof (outlined_at_do _ _ _ "AT+HTTPTERM" 5000 H7) as H8.
  unfold http_chunk_outline.
  repeat rewrite <- app_assoc in H8. exact H8.
Qed.

Section HttpLoopFacts.

Variable post_chunk : string -> World -> (bool * string) * World.
Variable chunk_outline : string -> list Event.
Hypothesis post_chunk_outlined :
  forall chunk w0 o w,
    outlined w0 o w ->
    outlined w0 (o ++ chunk_outline chunk) (snd (post_chunk chunk w)).

(** The loop runs as [http_run] says. *)
Lemma http_chunks_run (size : Z) (rest : string) (chunk_index : Z)
  (w : World) :
  exists chunks,
    http_run post_chunk size rest chunk_index w chunks
             (fst (http_chunks post_chunk size rest chunk_index w))
             (snd (http_chunks post_chunk size rest chunk_index w)).
Proof.
  funelim (http_chunks post_chunk size rest chunk_index w).
  - exists []. apply http_end. assumption.
  - assert (Hread : file_read_chunk size rest <> "") by assumption.
    pose proof (http_failed post_chunk size rest chunk_index w Hread) as Hf.
    pose proof (http_posted post_chunk size rest chunk_index w) as Hp.
    revert H Hf Hp. generalize (post_chunk (file_read_chunk size rest) w).
    intros [[ok resp] w1]. cbn [fst snd]. intros IH Hf Hp.
    destruct ok; cbn [negb].
    + destruct IH as (chunks & R).
      exists (file_read_chunk size rest :: chunks).
      exact (Hp _ _ _ Hread eq_refl R).
    + exists [file_read_chunk size rest]. exact (Hf eq_refl).
Qed.

(** A run posts the successive chunks of the file, in order, each of them
    non-empty; it reports success only at the end of the file, unless the
    chunk size is 0; it reports a failure for the last chunk posted, whose
    post failed, and names it by its number. *)
Lemma http_run_facts (size : Z) (rest : string) (chunk_index : Z)
  (w : World) (chunks : list string) (result : bool * string) (w' : World) :
  http_run post_chunk size rest chunk_index w chunks result w' ->
  forall w0 o, outlined w0 o w ->
  exists tail,
    rest = String.concat "" chunks ++ tail /\
    Forall (fun chunk => chunk <> "") chunks /\
    outlined w0 (o ++ flat_map chunk_outline chunks) w' /\
    (fst result = true ->
     result = (true, "Upload Complete") /\ (size <> 0 -> tail = "")) /\
    (fst result = false ->
     exists done last wl,
       chunks = (done ++ [last])%list /\
       fst (fst (post_chunk last wl)) = false /\
       result = (false,
                 http_failed_message
                   (chunk_index + Z.of_nat (List.length done))
                   (snd (fst (post_chunk last wl)))) /\
       w' = snd (post_chunk last wl)) /\
    (size = 0 -> chunks = [] /\ w' = w).
Proof.
  induction 1 as [rest i w Hempty
                 | rest i w Hread Hfail
                 | rest i w chunks result w' Hread Hok R IH];
    intros w0 o H0.
  - exists rest. cbn [flat_map]. rewrite app_nil_r.
    split; [reflexivity|]. split; [constructor|]. split; [exact H0|].
    split.
    { intros _. split; [reflexivity|].
      intros Hs. exact (file_read_nothing size rest Hs Hempty). }
    split; [discriminate|]. intros _. split; reflexivity.
  - exists (file_read_rest size rest).
    split.
    { rewrite str_concat_cons. cbn [String.concat].
      rewrite str_app_empty_r. symmetry. apply file_read_split. }
    split; [constructor; [exact Hread | constructor]|].
    split.
    { cbn [flat_map]. rewrite app_nil_r. apply post_chunk_outlined.
      exact H0. }
    split; [discriminate|].
    split.
    { intros _. exists [], (file_read_chunk size rest), w.
      split; [reflexivity|]. split; [exact Hfail|].
      cbn [List.length]. rewrite Z.add_0_r. split; reflexivity. }
    intros Hz. exfalso. apply Hread. rewrite Hz. reflexivity.
  - pose proof (post_chunk_outlined (file_read_chunk size rest) _ _ _ H0)
      as H1.
    destruct (IH _ _ H1) as (tail & E & F & O & S & Fl & _).
    exists tail.
    split.
    { rewrite <- (file_read_split size rest) at 1.
      rewrite str_concat_cons, str_app_assoc, <- E. reflexivity. }
    split; [constructor; [exact Hread | exact F]|].
    split; [cbn [flat_map]; rewrite app_assoc; exact O|].
    split; [exact S|].
    split.
    { intros Hr. destruct (Fl Hr) as (done & last & wl & Ec & Hl & Er & Ew).
      exists (file_read_chunk size rest :: done), last, wl.
      split; [rewrite Ec; reflexivity|]. split; [exact Hl|].
      split; [|exact Ew]. rewrite Er. cbn [List.length].
      do 2 f_equal. lia. }
    intros Hz. exfalso. apply Hread. rewrite Hz. reflexivity.
Qed.

End HttpLoopFacts.

Lemma data_written_chunks (url : string) (chunks : list string) :
  data_written (flat_map (http_chunk_outline url) chunks)
  = String.concat "" chunks.
Proof.
  induction chunks as [|c chunks IH]; [reflexivity|].
  rewrite str_concat_cons. cbn [flat_map]. rewrite data_written_app, IH.
  f_equal. unfold http_chunk_outline, cmd. cbn [data_written].
  apply str_app_empty_r.
Qed.

(** [SIM7000GHandler.upload_file], for a chunk size that [read] accepts: a
    missing file is reported at once.  Otherwise the file is posted as
    successive non-empty chunks, each in an HTTP session of its own that is
    always terminated, a chunk being posted only after the post of the one
    before it succeeded; the bytes written are a prefix of the file, in
    order; the upload stops at the first failed post and reports the number
    of that chunk; it reports success only when the whole file was written,
    unless the chunk size is 0, when it reports success without sending
    anything. *)
Theorem handler_upload_file_spec (url : string) (size : Z) (filepath : path)
  (w : World) :
  -1 <= size -> http_upload_spec url size filepath w.
Proof.
  intros _. unfold http_upload_spec. cbn zeta.
  unfold handler_upload_file. split.
  - intros ->. reflexivity.
  - intros content ->.
    destruct (http_chunks_run (http_post_chunk url) size content 0 w)
      as (chunks & R).
    destruct (http_run_facts (http_post_chunk url) (http_chunk_outline url)
                (fun chunk w0 o w1 => http_post_chunk_outlined url chunk w0 w1 o)
                size content 0 w chunks _ _ R w [] (outlined_refl w))
      as (tail & E & F & [L O] & S & Fl & Z0).
    revert R L O S Fl Z0.
    generalize (http_chunks (http_post_chunk url) size content 0 w).
    intros [result w'] R L O S Fl Z0. cbn [fst snd] in *.
    exists chunks, tail.
    split; [exact R|]. split; [exact E|]. split; [exact F|].
    split; [exact L|]. cbn [app] in O. split; [exact O|].
    split; [rewrite <- data_written_outline, O; apply data_written_chunks|].
    split.
    { intros Hok. destruct (S Hok) as [Er T]. split; [exact Er|].
      intros Hs. rewrite E, (T Hs). symmetry. apply str_app_empty_r. }
    split; [exact Fl|].
    intros Hz. destruct (Z0 Hz) as [Ec ->].
    subst chunks. inversion R; subst; try reflexivity.
Qed.

Lemma handler_upload_file_spec_witness :
  -1 <= 2 /\
  http_upload_spec "http://example.com/up" 2 ["a.txt"] world_http.
Proof.
  split; [lia|].
  apply (handler_upload_file_spec "http://example.com/up" 2 ["a.txt"]
           world_http).
  lia.
Defined.

(** The five bytes of [a.txt] posted in chunks of two. *)
Example handler_upload_file_chunks :
  fst (handler_upload_file "http://example.com/up" 2 ["a.txt"] world_http)
  = (true, "Upload Complete") /\
  outline (trace (snd (handler_upload_file "http://example.com/up" 2
                         ["a.txt"] world_http)))
  = flat_map (http_chunk_outline "http://example.com/up") ["he"; "ll"; "o"] /\
  fst (handler_upload_file "http://example.com/up" 0 ["a.txt"] world_http)
  = (true, "Upload Complete") /\
  trace (snd (handler_upload_file "http://example.com/up" 0 ["a.txt"]
                world_http)) = [] /\
  fst (handler_upload_file "http://example.com/up" 2 ["a.txt"]
         world_empty_file) = (false, "File not found").
Proof.
  split; [vm_compute; reflexivity|].
  split; [vm_compute; reflexivity|].
  split; [vm_compute; reflexivity|].
  split; vm_compute; reflexivity.
Qed.
(** ** The write counter *)

Lemma get_disk_write_sectors_facts (disk_path : string)
  (sysfs : string -> option string) (n : Z) :
  n = get_disk_write_sectors disk_path sysfs ->
  (startswith disk_path "/dev/" = false -> n = -1) /\
  (sysfs (stat_path disk_path) = None -> n = -1) /\
  (n <> -1 ->
   startswith disk_path "/dev/" = true /\
   exists content field,
     sysfs (stat_path disk_path) = Some content /\
     nth_error (split_ws content) 6 = Some field /\
     py_int field = Some n).
Proof.
  intros ->. unfold get_disk_write_sectors.
  destruct (startswith disk_path "/dev/"); cbn [negb].
  - split; [discriminate|].
    destruct (sysfs (stat_path disk_path)) as [content|].
    + split; [discriminate|].
      destruct (nth_error (split_ws content) 6) as [field|] eqn:F.
      * destruct (py_int field) as [sectors|] eqn:P.
        -- intros _. split; [reflexivity|].
           exists content, field. repeat split; assumption.
        -- intros H. contradiction.
      * intros H. contradiction.
    + split; [reflexivity|]. intros H. contradiction.
  - split; [reflexivity|]. split; [reflexivity|]. intros H. contradiction.
Qed.

(** [get_disk_write_sectors] returns -1 when the disk is not a device
    under [/dev/] (no file is read then) and when the counters cannot be
    opened; any other value is the integer in the seventh field of the
    [stat] file of the partition. *)
Theorem get_disk_write_sectors_spec (disk_path : string)
  (sysfs : string -> option string) :
  (startswith disk_path "/dev/" = false ->
   get_disk_write_sectors disk_path sysfs = -1) /\
  (sysfs (stat_path disk_path) = None ->
   get_disk_write_sectors disk_path sysfs = -1) /\
  (get_disk_write_sectors disk_path sysfs <> -1 ->
   startswith disk_path "/dev/" = true /\
   exists content field,
     sysfs (stat_path disk_path) = Some content /\
     nth_error (split_ws content) 6 = Some field /\
     py_int field = Some (get_disk_write_sectors disk_path sysfs)).
Proof. exact (get_disk_write_sectors_facts disk_path sysfs _ eq_refl). Qed.

(** Where the counters are looked for, and what is read. *)
Example get_disk_write_sectors_examples :
  stat_path "/dev/mmcblk0p3" = "/sys/block/mmcblk0/mmcblk0p3/stat" /\
  stat_path "/dev/sda1" = "/sys/block/sda/sda1/stat" /\
  stat_path "/dev/nvme0n1p2" = "/sys/block/nvme0n1p/nvme0n1p2/stat" /\
  get_disk_write_sectors "/dev/mmcblk0p3" sysfs_mmc = 4242 /\
  get_disk_write_sectors "/dev/sda1" sysfs_mmc = -1 /\
  get_disk_write_sectors "/home/cedric/usb.img" sysfs_mmc = -1 /\
  get_disk_write_sectors "/dev/mmcblk0p3" (fun _ => Some "1 2 3 4 5 6") = -1 /\
  get_disk_write_sectors "/dev/mmcblk0p3" (fun _ => Some "1 2 3 4 5 6 x") = -1.
Proof. repeat split; vm_compute; reflexivity. Qed.

(** ** The monitor without writes *)

Lemma monitor_step_no_write (qw s : Z) (m : Monitor) (p : Poll) :
  last_write_time m = None -> last_seen_sectors m = s ->
  current_sectors p = s ->
  snd (monitor_step qw m p) = false /\
  last_write_time (fst (monitor_step qw m p)) = None /\
  last_seen_sectors (fst (monitor_step qw m p)) = s.
Proof.
  intros Hw Hs Hc. unfold monitor_step.
  destruct (String.eqb (udc_state p) "configured").
  - destruct (host_was_connected m); cbn [negb last_seen_sectors].
    + rewrite Hs, Hc, Z.ltb_irrefl, Hw. cbn. repeat split; assumption.
    + rewrite Z.ltb_irrefl. cbn [last_write_time]. rewrite Hw. cbn.
      repeat split; assumption.
  - destruct (host_was_connected m); rewrite ?Hw; cbn;
      repeat split; assumption.
Qed.

Lemma monitor_run_no_write (qw s : Z) (polls : list Poll) (m : Monitor) :
  last_write_time m = None -> last_seen_sectors m = s ->
  Forall (fun p => current_sectors p = s) polls ->
  snd (monitor_run qw m polls) = repeat false (List.length polls).
Proof.
  intros Hw Hs Hall. revert m Hw Hs.
  induction Hall as [|p polls Hp _ IH]; intros m Hw Hs; [reflexivity|].
  destruct (monitor_step_no_write qw s m p Hw Hs Hp) as (H1 & H2 & H3).
  cbn [monitor_run snd List.length repeat]. rewrite H1.
  f_equal. exact (IH _ H2 H3).
Qed.

(** As long as the write counter reads what it read when monitoring
    started, no harvest is started: not by the quiet window, however long
    the host stays connected, and not by a disconnection. *)
Theorem monitor_quiet_without_writes (qw sectors : Z) (polls : list Poll) :
  Forall (fun p => current_sectors p = sectors) polls ->
  snd (monitor_run qw (monitor_start sectors) polls)
  = repeat false (List.length polls).
Proof.
  intros H. exact (monitor_run_no_write qw sectors polls
                     (monitor_start sectors) eq_refl eq_refl H).
Qed.

Lemma monitor_quiet_without_writes_witness :
  Forall (fun p => current_sectors p = 4242) (polls_steady 4242) /\
  snd (monitor_run 30000 (monitor_start 4242) (polls_steady 4242))
  = repeat false (List.length (polls_steady 4242)).
Proof.
  split; [repeat constructor|].
  apply (monitor_quiet_without_writes 30000 4242 (polls_steady 4242)).
  repeat constructor.
Defined.

(** With a virtual disk that is an image file, not a device under
    [/dev/], the write counter always reads -1, so the monitor never
    starts a harvest. *)
Theorem file_backed_never_harvests (disk_path : string) (qw : Z)
  (sysfs0 : string -> option string) (polls : list Poll) :
  startswith disk_path "/dev/" = false ->
  Forall (fun p => exists sysfs,
            current_sectors p = get_disk_write_sectors disk_path sysfs)
         polls ->
  snd (monitor_run qw
         (monitor_start (get_disk_write_sectors disk_path sysfs0)) polls)
  = repeat false (List.length polls).
Proof.
  intros Hdev Hall.
  destruct (get_disk_write_sectors_facts disk_path sysfs0 _ eq_refl)
    as (H0 & _).
  rewrite (H0 Hdev).
  apply (monitor_run_no_write qw (-1) polls (monitor_start (-1))
           eq_refl eq_refl).
  apply Forall_impl with (2 := Hall). intros p [sysfs Hp].
  destruct (get_disk_write_sectors_facts disk_path sysfs _ eq_refl)
    as (H1 & _).
  rewrite Hp. exact (H1 Hdev).
Qed.

Lemma file_backed_never_harvests_witness :
  startswith "/home/cedric/usb.img" "/dev/" = false /\
  snd (monitor_run 30000
         (monitor_start (get_disk_write_sectors "/home/cedric/usb.img"
                                                sysfs_mmc))
         (polls_steady (-1)))
  = repeat false (List.length (polls_steady (-1))).
Proof.
  split; [reflexivity|].
  apply (file_backed_never_harvests "/home/cedric/usb.img" 30000 sysfs_mmc
           (polls_steady (-1))); [reflexivity|].
  repeat constructor; exists sysfs_mmc; reflexivity.
Defined.
